(** * File bundles (src/filebundle.c): a shallow embedding and its properties

    The C module serves files either from a tree compiled into the program
    (the bundle) or from the file system, optionally inflating or deflating
    the content with zlib when a file is opened.

    Conventions of the embedding.
    - [size_t] and [ssize_t] are the 64-bit types of an LP64 target; a value
      is a [Z], and every conversion or wrap-around is written out with
      [to_size_t] and [to_ssize_t].  zlib's [uInt], the type of the fields
      [avail_in] and [avail_out] of a [z_stream], is the 32-bit
      [unsigned int] of that target, and its [uLong], the type of
      [total_out], the 64-bit [unsigned long]: a [size_t] stored in
      [avail_in] or [avail_out] is kept modulo 2^32, written [to_uInt].
    - A C string is a [string] (the characters before the terminator).
    - A pointer to a heap object of the module ([fb_dir *], [fb_file *],
      [uint8_t *]) is an [option]: [None] is the null pointer.  A byte
      buffer filled by zlib is given by the bytes that zlib stored in it,
      from its start; what the block holds beyond them is indeterminate in
      C and is not part of the value.
    - The caller's memory is a map from addresses to bytes; [void *buf] is an
      address.
    - [malloc], [calloc], [strdup], [opendir] and [fopen] are assumed to give
      what they are asked for when the object exists (the C code never tests
      an allocation); what they hand out is counted in a [ledger].
    - zlib is outside the module: its two stream functions are the members
      of the class [Zlib], and [inflate] and [deflate] give the single calls
      the C code makes on top of them, as zlib.h documents them. *)

From Stdlib Require Import ZArith List String Ascii Bool Lia.
From Stdlib Require Import Strings.Byte.
Import ListNotations.
Open Scope Z_scope.

(** ** Machine integers *)

Definition size_modulus : Z := Eval cbv in 2 ^ 64.

(** Conversion to [size_t]. *)
Definition to_size_t (z : Z) : Z := z mod size_modulus.

(** Conversion to [ssize_t] (two's complement). *)
Definition ssize_limit : Z := Eval cbv in 2 ^ 63.

Definition to_ssize_t (z : Z) : Z :=
  let u := z mod size_modulus in
  if u <? ssize_limit then u else u - size_modulus.

(** Conversion to zlib's [uInt]. *)
Definition uInt_modulus : Z := Eval cbv in 2 ^ 32.

Definition to_uInt (z : Z) : Z := z mod uInt_modulus.

(** Modelled from the spec: the macro [MIN] of tvheadend.h, which is not
    among the sources; section 4.3 reads it as the minimum of the request
    and of what is left, [(a) < (b) ? (a) : (b)]. *)
Definition MIN (a b : Z) : Z := if a <? b then a else b.

Definition len {A} (l : list A) : Z := Z.of_nat (List.length l).

(** ** Caller memory *)

Definition memory := Z -> byte.

(** [memcpy(dst, src, |src|)]. *)
Definition memcpy (m : memory) (dst : Z) (src : list byte) : memory :=
  fun a =>
    if (dst <=? a) && (a <? dst + len src)
    then nth (Z.to_nat (a - dst)) src x00
    else m a.

(** The [n] bytes found at [src + off] in a byte array. *)
Definition bytes_at (src : list byte) (off n : Z) : list byte :=
  firstn (Z.to_nat n) (skipn (Z.to_nat off) src).

(** The C string stored at address [a], looking at no more than [n] bytes. *)
Fixpoint c_string (n : nat) (m : memory) (a : Z) : list byte :=
  match n with
  | O => []
  | S n' => if Byte.eqb (m a) x00 then [] else m a :: c_string n' m (a + 1)
  end.

(** ** The bundle tree (filebundle.h) *)

(** Modelled from the spec: the entry kinds of filebundle.h, which is not
    among the sources (section 3: Directory, File, and Unknown for a
    failed stat). *)
Inductive filebundle_type : Type := FB_UNKNOWN | FB_FILE | FB_DIR.

(** Modelled from the spec: [filebundle_entry_t] of filebundle.h, which is
    not among the sources.  By section 3 and by the fields the C code
    reads, a node has a type tag, a name, a [next] sibling pointer and a
    union of the directory view [d] (count, child) and the file view [f]
    (data, size, orig; [orig] is -1 for content stored as it is).  A value
    of [filebundle_entry] is a pointer to such a node: [NULL], or the node
    with the nodes its pointers reach.  The union is flattened: both views
    are fields, and the view that does not belong to the tag holds whatever
    the shared storage gives. *)
Inductive filebundle_entry : Type :=
| NULL
| Entry (type : filebundle_type) (name : string)
        (d_count : Z) (d_child : filebundle_entry)
        (f_data : list byte) (f_size : Z) (f_orig : Z)
        (next : filebundle_entry).

Definition filebundle_type_eqb (a b : filebundle_type) : bool :=
  match a, b with
  | FB_UNKNOWN, FB_UNKNOWN | FB_FILE, FB_FILE | FB_DIR, FB_DIR => true
  | _, _ => false
  end.

Definition e_type (fb : filebundle_entry) : filebundle_type :=
  match fb with Entry t _ _ _ _ _ _ _ => t | NULL => FB_UNKNOWN end.
Definition e_name (fb : filebundle_entry) : string :=
  match fb with Entry _ n _ _ _ _ _ _ => n | NULL => EmptyString end.
Definition d_child (fb : filebundle_entry) : filebundle_entry :=
  match fb with Entry _ _ _ c _ _ _ _ => c | NULL => NULL end.
Definition f_data (fb : filebundle_entry) : list byte :=
  match fb with Entry _ _ _ _ d _ _ _ => d | NULL => [] end.
Definition f_size (fb : filebundle_entry) : Z :=
  match fb with Entry _ _ _ _ _ s _ _ => s | NULL => 0 end.
Definition f_orig (fb : filebundle_entry) : Z :=
  match fb with Entry _ _ _ _ _ _ o _ => o | NULL => 0 end.
Definition e_next (fb : filebundle_entry) : filebundle_entry :=
  match fb with Entry _ _ _ _ _ _ _ n => n | NULL => NULL end.

Definition is_null (fb : filebundle_entry) : bool :=
  match fb with NULL => true | _ => false end.

(** ** Handles *)

Inductive fb_type : Type := FB_BUNDLE | FB_DIRECT.

(** [struct filebundle_dir].  A [DIR] stream is the list of the names it
    still has to deliver. *)
Record fb_dir : Type := mk_fb_dir {
  dir_type   : fb_type;
  dir_d_root : string;
  dir_d_cur  : list string;
  dir_b_root : filebundle_entry;
  dir_b_cur  : filebundle_entry
}.

(** [struct filebundle_file].  A [FILE] stream opened for reading is the
    list of the bytes it still has to deliver. *)
Record fb_file : Type := mk_fb_file {
  fp_type   : fb_type;
  fp_size   : Z;
  fp_gzip   : Z;
  fp_buf    : option (list byte);
  fp_pos    : Z;
  fp_d_cur  : option (list byte);
  fp_b_root : filebundle_entry
}.

Definition set_pos (fp : fb_file) (p : Z) : fb_file :=
  mk_fb_file (fp_type fp) (fp_size fp) (fp_gzip fp) (fp_buf fp) p
             (fp_d_cur fp) (fp_b_root fp).

Definition set_d_cur (fp : fb_file) (s : option (list byte)) : fb_file :=
  mk_fb_file (fp_type fp) (fp_size fp) (fp_gzip fp) (fp_buf fp) (fp_pos fp)
             s (fp_b_root fp).

(** ** Reading *)

(** [fb_size], [fb_gzipped], [fb_eof]. *)
Definition fb_size (fp : fb_file) : Z := fp_size fp.
Definition fb_gzipped (fp : fb_file) : Z := fp_gzip fp.
Definition fb_eof (fp : fb_file) : Z :=
  if fp_size fp <=? fp_pos fp then 1 else 0.

(** [fread(buf, 1, count, stream)]: the bytes delivered and the stream left.
    A closed stream delivers nothing here (the C call is undefined on it;
    no handle made by [fb_open2] reaches it in that state). *)
Definition fread (stream : option (list byte)) (count : Z)
  : list byte * option (list byte) :=
  match stream with
  | Some s => (firstn (Z.to_nat count) s, Some (skipn (Z.to_nat count) s))
  | None => ([], None)
  end.

(** [fb_read(fp, buf, count)]: the value returned, the handle and the
    caller's memory afterwards. *)
Definition fb_read (fp : fb_file) (m : memory) (buf : Z) (count : Z)
  : Z * fb_file * memory :=
  if negb (fb_eof fp =? 0) then (-1, fp, m)
  else
    match fp_buf fp with
    | Some b =>
        let count := MIN count (to_size_t (fp_size fp - fp_pos fp)) in
        let m := memcpy m buf (bytes_at b (fp_pos fp) count) in
        let fp := set_pos fp (to_size_t (fp_pos fp + count)) in
        (to_ssize_t count, fp, m)
    | None =>
        match fp_type fp with
        | FB_DIRECT =>
            let '(got, rest) := fread (fp_d_cur fp) count in
            let m := memcpy m buf got in
            let fp := set_pos (set_d_cur fp rest)
                              (to_size_t (fp_pos fp + len got)) in
            (-1, fp, m)
        | FB_BUNDLE =>
            let count :=
              MIN count (to_size_t (f_size (fp_b_root fp) - fp_pos fp)) in
            let m :=
              memcpy m buf (bytes_at (f_data (fp_b_root fp)) (fp_pos fp) count) in
            let fp := set_pos fp (to_size_t (fp_pos fp + count)) in
            (to_ssize_t count, fp, m)
        end
    end.

Definition is_line_end (b : byte) : bool :=
  Byte.eqb b x0a || Byte.eqb b x00.

(** The [while] loop of [fb_gets]; each unit of fuel pays for one evaluation
    of the loop condition.  The result is the last [err], [c], the handle
    and the memory when the loop is left. *)
Fixpoint fb_gets_loop (fuel : nat) (fp : fb_file) (m : memory) (buf count c : Z)
  : option (Z * Z * fb_file * memory) :=
  match fuel with
  | O => None
  | S fuel' =>
      let '(err, fp, m) := fb_read fp m (buf + c) 1 in
      if negb (err =? 0) && (to_size_t c <? to_size_t (count - 1)) then
        let b := m (buf + c) in
        let c := c + 1 in
        if is_line_end b then Some (err, c, fp, m)
        else fb_gets_loop fuel' fp m buf count c
      else Some (err, c, fp, m)
  end.

(** The condition is evaluated at most [count] times ([c] grows by one in
    every round and stays below [count - 1]). *)
Definition fb_gets_fuel (count : Z) : nat :=
  S (Z.to_nat (to_size_t (count - 1))).

(** [fb_gets(fp, buf, count)]: the pointer returned ([None] is [NULL]), the
    handle and the memory afterwards; the outer [None] is an exhausted
    fuel, which [fb_gets_total] rules out. *)
Definition fb_gets (fp : fb_file) (m : memory) (buf count : Z)
  : option (option Z * fb_file * memory) :=
  match fb_gets_loop (fb_gets_fuel count) fp m buf count 0 with
  | None => None
  | Some (err, c, fp, m) =>
      if err <? 0 then Some (None, fp, m)
      else Some (Some buf, fp, memcpy m (buf + c) [x00])
  end.


(** ** Resources

    The ledger counts what the process holds: blocks from [malloc], [calloc]
    and [strdup] not yet passed to [free], [DIR] streams between [opendir]
    and [closedir], [FILE] streams between [fopen] and [fclose]. *)

Record ledger : Type := mk_ledger {
  heap_blocks  : Z;
  dir_streams  : Z;
  file_streams : Z
}.

Definition ledger_add (a b : ledger) : ledger :=
  mk_ledger (heap_blocks a + heap_blocks b)
            (dir_streams a + dir_streams b)
            (file_streams a + file_streams b).

Definition no_resources : ledger := mk_ledger 0 0 0.

(** A computation of the module: it changes the ledger and returns, or it
    stops the process on a failed [assert]. *)
Inductive outcome (A : Type) : Type :=
| Done (a : A) (l : ledger)
| Abort.
Arguments Done {A} a l.
Arguments Abort {A}.

Definition M (A : Type) : Type := ledger -> outcome A.

Definition ret {A} (a : A) : M A := fun l => Done a l.

Definition bind {A B} (c : M A) (k : A -> M B) : M B :=
  fun l => match c l with
           | Done a l' => k a l'
           | Abort => Abort
           end.

Notation "x <- c ;; k" := (bind c (fun x => k))
  (at level 61, c at next level, right associativity).
Notation "c ;;; k" := (bind c (fun _ => k))
  (at level 61, right associativity).

Definition malloc : M unit :=
  fun l => Done tt (mk_ledger (heap_blocks l + 1) (dir_streams l) (file_streams l)).
Definition free : M unit :=
  fun l => Done tt (mk_ledger (heap_blocks l - 1) (dir_streams l) (file_streams l)).
Definition opendir_stream : M unit :=
  fun l => Done tt (mk_ledger (heap_blocks l) (dir_streams l + 1) (file_streams l)).
Definition closedir : M unit :=
  fun l => Done tt (mk_ledger (heap_blocks l) (dir_streams l - 1) (file_streams l)).
Definition fopen_stream : M unit :=
  fun l => Done tt (mk_ledger (heap_blocks l) (dir_streams l) (file_streams l + 1)).
Definition fclose : M unit :=
  fun l => Done tt (mk_ledger (heap_blocks l) (dir_streams l) (file_streams l - 1)).

(** [assert(b)]. *)
Definition assert (b : bool) : M unit :=
  fun l => if b then Done tt l else Abort.

(** ** What the module finds around it *)

Record environment : Type := mk_environment {
  (** [tvheadend_dataroot()]: the configured root, or [NULL]. *)
  tvheadend_dataroot : option string;
  (** [filebundle_root], the tree generated at build time. *)
  filebundle_root : filebundle_entry;
  (** [opendir(path)]: the entries of the directory, or failure. *)
  os_opendir : string -> option (list string);
  (** [fopen(path, "r")]: the content of the file, or failure. *)
  os_fopen : string -> option (list byte);
  (** [st.st_size] after [lstat(path, &st)]. *)
  os_st_size : string -> Z
}.

(** [snprintf(buf, 512, "%s/%s", a, b)]: at most 511 characters are kept. *)
Definition snprintf_512 (a b : string) : string :=
  substring 0 511 (a ++ "/" ++ b).

(** ** zlib *)

Definition Z_OK : Z := 0.
Definition Z_STREAM_END : Z := 1.
Definition Z_DATA_ERROR : Z := -3.
Definition Z_BUF_ERROR : Z := -5.

Class Zlib : Type := {
  (** The gzip stream that [deflateInit2(9, Z_DEFLATED, 31, 9,
      Z_DEFAULT_STRATEGY)] and [deflate] emit for an input, given all the
      room they ask for. *)
  gzip_stream : list byte -> list byte;
  (** The content of the gzip stream that starts an input; [None] when the
      input does not start with a complete, valid stream. *)
  gunzip_stream : list byte -> option (list byte)
}.

Section WithZlib.
Context {zlib : Zlib}.

(** One call [inflate(&zstr, Z_NO_FLUSH)] after [inflateInit2(&zstr, 31)],
    with the bytes [next_in] available ([avail_in] is their number) and
    [avail_out] bytes of room: the value
    returned, [avail_out] afterwards and the bytes stored at [next_out].
    [Z_STREAM_END] is returned exactly when the stream is complete and its
    content fits; a call that stops for lack of room returns [Z_OK].  Of a
    call that fails on its input only the fact that it does not return
    [Z_STREAM_END] is used by the C code (the output is freed unread); the
    model gives it [Z_DATA_ERROR]. *)
Definition inflate (next_in : list byte) (avail_out : Z) : Z * Z * list byte :=
  match gunzip_stream next_in with
  | Some d =>
      if len d <=? avail_out then (Z_STREAM_END, avail_out - len d, d)
      else (Z_OK, 0, firstn (Z.to_nat avail_out) d)
  | None => (Z_DATA_ERROR, avail_out, [])
  end.

(** One call [deflate(&zstr, Z_FINISH)] with the bytes [next_in] available
    ([avail_in] is their number) and
    [avail_out] bytes of room: the value returned, [total_out] and the bytes
    stored at [next_out].  With no room at all nothing can be done
    ([Z_BUF_ERROR]); with room for the whole stream the call ends it
    ([Z_STREAM_END]); otherwise it fills the room and returns [Z_OK], asking
    to be called again. *)
Definition deflate (next_in : list byte) (avail_out : Z) : Z * Z * list byte :=
  let s := gzip_stream next_in in
  if avail_out =? 0 then (Z_BUF_ERROR, 0, [])
  else if len s <=? avail_out then (Z_STREAM_END, len s, s)
  else (Z_OK, avail_out, firstn (Z.to_nat avail_out) s).

(** ** Compression and decompression *)

(** [_fb_inflate(data, size, orig)].  [zstr.avail_in = size] and
    [zstr.avail_out = orig] store a [size_t] in a [uInt]: zlib is given the
    first [size mod 2^32] bytes of [bufin] and [orig mod 2^32] bytes of room
    in [bufout], a block of [orig] bytes. *)
Definition _fb_inflate (data : list byte) (size orig : Z) : M (option (list byte)) :=
  malloc ;;;                                   (* bufin *)
  malloc ;;;                                   (* bufout *)
  let bufin := bytes_at data 0 size in
  let avail_in := to_uInt size in
  let avail_out := to_uInt orig in
  let '(err, avail_out, out) := inflate (bytes_at bufin 0 avail_in) avail_out in
  bufout <- (if negb (err =? Z_STREAM_END) || negb (avail_out =? 0)
             then free ;;; ret None
             else ret (Some out)) ;;
  free ;;;
  ret bufout.

(** [_fb_deflate(data, orig, &size)]: the buffer returned and the value of
    [*size] afterwards.  [zstr.avail_in = orig] and [zstr.avail_out = orig]
    store a [size_t] in a [uInt]: zlib is given the first [orig mod 2^32]
    bytes of [bufin] and as many bytes of room in [bufout]. *)
Definition _fb_deflate (data : list byte) (orig : Z) (size : Z)
  : M (option (list byte) * Z) :=
  malloc ;;;                                   (* bufin *)
  malloc ;;;                                   (* bufout *)
  let bufin := bytes_at data 0 orig in
  let avail_in := to_uInt orig in
  let avail_out := to_uInt orig in
  let '(err, total_out, out) := deflate (bytes_at bufin 0 avail_in) avail_out in
  r <- (if (negb (err =? Z_STREAM_END) && negb (err =? Z_OK)) || (total_out =? 0)
        then free ;;; ret (None, size)
        else ret (Some out, to_size_t total_out)) ;;
  free ;;;
  ret r.

(** ** Directories *)

(** The tokens that [strtok(tmp1, "/")] and then [strtok(NULL, "/")] return
    one after the other: the maximal runs of characters other than ['/']. *)
Fixpoint strtok_from (s : string) (cur : string) : list string :=
  match s with
  | EmptyString => match cur with EmptyString => [] | _ => [cur] end
  | String a s' =>
      if Ascii.eqb a "/"
      then match cur with
           | EmptyString => strtok_from s' EmptyString
           | _ => cur :: strtok_from s' EmptyString
           end
      else strtok_from s' (cur ++ String a EmptyString)
  end.

Definition strtok_all (s : string) : list string := strtok_from s EmptyString.

(** The [while (fb && tmp2)] loop of [fb_opendir]; [tmp2] is the head of
    [toks], a null [tmp2] the empty list. *)
Fixpoint fb_opendir_walk (fb : filebundle_entry) (toks : list string)
  : filebundle_entry :=
  match fb, toks with
  | Entry t n _ child _ _ _ next, tmp2 :: more =>
      if filebundle_type_eqb t FB_DIR && String.eqb n tmp2 then
        match more with
        | [] => fb
        | _ :: _ => fb_opendir_walk child more
        end
      else fb_opendir_walk next toks
  | _, _ => fb
  end.

(** [*path != '/']. *)
Definition not_absolute (path : string) : bool :=
  match path with
  | String a _ => negb (Ascii.eqb a "/")
  | EmptyString => true
  end.

(** [fb_opendir(path)]. *)
Definition fb_opendir (env : environment) (path : string) : M (option fb_dir) :=
  let root := if not_absolute path then tvheadend_dataroot env
              else Some EmptyString in
  match root with
  | None =>
      malloc ;;;                               (* tmp1 = strdup(path) *)
      let fb := fb_opendir_walk (filebundle_root env) (strtok_all path) in
      free ;;;
      if is_null fb then ret None
      else
        malloc ;;;                             (* calloc(1, sizeof(fb_dir)) *)
        ret (Some (mk_fb_dir FB_BUNDLE EmptyString [] fb (d_child fb)))
  | Some root =>
      let buf := snprintf_512 root path in
      match os_opendir env buf with
      | Some dir =>
          opendir_stream ;;;
          malloc ;;;                           (* calloc(1, sizeof(fb_dir)) *)
          malloc ;;;                           (* strdup(buf) *)
          ret (Some (mk_fb_dir FB_DIRECT buf dir NULL NULL))
      | None => ret None
      end
  end.

(** [fb_closedir(dir)]. *)
Definition fb_closedir (dir : fb_dir) : M unit :=
  match dir_type dir with
  | FB_DIRECT => closedir ;;; free
  | FB_BUNDLE => ret tt
  end ;;;
  free.

(** Modelled from the spec: [fb_dirent] of filebundle.h, which is not among
    the sources (section 3: a name and a type among Directory, File and
    Unknown). *)
Record fb_dirent : Type := mk_fb_dirent {
  dirent_name : string;
  dirent_type : filebundle_type
}.

Definition set_b_cur (dir : fb_dir) (fb : filebundle_entry) : fb_dir :=
  mk_fb_dir (dir_type dir) (dir_d_root dir) (dir_d_cur dir) (dir_b_root dir) fb.

Definition set_dir_d_cur (dir : fb_dir) (s : list string) : fb_dir :=
  mk_fb_dir (dir_type dir) (dir_d_root dir) s (dir_b_root dir) (dir_b_cur dir).

(** [fb_readdir(dir)]: the entry returned ([None] is [NULL]) and the handle
    afterwards.  [lstat path] is what [lstat(path, &st)] answers: [None]
    when it fails, otherwise [S_ISDIR(st.st_mode)].  In C the entry lives in
    the handle ([dir->dirent]) and the pointer returned aims at it; the
    model hands out what it holds when the call returns. *)
Definition fb_readdir (lstat : string -> option bool) (dir : fb_dir)
  : option fb_dirent * fb_dir :=
  match dir_type dir with
  | FB_BUNDLE =>
      match dir_b_cur dir with
      | Entry t n _ _ _ _ _ next =>
          (Some (mk_fb_dirent n t), set_b_cur dir next)
      | NULL => (None, dir)
      end
  | FB_DIRECT =>
      match dir_d_cur dir with
      | d_name :: rest =>             (* de = readdir(dir->d.cur) *)
          let buf := snprintf_512 (dir_d_root dir) d_name in
          let type := match lstat buf with
                      | Some true => FB_DIR
                      | Some false => FB_FILE
                      | None => FB_UNKNOWN
                      end in
          (Some (mk_fb_dirent d_name type), set_dir_d_cur dir rest)
      | [] => (None, dir)
      end
  end.

(** ** Files *)

Definition set_buf (fp : fb_file) (b : option (list byte)) : fb_file :=
  mk_fb_file (fp_type fp) (fp_size fp) (fp_gzip fp) b (fp_pos fp)
             (fp_d_cur fp) (fp_b_root fp).
Definition set_size (fp : fb_file) (s : Z) : fb_file :=
  mk_fb_file (fp_type fp) s (fp_gzip fp) (fp_buf fp) (fp_pos fp)
             (fp_d_cur fp) (fp_b_root fp).
Definition set_gzip (fp : fb_file) (g : Z) : fb_file :=
  mk_fb_file (fp_type fp) (fp_size fp) g (fp_buf fp) (fp_pos fp)
             (fp_d_cur fp) (fp_b_root fp).

(** The first loop of [fb_open2]: [while (fb) { if (!strcmp(name, fb->name))
    break; fb = fb->next; }]. *)
Fixpoint fb_open2_find (name : string) (fb : filebundle_entry)
  : filebundle_entry :=
  match fb with
  | NULL => NULL
  | Entry _ n _ _ _ _ _ next =>
      if String.eqb name n then fb else fb_open2_find name next
  end.

(** [fb_open2(dir, name, decompress, compress)]. *)
Definition fb_open2 (env : environment) (dir : fb_dir) (name : string)
           (decompress compress : Z) : M (option fb_file) :=
  assert ((decompress =? 0) || (compress =? 0)) ;;;
  r <- match dir_type dir with
       | FB_BUNDLE =>
           let fb := fb_open2_find name (d_child (dir_b_root dir)) in
           if is_null fb then ret None
           else
             malloc ;;;                        (* calloc(1, sizeof(fb_file)) *)
             let r := mk_fb_file FB_BUNDLE (f_size fb)
                        (if negb (f_orig fb =? -1) then 1 else 0)
                        None 0 None fb in
             if negb (f_orig fb =? -1) && negb (decompress =? 0) then
               let r := set_size (set_gzip r 0) (to_size_t (f_orig fb)) in
               b <- _fb_inflate (f_data fb) (f_size fb) (to_size_t (f_orig fb)) ;;
               let r := set_buf r b in
               match fp_buf r with
               | None => free ;;; ret None
               | Some _ => ret (Some r)
               end
             else ret (Some r)
       | FB_DIRECT =>
           let path := snprintf_512 (dir_d_root dir) name in
           match os_fopen env path with
           | Some stream =>
               fopen_stream ;;;
               malloc ;;;                      (* calloc(1, sizeof(fb_file)) *)
               ret (Some (mk_fb_file FB_DIRECT (to_size_t (os_st_size env path))
                                     0 None 0 (Some stream) NULL))
           | None => ret None
           end
       end ;;
  match r with
  | Some r =>
      if (fp_gzip r =? 0) && negb (compress =? 0) then
        let r := set_gzip r 1 in
        r <- match fp_type r with
             | FB_BUNDLE =>
                 bs <- _fb_deflate (f_data (fp_b_root r)) (fp_size r) (fp_size r) ;;
                 ret (set_size (set_buf r (fst bs)) (snd bs))
             | FB_DIRECT =>
                 malloc ;;;                    (* data = malloc(ret->size) *)
                 let '(data, _) := fread (fp_d_cur r) (fp_size r) in
                 let c := to_ssize_t (len data) in
                 r <- (if to_size_t c =? fp_size r then
                         bs <- _fb_deflate data (fp_size r) (fp_size r) ;;
                         ret (set_size (set_buf r (fst bs)) (snd bs))
                       else ret r) ;;
                 fclose ;;;
                 let r := set_d_cur r None in
                 free ;;;                      (* free(data) *)
                 ret r
             end ;;
        match fp_buf r with
        | None => free ;;; ret None
        | Some _ => ret (Some r)
        end
      else ret (Some r)
  | None => ret None
  end.

(** [strrchr(s, ch)]: the index of the last [ch] in [s]. *)
Fixpoint strrchr (s : string) (ch : ascii) : option nat :=
  match s with
  | EmptyString => None
  | String a s' =>
      match strrchr s' ch with
      | Some i => Some (S i)
      | None => if Ascii.eqb a ch then Some O else None
      end
  end.

(** [fb_open(path, decompress, compress)]. *)
Definition fb_open (env : environment) (path : string) (decompress compress : Z)
  : M (option fb_file) :=
  malloc ;;;                                   (* tmp = strdup(path) *)
  match strrchr path "/" with
  | None => free ;;; ret None
  | Some pos =>
      let tmp := substring 0 pos path in       (* *pos = '\0' *)
      let name := substring (S pos) (String.length path - S pos) path in
      dir <- fb_opendir env tmp ;;
      match dir with
      | None => free ;;; ret None
      | Some dir =>
          r <- fb_open2 env dir name decompress compress ;;
          free ;;;
          ret r
      end
  end.

(** [fb_close(fp)]. *)
Definition fb_close (fp : fb_file) : M unit :=
  match fp_type fp, fp_d_cur fp with
  | FB_DIRECT, Some _ => fclose
  | _, _ => ret tt
  end ;;;
  match fp_buf fp with
  | Some _ => free
  | None => ret tt
  end ;;;
  free.

End WithZlib.

(** What a handle holds until it is closed: the amounts that [fb_closedir]
    and [fb_close] give back. *)
Definition dir_holds (dir : fb_dir) : ledger :=
  match dir_type dir with
  | FB_DIRECT => mk_ledger 2 1 0
  | FB_BUNDLE => mk_ledger 1 0 0
  end.

Definition file_holds (fp : fb_file) : ledger :=
  mk_ledger (1 + match fp_buf fp with Some _ => 1 | None => 0 end)
            0
            (match fp_type fp, fp_d_cur fp with
             | FB_DIRECT, Some _ => 1
             | _, _ => 0
             end).

Definition holds (r : option fb_file) : ledger :=
  match r with
  | Some fp => file_holds fp
  | None => no_resources
  end.

Definition heap (n : Z) : ledger := mk_ledger n 0 0.

Definition dir_holds_opt (r : option fb_dir) : ledger :=
  match r with
  | Some dir => dir_holds dir
  | None => no_resources
  end.

(** ** Observations used by the properties *)

(** The [n] bytes of memory at address [a]. *)
Definition load (m : memory) (a n : Z) : list byte :=
  map (fun i => m (a + Z.of_nat i)) (seq 0 (Z.to_nat n)).

Definition zero_memory : memory := fun _ => x00.

(** Reading a handle to its end with requests of [chunk] bytes: the bytes
    of all the calls that returned a count, in order.  [None] is an
    exhausted fuel. *)
Fixpoint drain (fuel : nat) (fp : fb_file) (chunk : Z) : option (list byte) :=
  match fuel with
  | O => None
  | S fuel' =>
      let '(n, fp', m) := fb_read fp zero_memory 0 chunk in
      if n <? 0 then Some []
      else match drain fuel' fp' chunk with
           | Some rest => Some (load m 0 n ++ rest)
           | None => None
           end
  end.

Arguments drain : simpl never.

(** Calling [fb_readdir] until it returns [NULL]: the entries returned, in
    order.  [None] is an exhausted fuel. *)
Fixpoint readdir_all (fuel : nat) (lstat : string -> option bool) (dir : fb_dir)
  : option (list fb_dirent) :=
  match fuel with
  | O => None
  | S fuel' =>
      match fb_readdir lstat dir with
      | (Some e, dir') =>
          match readdir_all fuel' lstat dir' with
          | Some es => Some (e :: es)
          | None => None
          end
      | (None, _) => Some []
      end
  end.

(** The nodes of a sibling chain, as names and types. *)
Fixpoint siblings (fb : filebundle_entry) : list fb_dirent :=
  match fb with
  | Entry t n _ _ _ _ _ next => mk_fb_dirent n t :: siblings next
  | NULL => []
  end.

(** Section 8 of the specification on [read_line]: the first call returns
    "abc" with the cursor past the newline, the second "def", the third the
    end of the stream. *)
Definition reads_abc_then_def (fp : fb_file) (m : memory) (buf count : Z) : Prop :=
  exists fp1 m1 fp2 m2 fp3 m3,
    fb_gets fp m buf count = Some (Some buf, fp1, m1) /\
    c_string (Z.to_nat count) m1 buf = [x61; x62; x63] /\
    fp_pos fp1 = fp_pos fp + 4 /\
    fb_gets fp1 m1 buf count = Some (Some buf, fp2, m2) /\
    c_string (Z.to_nat count) m2 buf = [x64; x65; x66] /\
    fb_gets fp2 m2 buf count = Some (None, fp3, m3).

(** The walk of the bundle tree as section 4.1 of the specification words
    it.  [dir_among seg fb e]: [e] is the node that segment [seg] matches
    in the sibling chain [fb], the first directory of that name. *)
Inductive dir_among (seg : string) : filebundle_entry -> filebundle_entry -> Prop :=
| dir_here : forall cnt child data sz orig next,
    dir_among seg (Entry FB_DIR seg cnt child data sz orig next)
                  (Entry FB_DIR seg cnt child data sz orig next)
| dir_later : forall t n cnt child data sz orig next e,
    t <> FB_DIR \/ n <> seg ->
    dir_among seg next e ->
    dir_among seg (Entry t n cnt child data sz orig next) e.

(** [resolves fb segs e]: walking the segments [segs] from the chain [fb]
    ends on node [e]; every segment but the last descends into the children
    of the directory it matched.  Without a segment the walk rests where it
    starts. *)
Inductive resolves : filebundle_entry -> list string -> filebundle_entry -> Prop :=
| resolves_root : forall fb, fb <> NULL -> resolves fb [] fb
| resolves_last : forall fb seg e, dir_among seg fb e -> resolves fb [seg] e
| resolves_step : forall fb seg seg' segs e e',
    dir_among seg fb e ->
    resolves (d_child e) (seg' :: segs) e' ->
    resolves fb (seg :: seg' :: segs) e'.

(** The segments of a path as section 4.1 of the specification words
    them.  [split_slash] cuts a path at every ['/'] into its pieces;
    [join_slash] puts pieces together again with a ['/'] between two of
    them.  The segments are the pieces that are not empty: a ['/'] at the
    end, or one that follows another, names no node. *)
Fixpoint split_slash (s : string) : list string :=
  match s with
  | EmptyString => [EmptyString]
  | String a s' =>
      if Ascii.eqb a "/" then EmptyString :: split_slash s'
      else match split_slash s' with
           | p :: ps => String a p :: ps
           | [] => [String a EmptyString]
           end
  end.

Fixpoint join_slash (pieces : list string) : string :=
  match pieces with
  | [] => EmptyString
  | p :: ps =>
      match ps with
      | [] => p
      | _ :: _ => p ++ "/" ++ join_slash ps
      end
  end.

Definition no_slash (p : string) : Prop :=
  ~ In "/"%char (list_ascii_of_string p).

Definition non_empty (p : string) : bool :=
  match p with EmptyString => false | String _ _ => true end.

Definition segments (path : string) : list string :=
  filter non_empty (split_slash path).

(** ** A gzip codec to run the module with

    The encoder writes the gzip format of RFC 1952 with the input kept in
    stored blocks (RFC 1951, section 3.2.4); the decoder reads such
    streams and checks the CRC-32 and the length of the trailer. *)
Module StoredGzip.

Definition Z_of_byte (b : byte) : Z := Z.of_N (Byte.to_N b).

Definition byte_of_Z (z : Z) : byte :=
  match Byte.of_N (Z.to_N (z mod 256)) with
  | Some b => b
  | None => x00
  end.

Definition crc32_bit (crc : Z) : Z :=
  if Z.testbit crc 0 then Z.lxor (Z.shiftr crc 1) 3988292384   (* 0xEDB88320 *)
  else Z.shiftr crc 1.

Definition crc32_byte (crc : Z) (b : byte) : Z :=
  Nat.iter 8 crc32_bit (Z.lxor crc (Z_of_byte b)).

Definition crc32 (d : list byte) : Z :=
  Z.lxor (fold_left crc32_byte d 4294967295) 4294967295.

Definition le16 (x : Z) : list byte := [byte_of_Z x; byte_of_Z (x / 256)].
Definition le32 (x : Z) : list byte := le16 x ++ le16 (x / 65536).

Definition of_le16 (b0 b1 : byte) : Z := Z_of_byte b0 + 256 * Z_of_byte b1.
Definition of_le32 (b0 b1 b2 b3 : byte) : Z :=
  of_le16 b0 b1 + 65536 * of_le16 b2 b3.

(** ID1 ID2 CM FLG MTIME(4) XFL OS: the ten bytes zlib writes at level 9
    without a [gz_header] on a Unix system. *)
Definition header : list byte :=
  [x1f; x8b; x08; x00; x00; x00; x00; x00; x02; x03].

Fixpoint blocks (fuel : nat) (d : list byte) : list byte :=
  match fuel with
  | O => []
  | S fuel' =>
      if len d <=? 65535
      then x01 :: le16 (len d) ++ le16 (65535 - len d) ++ d
      else x00 :: le16 65535 ++ le16 0 ++ firstn (Z.to_nat 65535) d
               ++ blocks fuel' (skipn (Z.to_nat 65535) d)
  end.

Definition compress (d : list byte) : list byte :=
  header ++ blocks (S (List.length d)) d
         ++ le32 (crc32 d) ++ le32 (len d mod 4294967296).

Fixpoint unblocks (fuel : nat) (s : list byte) : option (list byte * list byte) :=
  match fuel with
  | O => None
  | S fuel' =>
      match s with
      | bfinal :: l0 :: l1 :: n0 :: n1 :: rest =>
          let n := of_le16 l0 l1 in
          if (n + of_le16 n0 n1 =? 65535) && (n <=? len rest) then
            let d := firstn (Z.to_nat n) rest in
            let rest' := skipn (Z.to_nat n) rest in
            if Byte.eqb bfinal x01 then Some (d, rest')
            else if Byte.eqb bfinal x00 then
              match unblocks fuel' rest' with
              | Some (d', r) => Some (d ++ d', r)
              | None => None
              end
            else None
          else None
      | _ => None
      end
  end.

Definition decompress (s : list byte) : option (list byte) :=
  match s with
  | id1 :: id2 :: cm :: flg :: _ :: _ :: _ :: _ :: _ :: _ :: body =>
      if Byte.eqb id1 x1f && Byte.eqb id2 x8b && Byte.eqb cm x08
         && Byte.eqb flg x00 then
        match unblocks (S (List.length body)) body with
        | Some (d, c0 :: c1 :: c2 :: c3 :: s0 :: s1 :: s2 :: s3 :: _) =>
            if (of_le32 c0 c1 c2 c3 =? crc32 d)
               && (of_le32 s0 s1 s2 s3 =? len d mod 4294967296)
            then Some d else None
        | _ => None
        end
      else None
  | _ => None
  end.

#[global] Instance codec : Zlib :=
  {| gzip_stream := compress; gunzip_stream := decompress |}.

End StoredGzip.

(** ** Sample data *)

Definition abc_def : list byte := [x61; x62; x63; x0a; x64; x65; x66].

(** A handle that reads from an owned buffer holding [content]. *)
Definition buffered (t : fb_type) (gz : Z) (content : list byte) (p : Z)
  : fb_file :=
  mk_fb_file t (len content) gz (Some content) p None NULL.

(** A bundle with the directory [docs], which holds the file [a.txt] (one
    byte, stored as it is), the directory [sub] and the file [lines.txt]
    (stored compressed). *)
Definition sample_lines : filebundle_entry :=
  Entry FB_FILE "lines.txt" 0 NULL
        (StoredGzip.compress abc_def) (len (StoredGzip.compress abc_def)) 7 NULL.
Definition sample_sub : filebundle_entry :=
  Entry FB_DIR "sub" 0 NULL [] 0 0 sample_lines.
Definition sample_a : filebundle_entry :=
  Entry FB_FILE "a.txt" 0 NULL [x61] 1 (-1) sample_sub.
Definition sample_docs : filebundle_entry :=
  Entry FB_DIR "docs" 3 sample_a [] 0 0 NULL.

Definition sample_bundle : environment :=
  mk_environment None sample_docs (fun _ => None) (fun _ => None) (fun _ => 0).

Definition sample_docs_dir : fb_dir :=
  mk_fb_dir FB_BUNDLE EmptyString [] sample_docs sample_a.

(** A data root [/srv] with the directory [/srv/docs] and the file
    [/srv/docs/a.txt]. *)
Definition sample_direct : environment :=
  mk_environment (Some "/srv"%string) NULL
    (fun p => if String.eqb p "/srv/docs" then Some ["a.txt"%string] else None)
    (fun p => if String.eqb p "/srv/docs/a.txt" then Some abc_def else None)
    (fun p => if String.eqb p "/srv/docs/a.txt" then 7 else 0).

(** ** Further observations *)

(** The type that [fb_readdir] gives an entry of the file system: by the
    answer of lstat on the path of the entry below the root of the handle. *)
Definition lstat_type (lstat : string -> option bool) (root d_name : string)
  : filebundle_type :=
  match lstat (snprintf_512 root d_name) with
  | Some true => FB_DIR
  | Some false => FB_FILE
  | None => FB_UNKNOWN
  end.

(** A data root [/srv] seen by lstat: [/srv/docs/sub] is a directory,
    [/srv/docs/a.txt] a file, nothing else exists. *)
Definition sample_lstat (path : string) : option bool :=
  if String.eqb path "/srv/docs/sub" then Some true
  else if String.eqb path "/srv/docs/a.txt" then Some false
  else None.

Definition sample_srv_docs_dir : fb_dir :=
  mk_fb_dir FB_DIRECT "/srv/docs" ["a.txt"%string; "sub"%string; "gone"%string]
            NULL NULL.

(** A bundle directory that holds the one file [empty], without content and
    stored as it is. *)
Definition sample_empty : filebundle_entry :=
  Entry FB_FILE "empty" 0 NULL [] 0 (-1) NULL.

Definition sample_empty_dir : fb_dir :=
  mk_fb_dir FB_BUNDLE EmptyString []
            (Entry FB_DIR "var" 1 sample_empty [] 0 0 NULL) sample_empty.

(** A bundle directory that holds the one file [lines.txt], stored
    compressed as in the sample bundle, but with a recorded original size
    that is 2^32 more than the seven bytes of its content. *)
Definition sample_wrapped : filebundle_entry :=
  Entry FB_FILE "lines.txt" 0 NULL
        (StoredGzip.compress abc_def) (len (StoredGzip.compress abc_def))
        4294967303 NULL.

Definition sample_wrapped_dir : fb_dir :=
  mk_fb_dir FB_BUNDLE EmptyString []
            (Entry FB_DIR "big" 1 sample_wrapped [] 0 0 NULL) sample_wrapped.

(** A Direct directory whose root alone has 511 characters. *)
Definition sample_long_root : string :=
  string_of_list_ascii (repeat "r"%char 511).

Definition sample_long_dir : fb_dir :=
  mk_fb_dir FB_DIRECT sample_long_root [] NULL NULL.

(** * Properties *)

(** ** Integers, lists and memory *)

Lemma to_size_t_small (z : Z) : 0 <= z < size_modulus -> to_size_t z = z.
Proof. intros H. unfold to_size_t. apply Z.mod_small. exact H. Qed.

Lemma to_size_t_range (z : Z) : 0 <= to_size_t z < size_modulus.
Proof. unfold to_size_t. apply Z.mod_pos_bound. reflexivity. Qed.

Lemma to_uInt_small (z : Z) : 0 <= z < uInt_modulus -> to_uInt z = z.
Proof. intros H. unfold to_uInt. apply Z.mod_small. exact H. Qed.

Lemma to_uInt_range (z : Z) : 0 <= to_uInt z < uInt_modulus.
Proof. unfold to_uInt. apply Z.mod_pos_bound. reflexivity. Qed.

Lemma uInt_below_size_t : uInt_modulus < size_modulus.
Proof. reflexivity. Qed.

(** What is left of a value in a [uInt] does not exceed the value. *)
Lemma to_uInt_le (z : Z) : 0 <= z -> to_uInt z <= z.
Proof.
  intros H. unfold to_uInt. apply Z.mod_le; [exact H | reflexivity].
Qed.

(** A [size_t] keeps in a [uInt] what the value it came from would keep. *)
Lemma to_uInt_size_t (z : Z) : to_uInt (to_size_t z) = to_uInt z.
Proof.
  unfold to_uInt, to_size_t. apply Z.mod_mod_divide.
  exists uInt_modulus. reflexivity.
Qed.

Lemma to_ssize_t_small (z : Z) : 0 <= z < ssize_limit -> to_ssize_t z = z.
Proof.
  intros H. unfold to_ssize_t.
  assert (Hm : z mod size_modulus = z).
  { apply Z.mod_small. unfold size_modulus, ssize_limit in *. lia. }
  rewrite Hm. destruct (Z.ltb_spec z ssize_limit); [reflexivity | lia].
Qed.

Lemma len_nonneg {A} (l : list A) : 0 <= len l.
Proof. unfold len. lia. Qed.

Lemma len_app {A} (l1 l2 : list A) : len (l1 ++ l2) = len l1 + len l2.
Proof. unfold len. rewrite length_app. lia. Qed.

Lemma len_firstn {A} (n : Z) (l : list A) :
  0 <= n -> len (firstn (Z.to_nat n) l) = Z.min n (len l).
Proof. intros H. unfold len. rewrite length_firstn. lia. Qed.

Lemma memcpy_one (m : memory) (a : Z) (x : byte) (a' : Z) :
  memcpy m a [x] a' = if a' =? a then x else m a'.
Proof.
  unfold memcpy, len. simpl.
  destruct (Z.eqb_spec a' a) as [->|Hne].
  - rewrite Z.leb_refl. replace (a <? a + 1) with true by (symmetry; apply Z.ltb_lt; lia).
    rewrite Z.sub_diag. reflexivity.
  - destruct (Z.leb_spec a a'); destruct (Z.ltb_spec a' (a + 1)); simpl;
      try reflexivity; lia.
Qed.

Lemma load_memcpy (m : memory) (a : Z) (l : list byte) :
  load (memcpy m a l) a (len l) = l.
Proof.
  unfold load, len. rewrite Nat2Z.id.
  apply nth_ext with (d := x00) (d' := x00).
  - rewrite length_map, length_seq. reflexivity.
  - intros n Hn. rewrite length_map, length_seq in Hn.
    pose proof (map_nth (fun i => memcpy m a l (a + Z.of_nat i))
                        (seq 0 (List.length l)) O n) as E.
    cbv beta in E.
    rewrite (nth_indep _ x00 (memcpy m a l (a + Z.of_nat 0)))
      by (rewrite length_map, length_seq; exact Hn).
    rewrite E, seq_nth by exact Hn. simpl.
    unfold memcpy, len.
    replace (a <=? a + Z.of_nat n) with true by (symmetry; apply Z.leb_le; lia).
    replace (a + Z.of_nat n <? a + Z.of_nat (List.length l)) with true
      by (symmetry; apply Z.ltb_lt; lia).
    simpl. f_equal. lia.
Qed.

(** ** The ledger *)

Lemma ledger_eq (a b : ledger) :
  heap_blocks a = heap_blocks b -> dir_streams a = dir_streams b ->
  file_streams a = file_streams b -> a = b.
Proof. destruct a, b. simpl. intros -> -> ->. reflexivity. Qed.

Lemma ledger_add_none (l : ledger) : ledger_add l no_resources = l.
Proof. apply ledger_eq; simpl; lia. Qed.

Ltac run :=
  unfold bind, ret, assert, malloc, free, opendir_stream, closedir,
    fopen_stream, fclose; simpl.

Ltac ledger := apply ledger_eq; simpl; lia.

(** Closing a directory handle gives back exactly what it holds. *)
Lemma fb_closedir_gives_back (dir : fb_dir) (l : ledger) :
  fb_closedir dir (ledger_add l (dir_holds dir)) = Done tt l.
Proof.
  unfold fb_closedir, dir_holds. destruct (dir_type dir); run; f_equal; ledger.
Qed.

(** Closing a file handle gives back exactly what it holds. *)
Lemma fb_close_gives_back (fp : fb_file) (l : ledger) :
  fb_close fp (ledger_add l (file_holds fp)) = Done tt l.
Proof.
  unfold fb_close, file_holds.
  destruct (fp_type fp), (fp_d_cur fp), (fp_buf fp); run; f_equal; ledger.
Qed.

(** ** End of file and reading (C7, C6) *)

Lemma fb_eof_spec (fp : fb_file) :
  (fb_eof fp = 1 /\ fp_size fp <= fp_pos fp) \/
  (fb_eof fp = 0 /\ fp_pos fp < fp_size fp).
Proof.
  unfold fb_eof. destruct (Z.leb_spec (fp_size fp) (fp_pos fp)); [left | right];
    split; (reflexivity || lia).
Qed.

Lemma fb_read_at_eof (fp : fb_file) (m : memory) (buf count : Z) :
  fp_size fp <= fp_pos fp -> fb_read fp m buf count = (-1, fp, m).
Proof.
  intros H. unfold fb_read, fb_eof.
  destruct (Z.leb_spec (fp_size fp) (fp_pos fp)); [reflexivity | lia].
Qed.

(** C7. With the cursor never past the size, [fb_eof] answers true exactly
    when the cursor equals the size; and when [fb_eof] answers true,
    [fb_read] returns -1 and leaves the handle (its cursor and its buffer
    among the rest) and the caller's memory as they were. *)
Theorem fb_eof_iff_and_read_after_eof (fp : fb_file) :
  fp_pos fp <= fp_size fp ->
  (fb_eof fp <> 0 <-> fp_pos fp = fp_size fp) /\
  (fb_eof fp <> 0 ->
   forall (m : memory) (buf count : Z), fb_read fp m buf count = (-1, fp, m)).
Proof.
  intros Hinv. destruct (fb_eof_spec fp) as [[He Hle] | [He Hlt]]; rewrite He.
  - split.
    + split; intros _; [lia | discriminate].
    + intros _ m buf count. apply fb_read_at_eof. exact Hle.
  - split.
    + split; [intros H; contradiction H; reflexivity | lia].
    + intros H. contradiction H. reflexivity.
Qed.

Lemma fb_eof_iff_and_read_after_eof_witness :
  let fp := buffered FB_BUNDLE 0 abc_def 7 in
  fp_pos fp <= fp_size fp /\
  (fb_eof fp <> 0 <-> fp_pos fp = fp_size fp) /\
  (fb_eof fp <> 0 ->
   forall (m : memory) (buf count : Z), fb_read fp m buf count = (-1, fp, m)).
Proof.
  simpl. split.
  - vm_compute. discriminate.
  - apply (fb_eof_iff_and_read_after_eof (buffered FB_BUNDLE 0 abc_def 7)).
    vm_compute. discriminate.
Defined.

(** C6. On a Direct handle without a buffer and with the cursor before the
    size, [fb_read] takes up to [count] bytes from the stream, stores them
    in the caller's memory, moves the cursor by the number of bytes taken
    (a [size_t] addition) and returns -1, also when it took bytes. *)
Theorem fb_read_direct_returns_minus_one
        (fp : fb_file) (stream : list byte) (m : memory) (buf count : Z) :
  fp_type fp = FB_DIRECT ->
  fp_buf fp = None ->
  fp_d_cur fp = Some stream ->
  fp_pos fp < fp_size fp ->
  0 <= count ->
  let got := firstn (Z.to_nat count) stream in
  let '(r, fp', m') := fb_read fp m buf count in
  r = -1 /\
  len got = Z.min count (len stream) /\
  load m' buf (len got) = got /\
  (forall a, a < buf \/ buf + len got <= a -> m' a = m a) /\
  fp_d_cur fp' = Some (skipn (Z.to_nat count) stream) /\
  fp_pos fp' = to_size_t (fp_pos fp + len got) /\
  (fp_pos fp + len got < size_modulus -> 0 <= fp_pos fp ->
   fp_pos fp' = fp_pos fp + len got) /\
  fp_size fp' = fp_size fp /\ fp_buf fp' = None /\ fp_type fp' = FB_DIRECT.
Proof.
  intros Ht Hb Hs Hpos Hc got.
  unfold fb_read, fb_eof.
  destruct (Z.leb_spec (fp_size fp) (fp_pos fp)) as [Hle | _]; [lia |].
  simpl. rewrite Hb, Ht, Hs. simpl. fold got.
  repeat split; try assumption.
  - unfold got. apply len_firstn. exact Hc.
  - apply load_memcpy.
  - intros a Ha. unfold memcpy.
    destruct (Z.leb_spec buf a); destruct (Z.ltb_spec a (buf + len got)); simpl;
      try reflexivity; lia.
  - intros Hlt Hp. apply to_size_t_small. pose proof (len_nonneg got). lia.
Qed.

Lemma fb_read_direct_returns_minus_one_witness :
  let fp := mk_fb_file FB_DIRECT 7 0 None 0 (Some abc_def) NULL in
  fp_pos fp < fp_size fp /\ 0 <= 3 /\
  let got := firstn (Z.to_nat 3) abc_def in
  let '(r, fp', m') := fb_read fp zero_memory 0 3 in
  r = -1 /\
  len got = Z.min 3 (len abc_def) /\
  load m' 0 (len got) = got /\
  (forall a, a < 0 \/ 0 + len got <= a -> m' a = zero_memory a) /\
  fp_d_cur fp' = Some (skipn (Z.to_nat 3) abc_def) /\
  fp_pos fp' = to_size_t (fp_pos fp + len got) /\
  (fp_pos fp + len got < size_modulus -> 0 <= fp_pos fp ->
   fp_pos fp' = fp_pos fp + len got) /\
  fp_size fp' = fp_size fp /\ fp_buf fp' = None /\ fp_type fp' = FB_DIRECT.
Proof.
  split; [reflexivity | split; [lia |]].
  apply (fb_read_direct_returns_minus_one
           (mk_fb_file FB_DIRECT 7 0 None 0 (Some abc_def) NULL)
           abc_def zero_memory 0 3); try reflexivity.
  lia.
Defined.

(** ** Reading a line (C1) *)

Lemma load_cons (m : memory) (a k : Z) :
  0 <= k -> load m a (k + 1) = m a :: load m (a + 1) k.
Proof.
  intros Hk. unfold load.
  replace (Z.to_nat (k + 1)) with (S (Z.to_nat k)) by lia.
  simpl. rewrite Z.add_0_r. f_equal.
  rewrite <- seq_shift, map_map. apply map_ext.
  intros i. f_equal. lia.
Qed.

Lemma c_string_of_load (s : list byte) :
  forall (n : nat) (m : memory) (a : Z),
    load m a (len s + 1) = s ++ [x00] ->
    Forall (fun x => Byte.eqb x x00 = false) s ->
    (List.length s < n)%nat ->
    c_string n m a = s.
Proof.
  induction s as [| x s IH]; intros n m a Hl Hs Hn.
  - destruct n; [inversion Hn |]. simpl.
    change (len (@nil byte) + 1) with (0 + 1) in Hl.
    rewrite load_cons in Hl by lia. simpl in Hl.
    injection Hl as Hl. rewrite Hl. reflexivity.
  - destruct n; [inversion Hn |]. simpl in Hn.
    replace (len (x :: s) + 1) with ((len s + 1) + 1) in Hl
      by (unfold len; simpl List.length; lia).
    rewrite load_cons in Hl by (pose proof (len_nonneg s); lia).
    simpl app in Hl. injection Hl as Hx Hl.
    inversion Hs as [| ? ? Hx0 Hs']; subst.
    simpl. rewrite Hx0. f_equal. apply IH; [exact Hl | exact Hs' | lia].
Qed.

(** One byte read from the owned buffer. *)
Lemma fb_read_buffered_byte (fp : fb_file) (m : memory) (a : Z)
      (b : list byte) (x : byte) :
  fp_buf fp = Some b ->
  fp_size fp = len b ->
  len b < size_modulus ->
  0 <= fp_pos fp ->
  nth_error b (Z.to_nat (fp_pos fp)) = Some x ->
  fb_read fp m a 1 = (1, set_pos fp (fp_pos fp + 1), memcpy m a [x]).
Proof.
  intros Hb Hs Hlt Hp Hx.
  assert (Hin : fp_pos fp < len b).
  { assert (Z.to_nat (fp_pos fp) < List.length b)%nat
      by (apply nth_error_Some; rewrite Hx; discriminate).
    unfold len. lia. }
  unfold fb_read, fb_eof. rewrite Hs.
  destruct (Z.leb_spec (len b) (fp_pos fp)) as [Hle | _]; [lia |].
  simpl. rewrite Hb.
  assert (Hmin : MIN 1 (to_size_t (len b - fp_pos fp)) = 1).
  { rewrite to_size_t_small by lia. unfold MIN.
    destruct (Z.ltb_spec 1 (len b - fp_pos fp)); lia. }
  rewrite Hmin.
  assert (Hbytes : bytes_at b (fp_pos fp) 1 = [x]).
  { unfold bytes_at. change (Z.to_nat 1) with 1%nat.
    destruct (nth_error_split b _ Hx) as (l1 & l2 & Hb' & Hl1).
    rewrite Hb' at 1. rewrite <- Hl1 at 1.
    rewrite skipn_app, skipn_all, Nat.sub_diag. reflexivity. }
  rewrite Hbytes. rewrite to_size_t_small by lia.
  rewrite to_ssize_t_small by (unfold ssize_limit; lia).
  reflexivity.
Qed.

(** One round of the loop of [fb_gets] on an owned buffer, away from its
    end and with room left in the caller's buffer. *)
Lemma fb_gets_loop_step (fuel : nat) (fp : fb_file) (m : memory)
      (buf count c : Z) (b : list byte) (x : byte) :
  fp_buf fp = Some b ->
  fp_size fp = len b ->
  len b < size_modulus ->
  0 <= fp_pos fp ->
  nth_error b (Z.to_nat (fp_pos fp)) = Some x ->
  0 <= c < count - 1 ->
  count <= size_modulus ->
  fb_gets_loop (S fuel) fp m buf count c =
  if is_line_end x
  then Some (1, c + 1, set_pos fp (fp_pos fp + 1), memcpy m (buf + c) [x])
  else fb_gets_loop fuel (set_pos fp (fp_pos fp + 1))
                    (memcpy m (buf + c) [x]) buf count (c + 1).
Proof.
  intros Hb Hs Hlt Hp Hx Hc Hcount. simpl.
  rewrite (fb_read_buffered_byte fp m (buf + c) b x Hb Hs Hlt Hp Hx).
  rewrite !to_size_t_small by lia.
  replace (c <? count - 1) with true by (symmetry; apply Z.ltb_lt; lia).
  simpl. rewrite memcpy_one, Z.eqb_refl. reflexivity.
Qed.

(** At the end of the file the loop changes nothing and leaves with -1,
    however far the stale bytes of the caller's buffer carry it. *)
Lemma fb_gets_loop_at_eof (fuel : nat) :
  forall (fp : fb_file) (m : memory) (buf count c : Z),
    fp_size fp <= fp_pos fp ->
    0 <= c <= to_size_t (count - 1) ->
    to_size_t (count - 1) - c < Z.of_nat fuel ->
    exists c', fb_gets_loop fuel fp m buf count c = Some (-1, c', fp, m).
Proof.
  induction fuel as [| fuel IH]; intros fp m buf count c Heof Hc Hfuel.
  - simpl in Hfuel. lia.
  - simpl. rewrite fb_read_at_eof by exact Heof. simpl.
    pose proof (to_size_t_range (count - 1)) as Hr.
    rewrite (to_size_t_small c) by lia.
    destruct (Z.ltb_spec c (to_size_t (count - 1))) as [Hlt | Hge].
    + destruct (is_line_end (m (buf + c))).
      * eexists. reflexivity.
      * apply IH; [exact Heof | lia | lia].
    + eexists. reflexivity.
Qed.

Lemma fb_gets_loop_total (fuel : nat) :
  forall (fp : fb_file) (m : memory) (buf count c : Z),
    0 <= c <= to_size_t (count - 1) ->
    to_size_t (count - 1) - c < Z.of_nat fuel ->
    fb_gets_loop fuel fp m buf count c <> None.
Proof.
  induction fuel as [| fuel IH]; intros fp m buf count c Hc Hfuel.
  - simpl in Hfuel. lia.
  - simpl. destruct (fb_read fp m (buf + c) 1) as [[err fp'] m'].
    pose proof (to_size_t_range (count - 1)) as Hr.
    rewrite (to_size_t_small c) by lia.
    destruct (negb (err =? 0)); simpl; [| discriminate].
    destruct (Z.ltb_spec c (to_size_t (count - 1))) as [Hlt | Hge];
      [| discriminate].
    destruct (is_line_end (m' (buf + c))); [discriminate |].
    apply IH; lia.
Qed.

(** [fb_gets] returns: the fuel it is given always pays for the loop. *)
Lemma fb_gets_total (fp : fb_file) (m : memory) (buf count : Z) :
  fb_gets fp m buf count <> None.
Proof.
  unfold fb_gets.
  pose proof (fb_gets_loop_total (fb_gets_fuel count) fp m buf count 0) as H.
  pose proof (to_size_t_range (count - 1)) as Hr.
  destruct (fb_gets_loop (fb_gets_fuel count) fp m buf count 0)
    as [[[[err c] fp'] m'] |].
  - destruct (err <? 0); discriminate.
  - exfalso. apply H; [lia | unfold fb_gets_fuel; lia | reflexivity].
Qed.

Lemma nth_error_after (pre l : list byte) (k : Z) :
  0 <= k ->
  nth_error (pre ++ l) (Z.to_nat (len pre + k)) = nth_error l (Z.to_nat k).
Proof.
  intros Hk. unfold len.
  replace (Z.to_nat (Z.of_nat (List.length pre) + k))
    with (List.length pre + Z.to_nat k)%nat by lia.
  rewrite nth_error_app2 by lia. f_equal. lia.
Qed.

(** The same round, for a buffer of which [l] is the part after [pre]. *)
Lemma fb_gets_loop_step_in (fuel : nat) (fp : fb_file) (pre l : list byte)
      (m : memory) (buf count c c' k k' : Z) (x : byte) :
  fp_buf fp = Some (pre ++ l) ->
  fp_size fp = len (pre ++ l) ->
  fp_size fp < size_modulus ->
  fp_pos fp = len pre + k ->
  0 <= k ->
  nth_error l (Z.to_nat k) = Some x ->
  0 <= c < count - 1 ->
  count < size_modulus ->
  c' = c + 1 ->
  k' = k + 1 ->
  fb_gets_loop (S fuel) fp m buf count c =
  if is_line_end x
  then Some (1, c', set_pos fp (len pre + k'), memcpy m (buf + c) [x])
  else fb_gets_loop fuel (set_pos fp (len pre + k'))
                    (memcpy m (buf + c) [x]) buf count c'.
Proof.
  intros Hb Hs Hlt Hp Hk Hx Hc Hcount -> ->.
  rewrite (fb_gets_loop_step fuel fp m buf count c (pre ++ l) x);
    try assumption; try lia.
  - rewrite Hp. replace (len pre + k + 1) with (len pre + (k + 1)) by lia.
    reflexivity.
  - rewrite Hp. pose proof (len_nonneg pre). lia.
  - rewrite Hp, nth_error_after by exact Hk. exact Hx.
Qed.

Ltac decide_addresses :=
  repeat match goal with
         | |- context [?a =? ?b] => destruct (Z.eqb_spec a b); try lia
         end.

(** C1, as the code has it.  On a handle that reads from an owned buffer of
    which "abc\ndef" is what is left, and whatever the caller's memory holds
    and however large [count] is beyond the seven bytes: the first [fb_gets]
    returns its buffer holding "abc\n" (the newline is kept) and a
    terminator, with the cursor past the newline; the second call copies
    "def", reaches the end of the file before a line end and so returns
    [NULL]; the third call returns [NULL] and changes nothing. *)
Theorem fb_gets_abc_def_lines
        (fp : fb_file) (pre : list byte) (m1 m2 m3 : memory)
        (buf1 buf2 buf3 count1 count2 count3 : Z) :
  fp_buf fp = Some (pre ++ abc_def) ->
  fp_size fp = len (pre ++ abc_def) ->
  fp_size fp < size_modulus ->
  fp_pos fp = len pre ->
  7 < count1 < size_modulus ->
  7 < count2 < size_modulus ->
  7 < count3 < size_modulus ->
  exists m1' m2' : memory,
    fb_gets fp m1 buf1 count1
    = Some (Some buf1, set_pos fp (len pre + 4), m1') /\
    c_string (Z.to_nat count1) m1' buf1 = [x61; x62; x63; x0a] /\
    load m1' buf1 5 = [x61; x62; x63; x0a; x00] /\
    fb_gets (set_pos fp (len pre + 4)) m2 buf2 count2
    = Some (None, set_pos fp (len pre + 7), m2') /\
    load m2' buf2 3 = [x64; x65; x66] /\
    fb_gets (set_pos fp (len pre + 7)) m3 buf3 count3
    = Some (None, set_pos fp (len pre + 7), m3).
Proof.
  intros Hb Hs Hlt Hp Hc1 Hc2 Hc3.
  assert (Hlen : len (pre ++ abc_def) = len pre + 7)
    by (rewrite len_app; reflexivity).
  pose proof (len_nonneg pre) as Hpre.
  (* first call *)
  assert (H1 : exists m1',
             fb_gets fp m1 buf1 count1
             = Some (Some buf1, set_pos fp (len pre + 4), m1') /\
             load m1' buf1 5 = [x61; x62; x63; x0a; x00]).
  { unfold fb_gets, fb_gets_fuel. rewrite to_size_t_small by lia.
    destruct (Z.to_nat (count1 - 1)) as [| [| [| n]]] eqn:E; try lia.
    rewrite (fb_gets_loop_step_in _ fp pre abc_def m1 buf1 count1 0 1 0 1 x61);
      try assumption; try reflexivity; try lia.
    change (is_line_end x61) with false. cbv iota.
    rewrite (fb_gets_loop_step_in _ _ pre abc_def _ buf1 count1 1 2 1 2 x62);
      try assumption; try reflexivity; try lia.
    change (is_line_end x62) with false. cbv iota.
    rewrite (fb_gets_loop_step_in _ _ pre abc_def _ buf1 count1 2 3 2 3 x63);
      try assumption; try reflexivity; try lia.
    change (is_line_end x63) with false. cbv iota.
    rewrite (fb_gets_loop_step_in _ _ pre abc_def _ buf1 count1 3 4 3 4 x0a);
      try assumption; try reflexivity; try lia.
    change (is_line_end x0a) with true. cbv iota.
    change (1 <? 0) with false. cbv iota.
    eexists. split; [reflexivity |].
    unfold load. change (Z.to_nat 5) with 5%nat. simpl.
    rewrite !memcpy_one. decide_addresses. reflexivity. }
  destruct H1 as (m1' & H1 & Hl1).
  (* second call *)
  assert (H2 : exists m2',
             fb_gets (set_pos fp (len pre + 4)) m2 buf2 count2
             = Some (None, set_pos fp (len pre + 7), m2') /\
             load m2' buf2 3 = [x64; x65; x66]).
  { unfold fb_gets, fb_gets_fuel. rewrite to_size_t_small by lia.
    destruct (Z.to_nat (count2 - 1)) as [| [| [| n]]] eqn:E; try lia.
    rewrite (fb_gets_loop_step_in _ _ pre abc_def m2 buf2 count2 0 1 4 5 x64);
      try assumption; try reflexivity; try lia.
    change (is_line_end x64) with false. cbv iota.
    rewrite (fb_gets_loop_step_in _ _ pre abc_def _ buf2 count2 1 2 5 6 x65);
      try assumption; try reflexivity; try lia.
    change (is_line_end x65) with false. cbv iota.
    rewrite (fb_gets_loop_step_in _ _ pre abc_def _ buf2 count2 2 3 6 7 x66);
      try assumption; try reflexivity; try lia.
    change (is_line_end x66) with false. cbv iota.
    match goal with
    | |- context [fb_gets_loop ?f ?h ?m ?b ?cnt ?c] =>
        destruct (fb_gets_loop_at_eof f h m b cnt c) as (c' & Hloop)
    end.
    - simpl. lia.
    - rewrite to_size_t_small by lia. lia.
    - rewrite to_size_t_small by lia. lia.
    - rewrite Hloop. change (-1 <? 0) with true. cbv iota.
      eexists. split; [reflexivity |].
      unfold load. change (Z.to_nat 3) with 3%nat. simpl.
      rewrite !memcpy_one. decide_addresses. reflexivity. }
  destruct H2 as (m2' & H2 & Hl2).
  exists m1', m2'. repeat split; try assumption.
  - apply c_string_of_load.
    + exact Hl1.
    + repeat constructor.
    + simpl. lia.
  - unfold fb_gets, fb_gets_fuel.
    destruct (fb_gets_loop_at_eof (S (Z.to_nat (to_size_t (count3 - 1))))
                (set_pos fp (len pre + 7)) m3 buf3 count3 0) as (c' & Hloop).
    + simpl. lia.
    + pose proof (to_size_t_range (count3 - 1)). lia.
    + pose proof (to_size_t_range (count3 - 1)). lia.
    + rewrite Hloop. reflexivity.
Qed.

Lemma fb_gets_abc_def_lines_witness :
  let fp := buffered FB_BUNDLE 0 abc_def 0 in
  (fp_buf fp = Some ([] ++ abc_def) /\
   fp_size fp = len ([] ++ abc_def) /\
   fp_size fp < size_modulus /\
   fp_pos fp = len (@nil byte) /\
   7 < 16 < size_modulus) /\
  exists m1' m2' : memory,
    fb_gets fp zero_memory 0 16
    = Some (Some 0, set_pos fp (len (@nil byte) + 4), m1') /\
    c_string (Z.to_nat 16) m1' 0 = [x61; x62; x63; x0a] /\
    load m1' 0 5 = [x61; x62; x63; x0a; x00] /\
    fb_gets (set_pos fp (len (@nil byte) + 4)) zero_memory 0 16
    = Some (None, set_pos fp (len (@nil byte) + 7), m2') /\
    load m2' 0 3 = [x64; x65; x66] /\
    fb_gets (set_pos fp (len (@nil byte) + 7)) zero_memory 0 16
    = Some (None, set_pos fp (len (@nil byte) + 7), zero_memory).
Proof.
  split.
  - repeat split; reflexivity.
  - apply (fb_gets_abc_def_lines (buffered FB_BUNDLE 0 abc_def 0) []
             zero_memory zero_memory zero_memory 0 0 0 16 16 16);
      repeat split; reflexivity.
Defined.

(** C1 as the specification states it fails on the buffer "abc\ndef" with
    room for 16 bytes: the first line comes back with its newline, "abc\n"
    and not "abc", and the second call, on the handle and the memory the
    first one left, returns [NULL] and not "def". *)
Lemma fb_gets_abc_def_counterexample :
  ~ reads_abc_then_def (buffered FB_BUNDLE 0 abc_def 0) zero_memory 0 16 /\
  exists fp1 m1 fp2 m2,
    fb_gets (buffered FB_BUNDLE 0 abc_def 0) zero_memory 0 16
    = Some (Some 0, fp1, m1) /\
    c_string 16 m1 0 = [x61; x62; x63; x0a] /\
    fb_gets fp1 m1 0 16 = Some (None, fp2, m2) /\
    fp_pos fp2 = 7.
Proof.
  split.
  - intros (fp1 & m1 & fp2 & m2 & fp3 & m3 & H1 & Hs1 & _).
    vm_compute in H1. injection H1 as Hfp Hm. subst m1.
    vm_compute in Hs1. discriminate Hs1.
  - eexists. eexists. eexists. eexists.
    split; [vm_compute; reflexivity |].
    split; [vm_compute; reflexivity |].
    split; [vm_compute; reflexivity | reflexivity].
Qed.

(** ** Opening: what each function leaves in the ledger *)

Section Opening.
Context {zlib : Zlib}.

Lemma _fb_inflate_ledger (data : list byte) (size orig : Z) :
  exists b, forall l,
      _fb_inflate data size orig l
      = Done b (ledger_add l (heap (match b with Some _ => 1 | None => 0 end))).
Proof.
  unfold _fb_inflate.
  destruct (inflate (bytes_at (bytes_at data 0 size) 0 (to_uInt size))
                    (to_uInt orig)) as [[err avail_out] out].
  destruct (negb (err =? Z_STREAM_END) || negb (avail_out =? 0)) eqn:E.
  - exists None. intros l. run. f_equal. ledger.
  - exists (Some out). intros l. run. f_equal. ledger.
Qed.

Lemma _fb_deflate_ledger (data : list byte) (orig size : Z) :
  exists b sz, forall l,
      _fb_deflate data orig size l
      = Done (b, sz)
             (ledger_add l (heap (match b with Some _ => 1 | None => 0 end))).
Proof.
  unfold _fb_deflate.
  destruct (deflate (bytes_at (bytes_at data 0 orig) 0 (to_uInt orig))
                    (to_uInt orig)) as [[err total_out] out].
  destruct ((negb (err =? Z_STREAM_END) && negb (err =? Z_OK)) || (total_out =? 0))
    eqn:E.
  - exists None, size. intros l. run. f_equal. ledger.
  - exists (Some out), (to_size_t total_out). intros l. run. f_equal. ledger.
Qed.

(** [fb_opendir] returns a handle or [NULL], the same whatever the ledger,
    and leaves held exactly what the handle holds. *)
Lemma fb_opendir_ledger (env : environment) (path : string) :
  exists r, forall l,
      fb_opendir env path l = Done r (ledger_add l (dir_holds_opt r)).
Proof.
  unfold fb_opendir.
  destruct (if not_absolute path then tvheadend_dataroot env else Some EmptyString)
    as [root |].
  - destruct (os_opendir env (snprintf_512 root path)) as [d |].
    + eexists. intros l. run. f_equal. ledger.
    + exists None. intros l. run. f_equal. ledger.
  - destruct (is_null (fb_opendir_walk (filebundle_root env) (strtok_all path)))
      eqn:E.
    + exists None. intros l. run. f_equal. ledger.
    + eexists. intros l. run. f_equal. ledger.
Qed.

(** With at most one of the two flags set, [fb_open2] returns a handle or
    [NULL], the same whatever the ledger, and leaves held exactly what the
    handle holds: nothing at all when it returns [NULL]. *)
Lemma fb_open2_ledger (env : environment) (dir : fb_dir) (name : string)
      (decompress compress : Z) :
  decompress = 0 \/ compress = 0 ->
  exists r, forall l,
      fb_open2 env dir name decompress compress l
      = Done r (ledger_add l (holds r)).
Proof.
  intros Hflags.
  assert (Ha : (decompress =? 0) || (compress =? 0) = true).
  { destruct Hflags as [-> | ->]; [reflexivity | apply orb_true_r]. }
  unfold fb_open2. rewrite Ha.
  destruct (dir_type dir).
  - (* bundle *)
    destruct (is_null (fb_open2_find name (d_child (dir_b_root dir)))) eqn:En.
    { exists None. intros l. run. f_equal. ledger. }
    set (fb := fb_open2_find name (d_child (dir_b_root dir))).
    destruct (negb (f_orig fb =? -1) && negb (decompress =? 0)) eqn:Ed.
    + (* inflate: the entry is compressed, so no deflate follows *)
      apply andb_true_iff in Ed. destruct Ed as [Ho Hd].
      assert (Hc : compress = 0).
      { destruct Hflags as [-> | ->]; [discriminate Hd | reflexivity]. }
      subst compress.
      destruct (_fb_inflate_ledger (f_data fb) (f_size fb) (to_size_t (f_orig fb)))
        as ([b |] & Hb).
      * eexists. intros l. run. rewrite Hb. run. f_equal. ledger.
      * exists None. intros l. run. rewrite Hb. run. f_equal. ledger.
    + destruct ((if negb (f_orig fb =? -1) then 1 else 0) =? 0) eqn:Eg;
        destruct (negb (compress =? 0)) eqn:Ec.
      * destruct (_fb_deflate_ledger (f_data fb) (f_size fb) (f_size fb))
          as ([b |] & sz & Hb).
        -- eexists. intros l. run. rewrite Eg. simpl. rewrite Hb. run.
           f_equal. ledger.
        -- exists None. intros l. run. rewrite Eg. simpl. rewrite Hb. run.
           f_equal. ledger.
      * eexists. intros l. run. rewrite Eg. run. f_equal. ledger.
      * eexists. intros l. run. rewrite Eg. run. f_equal. ledger.
      * eexists. intros l. run. rewrite Eg. run. f_equal. ledger.
  - (* direct *)
    destruct (os_fopen env (snprintf_512 (dir_d_root dir) name)) as [stream |].
    2:{ exists None. intros l. run. f_equal. ledger. }
    set (size := to_size_t (os_st_size env (snprintf_512 (dir_d_root dir) name))).
    destruct (negb (compress =? 0)) eqn:Ec.
    + destruct (to_size_t (to_ssize_t (len (firstn (Z.to_nat size) stream))) =? size)
        eqn:Eread.
      * destruct (_fb_deflate_ledger (firstn (Z.to_nat size) stream) size size)
          as ([b |] & sz & Hb).
        -- eexists. intros l. run. fold size. rewrite Eread. rewrite Hb. run.
           f_equal. ledger.
        -- exists None. intros l. run. fold size. rewrite Eread. rewrite Hb. run.
           f_equal. ledger.
      * exists None. intros l. run. fold size. rewrite Eread. run.
        f_equal. ledger.
    + eexists. intros l. run. f_equal. ledger.
Qed.

End Opening.

Section OpeningClaims.
Context {zlib : Zlib}.

(** ** The assertion of [fb_open2] (C8) *)

(** C8. [fb_open2] stops on its assertion exactly when both [decompress]
    and [compress] are set: a call with at most one of them set gets past
    the assertion and returns, and nothing else in the function stops it. *)
Theorem fb_open2_aborts_iff_both_flags
        (env : environment) (dir : fb_dir) (name : string)
        (decompress compress : Z) (l : ledger) :
  fb_open2 env dir name decompress compress l = Abort
  <-> (decompress <> 0 /\ compress <> 0).
Proof.
  split.
  - intros H.
    destruct (Z.eq_dec decompress 0) as [Hd | Hd].
    + destruct (fb_open2_ledger env dir name decompress compress (or_introl Hd))
        as (r & Hr).
      rewrite Hr in H. discriminate H.
    + destruct (Z.eq_dec compress 0) as [Hc | Hc].
      * destruct (fb_open2_ledger env dir name decompress compress (or_intror Hc))
          as (r & Hr).
        rewrite Hr in H. discriminate H.
      * split; assumption.
  - intros [Hd Hc]. unfold fb_open2, bind, assert.
    apply Z.eqb_neq in Hd, Hc. rewrite Hd, Hc. reflexivity.
Qed.

(** ** Opening by path (C10, C2) *)

Lemma strrchr_absent (s : string) (ch : ascii) :
  ~ In ch (list_ascii_of_string s) -> strrchr s ch = None.
Proof.
  induction s as [| a s IH]; intros H; simpl in *.
  - reflexivity.
  - rewrite IH by tauto.
    destruct (Ascii.eqb_spec a ch) as [-> | _]; [tauto | reflexivity].
Qed.

(** C10. For a path without ['/'], [fb_open] returns [NULL] with the
    ledger as it was, whatever the bundle, the data root, the file system
    and the flags are: no backend is looked at. *)
Theorem fb_open_without_slash
        (env : environment) (path : string) (decompress compress : Z)
        (l : ledger) :
  ~ In "/"%char (list_ascii_of_string path) ->
  fb_open env path decompress compress l = Done None l.
Proof.
  intros H. unfold fb_open. rewrite (strrchr_absent path "/" H).
  run. f_equal. ledger.
Qed.

(** C2 fails on the code.  When the directory part of the path opens,
    [fb_open] returns with everything the directory handle holds still
    held, on top of what the returned file handle holds: [fb_closedir],
    which would give it back, is not called, whether the file opens or
    not. *)
Theorem fb_open_keeps_directory_handle
        (env : environment) (path : string) (decompress compress : Z)
        (pos : nat) (dir : fb_dir) (l0 l1 : ledger) :
  strrchr path "/" = Some pos ->
  decompress = 0 \/ compress = 0 ->
  fb_opendir env (substring 0 pos path) l0 = Done (Some dir) l1 ->
  exists r, forall l,
      fb_open env path decompress compress l
      = Done r (ledger_add (ledger_add l (holds r)) (dir_holds dir))
      /\ 1 <= heap_blocks (dir_holds dir)
      /\ fb_closedir dir (ledger_add (ledger_add l (holds r)) (dir_holds dir))
         = Done tt (ledger_add l (holds r)).
Proof.
  intros Hpos Hflags Hdir.
  destruct (fb_opendir_ledger env (substring 0 pos path)) as (rd & Hrd).
  rewrite Hrd in Hdir. injection Hdir as -> _.
  destruct (fb_open2_ledger env dir
              (substring (S pos) (String.length path - S pos) path)
              decompress compress Hflags) as (r & Hr).
  exists r. intros l. split; [| split].
  - unfold fb_open. rewrite Hpos. unfold bind at 1. simpl.
    unfold bind at 1. rewrite Hrd. unfold bind at 1. rewrite Hr.
    run. f_equal. unfold dir_holds. destruct (dir_type dir); ledger.
  - unfold dir_holds. destruct (dir_type dir); simpl; lia.
  - apply fb_closedir_gives_back.
Qed.

End OpeningClaims.

Lemma fb_open_without_slash_witness :
  ~ In "/"%char (list_ascii_of_string "docs") /\
  e_name (filebundle_root sample_bundle) = "docs"%string /\
  fb_open sample_bundle "docs" 1 1 no_resources = Done None no_resources.
Proof.
  assert (H : ~ In "/"%char (list_ascii_of_string "docs")).
  { simpl. intuition discriminate. }
  split; [exact H | split; [reflexivity |]].
  apply (fb_open_without_slash sample_bundle "docs" 1 1 no_resources H).
Defined.

Lemma fb_open_keeps_directory_handle_witness :
  strrchr "docs/none" "/" = Some 4%nat /\
  (0 = 0 \/ 0 = 0) /\
  fb_opendir sample_bundle (substring 0 4 "docs/none") no_resources
  = Done (Some sample_docs_dir) (heap 1) /\
  exists r, forall l,
      fb_open sample_bundle "docs/none" 0 0 l
      = Done r (ledger_add (ledger_add l (holds r)) (dir_holds sample_docs_dir))
      /\ 1 <= heap_blocks (dir_holds sample_docs_dir)
      /\ fb_closedir sample_docs_dir
           (ledger_add (ledger_add l (holds r)) (dir_holds sample_docs_dir))
         = Done tt (ledger_add l (holds r)).
Proof.
  split; [reflexivity | split; [left; reflexivity | split; [reflexivity |]]].
  apply (fb_open_keeps_directory_handle
           sample_bundle "docs/none" 0 0 4 sample_docs_dir no_resources (heap 1)
           eq_refl (or_introl eq_refl) eq_refl).
Defined.

(** The failing input of C2, run: the file is missing, [NULL] comes back,
    and the block of the directory handle stays allocated; with a data
    root the [DIR] stream and the copy of the path stay as well. *)
Example fb_open_missing_file_leaks :
  fb_open sample_bundle "docs/none" 0 0 no_resources = Done None (heap 1) /\
  fb_open sample_direct "docs/none" 0 0 no_resources
  = Done None (mk_ledger 2 1 0).
Proof. split; vm_compute; reflexivity. Qed.

(** ** Locating a bundle entry (C3) *)

(** The lookup loop compares names only: a directory node with the name is
    taken like a file node. *)
Lemma fb_open2_find_takes_any_type
      (t : filebundle_type) (name : string) (cnt : Z) (child : filebundle_entry)
      (data : list byte) (sz orig : Z) (next : filebundle_entry) :
  fb_open2_find name (Entry t name cnt child data sz orig next)
  = Entry t name cnt child data sz orig next.
Proof. simpl. rewrite String.eqb_refl. reflexivity. Qed.

(** C3 fails on the code.  In the sample bundle, [fb_open2] asked for "sub"
    in [docs] returns a file handle on the directory node [sub]: the child
    is selected although it is a Directory node, and the handle takes its
    size and gzip flag from the file view of that node. *)
Theorem fb_open2_selects_directory_node :
  exists fp l,
    fb_open2 sample_bundle sample_docs_dir "sub" 0 0 no_resources
    = Done (Some fp) l /\
    fp_b_root fp = sample_sub /\
    e_type (fp_b_root fp) = FB_DIR /\
    fp_size fp = f_size sample_sub /\
    fp_type fp = FB_BUNDLE.
Proof.
  eexists. eexists. split; [vm_compute; reflexivity |].
  repeat split; reflexivity.
Qed.

(** ** Compressing when a file is opened (C4) *)

Lemma bytes_at_all (l : list byte) : bytes_at l 0 (len l) = l.
Proof.
  unfold bytes_at, len. rewrite Nat2Z.id. simpl. apply firstn_all.
Qed.

Lemma bytes_at_start (l : list byte) (n : Z) :
  bytes_at l 0 n = firstn (Z.to_nat n) l.
Proof. reflexivity. Qed.

(** Below 4 GiB zlib is given the whole of a buffer. *)
Lemma bytes_at_uInt (l : list byte) :
  len l < uInt_modulus ->
  bytes_at (bytes_at l 0 (len l)) 0 (to_uInt (len l)) = l.
Proof.
  intros H. rewrite to_uInt_small by (pose proof (len_nonneg l); lia).
  rewrite !bytes_at_all. reflexivity.
Qed.

Section Transforms.
Context {zlib : Zlib}.

(** When the gzip stream of the content is longer than the content,
    [deflate] fills the [orig] bytes it was given and returns [Z_OK];
    [_fb_deflate] takes that for success. *)
Lemma _fb_deflate_truncates (d : list byte) (size : Z) (l : ledger) :
  0 < len d < len (gzip_stream d) ->
  len d < uInt_modulus ->
  _fb_deflate d (len d) size l
  = Done (Some (firstn (List.length d) (gzip_stream d)), len d)
         (ledger_add l (heap 1)).
Proof.
  intros Hlen Hsz. pose proof uInt_below_size_t as Hu.
  unfold _fb_deflate, deflate. rewrite bytes_at_uInt by exact Hsz.
  rewrite to_uInt_small by lia.
  destruct (Z.eqb_spec (len d) 0) as [H0 | _]; [lia |].
  destruct (Z.leb_spec (len (gzip_stream d)) (len d)) as [Hle | _]; [lia |].
  run.
  destruct (Z.eqb_spec (len d) 0) as [H0 | _]; [lia |].
  rewrite to_size_t_small by lia.
  replace (Z.to_nat (len d)) with (List.length d) by (unfold len; lia).
  f_equal. ledger.
Qed.

(** Opening an uncompressed bundle entry with [compress] set, when the gzip
    stream of its content is longer than the content: the handle owns the
    first bytes of the stream only, as many as the content has. *)
Lemma fb_open2_compress_truncates
      (env : environment) (dir : fb_dir) (name : string)
      (e : filebundle_entry) (compress : Z) (l : ledger) :
  dir_type dir = FB_BUNDLE ->
  fb_open2_find name (d_child (dir_b_root dir)) = e ->
  e <> NULL ->
  f_orig e = -1 ->
  f_size e = len (f_data e) ->
  0 < len (f_data e) < len (gzip_stream (f_data e)) ->
  len (f_data e) < uInt_modulus ->
  compress <> 0 ->
  fb_open2 env dir name 0 compress l
  = Done (Some (mk_fb_file FB_BUNDLE (len (f_data e)) 1
                 (Some (firstn (List.length (f_data e)) (gzip_stream (f_data e))))
                 0 None e))
         (ledger_add l (heap 2)).
Proof.
  intros Ht He Hn Ho Hs Hlen Hsz Hc.
  unfold fb_open2. rewrite Ht, He.
  destruct e as [| t n cnt child data sz orig next]; [contradiction Hn; reflexivity |].
  simpl in Ho, Hs, Hlen, Hsz. subst orig sz.
  apply Z.eqb_neq in Hc.
  unfold bind at 1. simpl assert. cbv iota.
  unfold bind at 1. simpl is_null. cbv iota.
  unfold bind at 1. simpl malloc. cbv iota beta.
  simpl. rewrite Hc. simpl.
  unfold bind.
  rewrite (_fb_deflate_truncates data (len data) _ Hlen Hsz).
  run. f_equal. ledger.
Qed.

End Transforms.

(** C4 fails on the code.  The one-byte file [a.txt] of the sample bundle,
    stored uncompressed, is opened with [compress] set.  The gzip stream of
    one byte takes 24 bytes; [deflate] is given room for one, returns
    [Z_OK] after the first byte of the header, and the open succeeds with
    that byte as the content: [gzip] is 1, the size is 1, and the buffer
    does not inflate to the original. *)
Theorem fb_open2_compress_short_file :
  exists fp l,
    fb_open2 sample_bundle sample_docs_dir "a.txt" 0 1 no_resources
    = Done (Some fp) l /\
    f_orig (fp_b_root fp) = -1 /\
    f_data (fp_b_root fp) = [x61] /\
    fb_gzipped fp = 1 /\
    fb_size fp = 1 /\
    fp_buf fp = Some [x1f] /\
    len (gzip_stream [x61]) = 24 /\
    gunzip_stream (gzip_stream [x61]) = Some [x61] /\
    gunzip_stream [x1f] = None.
Proof.
  eexists. eexists. split.
  - apply (fb_open2_compress_truncates
             sample_bundle sample_docs_dir "a.txt" sample_a 1 no_resources);
      try reflexivity; try discriminate.
    split; reflexivity.
  - repeat split; reflexivity.
Qed.

(** The same on the direct backend: seven bytes of room for a stream of
    thirty. *)
Example fb_open_compress_direct_file :
  exists fp l,
    fb_open sample_direct "docs/a.txt" 0 1 no_resources = Done (Some fp) l /\
    fb_gzipped fp = 1 /\
    fb_size fp = 7 /\
    fp_buf fp = Some (firstn 7 (gzip_stream abc_def)) /\
    len (gzip_stream abc_def) = 30 /\
    gunzip_stream (firstn 7 (gzip_stream abc_def)) = None.
Proof.
  eexists. eexists. split; [vm_compute; reflexivity |].
  repeat split; reflexivity.
Qed.

(** ** Decompressing when a file is opened (C5) *)

(** A read of [count] bytes from the owned buffer. *)
Lemma fb_read_buffered (fp : fb_file) (m : memory) (a count : Z) (b : list byte) :
  fp_buf fp = Some b ->
  fp_size fp = len b ->
  len b < size_modulus ->
  0 <= fp_pos fp < len b ->
  0 < count < ssize_limit ->
  let n := Z.min count (len b - fp_pos fp) in
  fb_read fp m a count
  = (n, set_pos fp (fp_pos fp + n), memcpy m a (bytes_at b (fp_pos fp) n))
  /\ len (bytes_at b (fp_pos fp) n) = n.
Proof.
  intros Hb Hs Hlt Hp Hc n.
  assert (Hmin : MIN count (to_size_t (len b - fp_pos fp)) = n).
  { rewrite to_size_t_small by lia. unfold MIN, n.
    destruct (Z.ltb_spec count (len b - fp_pos fp)); lia. }
  split.
  - unfold fb_read, fb_eof. rewrite Hs.
    destruct (Z.leb_spec (len b) (fp_pos fp)) as [Hle | _]; [lia |].
    simpl. rewrite Hb, Hmin.
    rewrite to_size_t_small by lia.
    rewrite to_ssize_t_small by lia.
    reflexivity.
  - unfold bytes_at. rewrite len_firstn by lia.
    unfold len. rewrite length_skipn. unfold len in *. lia.
Qed.

Lemma drain_S (fuel : nat) (fp : fb_file) (chunk : Z) :
  drain (S fuel) fp chunk
  = let '(n, fp', m) := fb_read fp zero_memory 0 chunk in
    if n <? 0 then Some []
    else match drain fuel fp' chunk with
         | Some rest => Some (load m 0 n ++ rest)
         | None => None
         end.
Proof. reflexivity. Qed.

(** Draining a handle that reads from an owned buffer gives the part of the
    buffer from the cursor on. *)
Lemma drain_buffered (chunk : Z) (b : list byte) (fuel : nat) :
  forall fp : fb_file,
    fp_buf fp = Some b ->
    fp_size fp = len b ->
    len b < size_modulus ->
    0 <= fp_pos fp <= len b ->
    0 < chunk < ssize_limit ->
    len b - fp_pos fp < Z.of_nat fuel ->
    drain fuel fp chunk = Some (skipn (Z.to_nat (fp_pos fp)) b).
Proof.
  induction fuel as [| fuel IH]; intros fp Hb Hs Hlt Hp Hc Hfuel.
  - simpl in Hfuel. lia.
  - rewrite drain_S. destruct (Z.eq_dec (fp_pos fp) (len b)) as [Hend | Hmore].
    + rewrite fb_read_at_eof by lia. simpl.
      rewrite Hend. unfold len. rewrite Nat2Z.id, skipn_all. reflexivity.
    + destruct (fb_read_buffered fp zero_memory 0 chunk b Hb Hs Hlt
                  ltac:(lia) Hc) as [Hread Hn].
      set (n := Z.min chunk (len b - fp_pos fp)) in *.
      rewrite Hread.
      destruct (Z.ltb_spec n 0) as [Hneg | _]; [lia |].
      rewrite (IH (set_pos fp (fp_pos fp + n))); simpl;
        try assumption; try lia.
      pose proof (load_memcpy zero_memory 0 (bytes_at b (fp_pos fp) n)) as Hl.
      rewrite Hn in Hl. rewrite Hl.
      f_equal. unfold bytes_at.
      replace (Z.to_nat (fp_pos fp + n))
        with (Z.to_nat n + Z.to_nat (fp_pos fp))%nat by lia.
      rewrite <- skipn_skipn. apply firstn_skipn.
Qed.

Section Inflate.
Context {zlib : Zlib}.

(** [_fb_inflate] when the bytes zlib is given start with the gzip stream of
    content [d]: the content comes back exactly when its length is [orig]
    modulo 2^32, the room zlib was told of; otherwise both buffers are
    freed. *)
Lemma _fb_inflate_result (data : list byte) (size orig : Z) (d : list byte)
      (l : ledger) :
  gunzip_stream (bytes_at (bytes_at data 0 size) 0 (to_uInt size)) = Some d ->
  _fb_inflate data size orig l
  = if len d =? to_uInt orig then Done (Some d) (ledger_add l (heap 1))
    else Done None l.
Proof.
  intros Hd. unfold _fb_inflate, inflate. rewrite Hd.
  destruct (Z.leb_spec (len d) (to_uInt orig)) as [Hle | Hgt].
  - destruct (Z.eqb_spec (len d) (to_uInt orig)) as [Heq | Hne].
    + run. replace (to_uInt orig - len d =? 0) with true
        by (symmetry; apply Z.eqb_eq; lia).
      run. f_equal. ledger.
    + run. replace (to_uInt orig - len d =? 0) with false
        by (symmetry; apply Z.eqb_neq; lia).
      run. f_equal. ledger.
  - destruct (Z.eqb_spec (len d) (to_uInt orig)) as [Heq | Hne]; [lia |].
    run. f_equal. ledger.
Qed.

(** Opening with [decompress] a bundle entry whose stored bytes, fewer than
    2^32, are the gzip stream of [d]: the open succeeds exactly when the
    length of [d] is the recorded [orig] modulo 2^32; the handle then has
    the recorded [orig] for its size and [d] in its buffer. *)
Lemma fb_open2_decompress_cases
      (env : environment) (dir : fb_dir) (name : string)
      (e : filebundle_entry) (d : list byte) (decompress : Z) (l : ledger) :
  dir_type dir = FB_BUNDLE ->
  fb_open2_find name (d_child (dir_b_root dir)) = e ->
  e <> NULL ->
  f_orig e <> -1 ->
  f_size e = len (f_data e) ->
  len (f_data e) < uInt_modulus ->
  gunzip_stream (f_data e) = Some d ->
  decompress <> 0 ->
  fb_open2 env dir name decompress 0 l
  = if len d =? to_uInt (f_orig e)
    then Done (Some (mk_fb_file FB_BUNDLE (to_size_t (f_orig e)) 0 (Some d)
                                0 None e))
              (ledger_add l (heap 2))
    else Done None l.
Proof.
  intros Ht He Hn Ho Hs Hlt Hd Hdec.
  unfold fb_open2. rewrite Ht, He.
  destruct e as [| t n cnt child data sz orig next];
    [contradiction Hn; reflexivity |].
  simpl in Ho, Hs, Hlt, Hd. subst sz.
  apply Z.eqb_neq in Ho, Hdec.
  unfold bind, assert. rewrite Hdec. simpl. rewrite Ho. simpl.
  rewrite (_fb_inflate_result data (len data) (to_size_t orig) d)
    by (rewrite bytes_at_uInt by exact Hlt; exact Hd).
  rewrite to_uInt_size_t.
  destruct (len d =? to_uInt orig); run; f_equal; ledger.
Qed.

(** C5. A bundle entry [e] is located by [name]; it is stored compressed
    ([orig] is not -1) and its stored bytes, fewer than 2^32, are the gzip
    stream of [d].  Opened with [decompress] set, either [fb_open2] returns
    a handle whose gzip flag is 0, whose cursor is 0 and whose buffer is
    [d], holding the handle and the buffer and nothing more; or it returns
    [NULL] and holds nothing it did not hold before.  When the entry
    records the length of [d] as its original size, as section 3 of the
    specification has it, the size of the handle is the length of [d] and
    the handle drains to [d] for any request size.  zlib is told of the
    room in a 32-bit counter: the first case happens exactly when the
    recorded [orig] is the length of [d] modulo 2^32, and the size of the
    handle is the recorded [orig] in any case. *)
Theorem fb_open2_decompress_round_trip
        (env : environment) (dir : fb_dir) (name : string)
        (e : filebundle_entry) (d : list byte) (decompress chunk : Z)
        (l : ledger) :
  dir_type dir = FB_BUNDLE ->
  fb_open2_find name (d_child (dir_b_root dir)) = e ->
  e <> NULL ->
  f_orig e <> -1 ->
  f_size e = len (f_data e) ->
  len (f_data e) < uInt_modulus ->
  gunzip_stream (f_data e) = Some d ->
  decompress <> 0 ->
  0 < chunk < ssize_limit ->
  match fb_open2 env dir name decompress 0 l with
  | Done (Some fp) l' =>
      (f_orig e = len d ->
       fb_size fp = len d /\
       drain (S (List.length d)) fp chunk = Some d) /\
      fb_gzipped fp = 0 /\
      fp_buf fp = Some d /\
      fp_pos fp = 0 /\
      l' = ledger_add l (file_holds fp) /\
      fb_size fp = to_size_t (f_orig e) /\
      to_uInt (f_orig e) = len d
  | Done None l' =>
      to_uInt (f_orig e) <> len d /\ l' = l
  | Abort => False
  end.
Proof.
  intros Ht He Hn Ho Hs Hlt Hd Hdec Hchunk.
  rewrite (fb_open2_decompress_cases env dir name e d decompress l
             Ht He Hn Ho Hs Hlt Hd Hdec).
  pose proof uInt_below_size_t as Hu.
  pose proof (to_uInt_range (f_orig e)) as Hr.
  destruct (Z.eqb_spec (len d) (to_uInt (f_orig e))) as [Heq | Hne].
  - unfold fb_size, fb_gzipped. simpl.
    split; [| repeat split; symmetry; exact Heq].
    intros Hrec. rewrite Hrec, to_size_t_small by lia.
    split; [reflexivity |].
    rewrite (drain_buffered chunk d (S (List.length d))); simpl;
      try reflexivity; try assumption; unfold len in *; lia.
  - split; [congruence | reflexivity].
Qed.

(** The recorded original size is checked against the content modulo 2^32
    only.  For a bundle entry whose stored bytes, fewer than 2^32, are the
    gzip stream of [d]: when the recorded [orig] exceeds the length of [d]
    by a multiple of 2^32, the open with [decompress] succeeds, the size of
    the handle is the recorded [orig] and the buffer holds the bytes of
    [d], fewer than the size; and when the recorded [orig] is the length of
    [d] and [d] has 2^32 bytes or more, the open fails and keeps nothing. *)
Theorem fb_open2_decompress_wrapped_orig
        (env : environment) (dir : fb_dir) (name : string)
        (e : filebundle_entry) (d : list byte) (decompress : Z) (l : ledger) :
  dir_type dir = FB_BUNDLE ->
  fb_open2_find name (d_child (dir_b_root dir)) = e ->
  e <> NULL ->
  f_orig e <> -1 ->
  f_size e = len (f_data e) ->
  len (f_data e) < uInt_modulus ->
  gunzip_stream (f_data e) = Some d ->
  decompress <> 0 ->
  (forall k,
      0 < k ->
      len d < uInt_modulus ->
      f_orig e = len d + k * uInt_modulus ->
      f_orig e < size_modulus ->
      fb_open2 env dir name decompress 0 l
      = Done (Some (mk_fb_file FB_BUNDLE (len d + k * uInt_modulus) 0 (Some d)
                               0 None e))
             (ledger_add l (heap 2))
      /\ len d < len d + k * uInt_modulus) /\
  (f_orig e = len d ->
   uInt_modulus <= len d ->
   fb_open2 env dir name decompress 0 l = Done None l).
Proof.
  intros Ht He Hn Ho Hs Hlt Hd Hdec.
  rewrite (fb_open2_decompress_cases env dir name e d decompress l
             Ht He Hn Ho Hs Hlt Hd Hdec).
  pose proof (len_nonneg d) as Hd0.
  split.
  - intros k Hk Hsmall Hrec Hmax.
    assert (Hu : to_uInt (f_orig e) = len d).
    { rewrite Hrec. unfold to_uInt.
      rewrite Z.mod_add by (unfold uInt_modulus; lia).
      apply Z.mod_small. lia. }
    rewrite Hu, Z.eqb_refl.
    rewrite to_size_t_small by (unfold uInt_modulus in *; lia).
    rewrite Hrec. split; [reflexivity |].
    unfold uInt_modulus. lia.
  - intros Hrec Hbig.
    pose proof (to_uInt_range (f_orig e)) as Hr.
    destruct (Z.eqb_spec (len d) (to_uInt (f_orig e))) as [Heq | _];
      [lia | reflexivity].
Qed.

End Inflate.

Lemma fb_open2_decompress_round_trip_witness :
  dir_type sample_docs_dir = FB_BUNDLE /\
  fb_open2_find "lines.txt" (d_child (dir_b_root sample_docs_dir)) = sample_lines /\
  sample_lines <> NULL /\
  f_orig sample_lines <> -1 /\
  f_size sample_lines = len (f_data sample_lines) /\
  len (f_data sample_lines) < uInt_modulus /\
  gunzip_stream (f_data sample_lines) = Some abc_def /\
  1 <> 0 /\
  0 < 3 < ssize_limit /\
  match fb_open2 sample_bundle sample_docs_dir "lines.txt" 1 0 no_resources with
  | Done (Some fp) l' =>
      (f_orig sample_lines = len abc_def ->
       fb_size fp = len abc_def /\
       drain (S (List.length abc_def)) fp 3 = Some abc_def) /\
      fb_gzipped fp = 0 /\
      fp_buf fp = Some abc_def /\
      fp_pos fp = 0 /\
      l' = ledger_add no_resources (file_holds fp) /\
      fb_size fp = to_size_t (f_orig sample_lines) /\
      to_uInt (f_orig sample_lines) = len abc_def
  | Done None l' =>
      to_uInt (f_orig sample_lines) <> len abc_def /\ l' = no_resources
  | Abort => False
  end.
Proof.
  assert (H1 : sample_lines <> NULL) by discriminate.
  assert (H2 : f_orig sample_lines <> -1) by discriminate.
  assert (H3 : 1 <> 0) by discriminate.
  assert (H4 : 0 < 3 < ssize_limit) by (split; reflexivity).
  assert (H5 : gunzip_stream (f_data sample_lines) = Some abc_def)
    by (vm_compute; reflexivity).
  assert (H6 : len (f_data sample_lines) < uInt_modulus)
    by (vm_compute; reflexivity).
  split; [reflexivity |].
  split; [reflexivity |].
  split; [exact H1 |].
  split; [exact H2 |].
  split; [vm_compute; reflexivity |].
  split; [exact H6 |].
  split; [exact H5 |].
  split; [exact H3 |].
  split; [exact H4 |].
  apply (fb_open2_decompress_round_trip
           sample_bundle sample_docs_dir "lines.txt" sample_lines abc_def 1 3
           no_resources eq_refl eq_refl H1 H2 eq_refl H6 H5 H3 H4).
Defined.

(** The sample entry does open, and drains to its original content. *)
Example fb_open2_decompress_sample :
  exists fp,
    fb_open2 sample_bundle sample_docs_dir "lines.txt" 1 0 no_resources
    = Done (Some fp) (heap 2) /\
    drain 8 fp 3 = Some abc_def.
Proof. eexists. split; [vm_compute; reflexivity | vm_compute; reflexivity]. Qed.

(** The same stored bytes under a recorded original size of 2^32 + 7: zlib
    is told of seven bytes of room, the content fills them, and the open
    succeeds with a handle of size 2^32 + 7 whose buffer holds the seven
    bytes that were inflated. *)
Example fb_open2_decompress_wrapped_size :
  fb_open2 sample_bundle sample_wrapped_dir "lines.txt" 1 0 no_resources
  = Done (Some (mk_fb_file FB_BUNDLE 4294967303 0 (Some abc_def) 0 None
                           sample_wrapped))
         (heap 2).
Proof. vm_compute. reflexivity. Qed.

Lemma fb_open2_decompress_wrapped_orig_witness :
  dir_type sample_wrapped_dir = FB_BUNDLE /\
  fb_open2_find "lines.txt" (d_child (dir_b_root sample_wrapped_dir))
  = sample_wrapped /\
  sample_wrapped <> NULL /\
  f_orig sample_wrapped <> -1 /\
  f_size sample_wrapped = len (f_data sample_wrapped) /\
  len (f_data sample_wrapped) < uInt_modulus /\
  gunzip_stream (f_data sample_wrapped) = Some abc_def /\
  1 <> 0 /\
  (forall k,
      0 < k ->
      len abc_def < uInt_modulus ->
      f_orig sample_wrapped = len abc_def + k * uInt_modulus ->
      f_orig sample_wrapped < size_modulus ->
      fb_open2 sample_bundle sample_wrapped_dir "lines.txt" 1 0 no_resources
      = Done (Some (mk_fb_file FB_BUNDLE (len abc_def + k * uInt_modulus) 0
                               (Some abc_def) 0 None sample_wrapped))
             (ledger_add no_resources (heap 2))
      /\ len abc_def < len abc_def + k * uInt_modulus) /\
  (f_orig sample_wrapped = len abc_def ->
   uInt_modulus <= len abc_def ->
   fb_open2 sample_bundle sample_wrapped_dir "lines.txt" 1 0 no_resources
   = Done None no_resources).
Proof.
  assert (H1 : sample_wrapped <> NULL) by discriminate.
  assert (H2 : f_orig sample_wrapped <> -1) by discriminate.
  assert (H3 : 1 <> 0) by discriminate.
  assert (H5 : gunzip_stream (f_data sample_wrapped) = Some abc_def)
    by (vm_compute; reflexivity).
  assert (H6 : len (f_data sample_wrapped) < uInt_modulus)
    by (vm_compute; reflexivity).
  split; [reflexivity |].
  split; [reflexivity |].
  split; [exact H1 |].
  split; [exact H2 |].
  split; [vm_compute; reflexivity |].
  split; [exact H6 |].
  split; [exact H5 |].
  split; [exact H3 |].
  apply (fb_open2_decompress_wrapped_orig
           sample_bundle sample_wrapped_dir "lines.txt" sample_wrapped abc_def 1
           no_resources eq_refl eq_refl H1 H2 eq_refl H6 H5 H3).
Defined.

(** ** Walking the bundle tree (C9) *)

Lemma dir_among_not_null (seg : string) (fb e : filebundle_entry) :
  dir_among seg fb e -> e <> NULL.
Proof. induction 1; [discriminate | assumption]. Qed.

(** The loop on a chain in which segment [seg] matches [e]: it stops on
    [e] when [seg] is the last segment and goes on in the children of [e]
    otherwise. *)
Lemma fb_opendir_walk_dir_among (seg : string) (fb e : filebundle_entry) :
  dir_among seg fb e ->
  forall more,
    fb_opendir_walk fb (seg :: more)
    = match more with
      | [] => e
      | _ :: _ => fb_opendir_walk (d_child e) more
      end.
Proof.
  induction 1 as [cnt child data sz orig next
                 | t n cnt child data sz orig next e Hne Hin IH]; intros more.
  - simpl. rewrite String.eqb_refl. destruct more; reflexivity.
  - simpl.
    replace (filebundle_type_eqb t FB_DIR && (n =? seg)%string) with false.
    + apply IH.
    + symmetry. apply andb_false_iff.
      destruct Hne as [Ht | Hn].
      * left. destruct t; try reflexivity. contradiction Ht. reflexivity.
      * right. apply String.eqb_neq. exact Hn.
Qed.

Lemma resolves_walk (fb : filebundle_entry) (segs : list string)
      (e : filebundle_entry) :
  resolves fb segs e -> fb_opendir_walk fb segs = e /\ e <> NULL.
Proof.
  induction 1 as [fb Hnn | fb seg e Hin | fb seg seg' segs e e' Hin Hres IH].
  - split; [destruct fb; reflexivity | exact Hnn].
  - split; [apply (fb_opendir_walk_dir_among seg fb e Hin [])
           | apply (dir_among_not_null seg fb e Hin)].
  - destruct IH as [IH Hnn]. split; [| exact Hnn].
    rewrite (fb_opendir_walk_dir_among seg fb e Hin (seg' :: segs)). exact IH.
Qed.

(** A node that does not match the first segment is passed over. *)
Lemma resolves_skip (t : filebundle_type) (n : string) (cnt : Z)
      (child : filebundle_entry) (data : list byte) (sz orig : Z)
      (next : filebundle_entry) (seg : string) (more : list string)
      (e : filebundle_entry) :
  t <> FB_DIR \/ n <> seg ->
  resolves next (seg :: more) e ->
  resolves (Entry t n cnt child data sz orig next) (seg :: more) e.
Proof.
  intros Hne Hres. inversion Hres; subst.
  - apply resolves_last. apply dir_later; assumption.
  - eapply resolves_step; [apply dir_later; eassumption | assumption].
Qed.

Lemma walk_resolves (fb : filebundle_entry) :
  forall segs,
    fb_opendir_walk fb segs <> NULL ->
    resolves fb segs (fb_opendir_walk fb segs).
Proof.
  induction fb as [| t n cnt child IHchild data sz orig next IHnext];
    intros segs Hnn.
  - destruct segs; contradiction Hnn; reflexivity.
  - destruct segs as [| seg more].
    + apply resolves_root. discriminate.
    + simpl in *.
      destruct (filebundle_type_eqb t FB_DIR && (n =? seg)%string) eqn:E.
      * apply andb_true_iff in E. destruct E as [Et En].
        apply String.eqb_eq in En. subst n.
        destruct t; try discriminate Et.
        destruct more as [| seg' more'].
        -- apply resolves_last. apply dir_here.
        -- eapply resolves_step; [apply dir_here |].
           simpl. apply IHchild. exact Hnn.
      * apply resolves_skip.
        -- apply andb_false_iff in E. destruct E as [Et | En].
           ++ left. intros ->. discriminate Et.
           ++ right. apply String.eqb_neq. exact En.
        -- apply IHnext. exact Hnn.
Qed.

Lemma is_null_spec (fb : filebundle_entry) :
  (is_null fb = true /\ fb = NULL) \/ (is_null fb = false /\ fb <> NULL).
Proof. destruct fb; [left | right]; split; (reflexivity || discriminate). Qed.

(** The test [*path != '/'] holds when the path does not start with ['/']. *)
Lemma not_absolute_prefix (path : string) :
  not_absolute path = true <-> prefix "/" path = false.
Proof.
  destruct path as [| a s]; [simpl; tauto |].
  change (prefix "/" (String a s))
    with (if ascii_dec "/" a then prefix EmptyString s else false).
  unfold not_absolute.
  destruct (ascii_dec "/" a) as [<- | Hne].
  - destruct s; simpl; split; discriminate.
  - destruct (Ascii.eqb_spec a "/") as [-> | _]; [contradiction Hne; reflexivity |].
    simpl. split; reflexivity.
Qed.

(** A token of [strtok_all] is not empty and holds no ['/']. *)
Lemma strtok_from_tokens (s : string) :
  forall cur,
    ~ In "/"%char (list_ascii_of_string cur) ->
    Forall (fun t => t <> EmptyString /\ ~ In "/"%char (list_ascii_of_string t))
           (strtok_from s cur).
Proof.
  induction s as [| a s IH]; intros cur Hcur; simpl.
  - destruct cur; constructor; [split; [discriminate | exact Hcur] | constructor].
  - destruct (Ascii.eqb_spec a "/") as [-> | Hne].
    + destruct cur.
      * apply IH. simpl. tauto.
      * constructor; [split; [discriminate | exact Hcur] |].
        apply IH. simpl. tauto.
    + apply IH.
      assert (Happ : forall c, In c (list_ascii_of_string (cur ++ String a EmptyString))
                               -> In c (list_ascii_of_string cur) \/ c = a).
      { clear. induction cur as [| b cur IHc]; simpl; intros c Hc.
        - destruct Hc as [<- | []]. right. reflexivity.
        - destruct Hc as [<- | Hc]; [left; left; reflexivity |].
          destruct (IHc c Hc); [left; right; assumption | right; assumption]. }
      intros Hin. destruct (Happ _ Hin) as [H | H]; [tauto | congruence].
Qed.

Lemma string_app_assoc (a b c : string) : ((a ++ b) ++ c = a ++ b ++ c)%string.
Proof. induction a as [| x a IH]; simpl; [reflexivity | rewrite IH; reflexivity]. Qed.

Lemma string_app_empty (a : string) : (a ++ EmptyString)%string = a.
Proof. induction a as [| x a IH]; simpl; [reflexivity | rewrite IH; reflexivity]. Qed.

Lemma strtok_from_slash (a b : string) :
  forall cur,
    strtok_from (a ++ String "/" b) cur = strtok_from a cur ++ strtok_all b.
Proof.
  induction a as [| c a IH]; intros cur; simpl.
  - destruct cur; reflexivity.
  - destruct (Ascii.eqb c "/").
    + destruct cur; [apply IH | simpl; f_equal; apply IH].
    + apply IH.
Qed.

(** The tokens of two parts joined by a ['/'] are the tokens of the first
    followed by the tokens of the second. *)
Lemma strtok_all_slash (a b : string) :
  strtok_all (a ++ String "/" b) = strtok_all a ++ strtok_all b.
Proof. apply strtok_from_slash. Qed.

(** A piece without ['/'] is one token, or none when it is empty. *)
Lemma strtok_from_no_slash (p : string) :
  no_slash p ->
  forall cur,
    strtok_from p cur
    = if non_empty (cur ++ p) then [(cur ++ p)%string] else [].
Proof.
  unfold no_slash.
  induction p as [| a p IH]; intros Hp cur.
  - rewrite string_app_empty. destruct cur; reflexivity.
  - simpl in Hp.
    destruct (Ascii.eqb_spec a "/") as [-> | Hne]; [tauto |].
    simpl. destruct (Ascii.eqb_spec a "/") as [-> | _]; [tauto |].
    rewrite IH by tauto.
    rewrite string_app_assoc. reflexivity.
Qed.

(** The tokens that strtok finds in pieces joined by ['/'] are the pieces
    that are not empty. *)
Lemma strtok_all_join (pieces : list string) :
  Forall no_slash pieces ->
  strtok_all (join_slash pieces) = filter non_empty pieces.
Proof.
  induction 1 as [| p ps Hp Hps IH]; [reflexivity |].
  destruct ps as [| q ps].
  - simpl. unfold strtok_all. rewrite (strtok_from_no_slash p Hp).
    reflexivity.
  - change (join_slash (p :: q :: ps))
      with (p ++ String "/" (join_slash (q :: ps)))%string.
    rewrite strtok_all_slash, IH.
    unfold strtok_all. rewrite (strtok_from_no_slash p Hp).
    change (filter non_empty (p :: q :: ps))
      with (if non_empty p then p :: filter non_empty (q :: ps)
            else filter non_empty (q :: ps)).
    change (EmptyString ++ p)%string with p.
    destruct (non_empty p); reflexivity.
Qed.

Lemma split_slash_not_nil (s : string) : split_slash s <> [].
Proof.
  destruct s as [| a s]; simpl; [discriminate |].
  destruct (Ascii.eqb a "/"); [discriminate |].
  destruct (split_slash s); discriminate.
Qed.

(** [split_slash] cuts at the ['/'] characters and nowhere else: joining
    the pieces gives the path back, and no piece holds a ['/']. *)
Lemma join_split_slash (s : string) : join_slash (split_slash s) = s.
Proof.
  induction s as [| a s IH]; [reflexivity |].
  pose proof (split_slash_not_nil s) as Hnn.
  simpl. destruct (Ascii.eqb_spec a "/") as [-> | Hne].
  - destruct (split_slash s) as [| p ps]; [contradiction Hnn; reflexivity |].
    change (join_slash (EmptyString :: p :: ps))
      with (String "/" (join_slash (p :: ps))).
    rewrite IH. reflexivity.
  - destruct (split_slash s) as [| p ps]; [contradiction Hnn; reflexivity |].
    rewrite <- IH. destruct ps; reflexivity.
Qed.

Lemma split_slash_no_slash (s : string) : Forall no_slash (split_slash s).
Proof.
  induction s as [| a s IH]; simpl.
  - constructor; [intros [] | constructor].
  - destruct (Ascii.eqb_spec a "/") as [-> | Hne].
    + constructor; [intros [] | exact IH].
    + destruct (split_slash s) as [| p ps].
      * constructor; [| constructor].
        intros [H | []]. apply Hne. exact H.
      * inversion IH as [| ? ? Hp Hps]; subst.
        constructor; [| exact Hps].
        intros [H | H]; [apply Hne; exact H | exact (Hp H)].
Qed.

(** The tokens of strtok are the segments of the path. *)
Lemma strtok_all_segments (path : string) : strtok_all path = segments path.
Proof.
  rewrite <- (join_split_slash path) at 1.
  apply strtok_all_join, split_slash_no_slash.
Qed.

(** C9. For a path that does not start with ['/'] and without a data
    root, [fb_opendir] cuts the path into its ['/']-separated segments and
    walks the bundle tree: it returns a Bundle handle on node [e] (with the
    iteration cursor on the children of [e], and one block allocated)
    exactly when the walk of the specification resolves the segments of the
    path to [e], and it returns [NULL], holding nothing more than before,
    exactly when the walk resolves to no node.  The segments are those of
    the path and no others: the path is made of pieces without ['/'] joined
    by ['/'], and however it is written so, the segments are the pieces
    that are not empty, in their order. *)
Theorem fb_opendir_walks_bundle
        (env : environment) (path : string) (l : ledger) :
  prefix "/" path = false ->
  tvheadend_dataroot env = None ->
  let root := filebundle_root env in
  let segs := segments path in
  (forall e,
      resolves root segs e <->
      fb_opendir env path l
      = Done (Some (mk_fb_dir FB_BUNDLE EmptyString [] e (d_child e)))
             (ledger_add l (heap 1))) /\
  ((forall e, ~ resolves root segs e) <-> fb_opendir env path l = Done None l) /\
  Forall no_slash (split_slash path) /\
  join_slash (split_slash path) = path /\
  (forall pieces,
      Forall no_slash pieces -> join_slash pieces = path ->
      segs = filter non_empty pieces).
Proof.
  intros Hpre Hroot root segs.
  assert (Hrel : not_absolute path = true)
    by (rewrite not_absolute_prefix; exact Hpre).
  assert (Hopen :
            fb_opendir env path l
            = if is_null (fb_opendir_walk root segs) then Done None l
              else Done (Some (mk_fb_dir FB_BUNDLE EmptyString []
                                 (fb_opendir_walk root segs)
                                 (d_child (fb_opendir_walk root segs))))
                        (ledger_add l (heap 1))).
  { unfold fb_opendir. rewrite Hrel, Hroot. fold root.
    rewrite strtok_all_segments. fold segs.
    destruct (is_null (fb_opendir_walk root segs)); run; f_equal; ledger. }
  rewrite Hopen. split; [| split; [| split; [| split]]].
  - intros e. split.
    + intros Hres. destruct (resolves_walk root segs e Hres) as [Hw Hnn].
      rewrite Hw. destruct e; [contradiction Hnn; reflexivity | reflexivity].
    + destruct (is_null_spec (fb_opendir_walk root segs)) as [[Hn _] | [Hn Hnn]];
        rewrite Hn; intros H; [discriminate H |].
      injection H as He _. rewrite <- He. apply walk_resolves. exact Hnn.
  - split.
    + intros Hnone.
      destruct (is_null_spec (fb_opendir_walk root segs)) as [[Hn _] | [Hn Hnn]];
        rewrite Hn; [reflexivity |].
      exfalso. apply (Hnone _ (walk_resolves root segs Hnn)).
    + destruct (is_null_spec (fb_opendir_walk root segs)) as [[Hn Hw] | [Hn _]];
        rewrite Hn; intros H; [| discriminate H].
      intros e Hres. destruct (resolves_walk root segs e Hres) as [Hw' Hnn].
      congruence.
  - apply split_slash_no_slash.
  - apply join_split_slash.
  - intros pieces Hp Hj. unfold segs.
    rewrite <- strtok_all_segments, <- Hj. apply strtok_all_join. exact Hp.
Qed.

Lemma fb_opendir_walks_bundle_witness :
  prefix "/" "docs/sub" = false /\
  tvheadend_dataroot sample_bundle = None /\
  (forall e,
      resolves sample_docs (segments "docs/sub") e <->
      fb_opendir sample_bundle "docs/sub" no_resources
      = Done (Some (mk_fb_dir FB_BUNDLE EmptyString [] e (d_child e)))
             (ledger_add no_resources (heap 1))) /\
  ((forall e, ~ resolves sample_docs (segments "docs/sub") e) <->
   fb_opendir sample_bundle "docs/sub" no_resources = Done None no_resources) /\
  Forall no_slash (split_slash "docs/sub") /\
  join_slash (split_slash "docs/sub") = "docs/sub"%string /\
  (forall pieces,
      Forall no_slash pieces -> join_slash pieces = "docs/sub"%string ->
      segments "docs/sub" = filter non_empty pieces).
Proof.
  split; [reflexivity | split; [reflexivity |]].
  apply (fb_opendir_walks_bundle sample_bundle "docs/sub" no_resources
           eq_refl eq_refl).
Defined.

(** The segments of some paths: a doubled ['/'] and one at the end add no
    segment, and the empty path has none. *)
Example segments_samples :
  segments "docs/sub" = ["docs"; "sub"]%string /\
  split_slash "docs//sub/" = ["docs"; ""; "sub"; ""]%string /\
  segments "docs//sub/" = ["docs"; "sub"]%string /\
  segments "" = [].
Proof. repeat split; reflexivity. Qed.

(** The walk on the sample bundle: a directory below a directory is found,
    a file is not a directory, a missing name is not found, and empty
    segments do not count. *)
Example fb_opendir_samples :
  (exists dir, fb_opendir sample_bundle "docs/sub" no_resources
               = Done (Some dir) (heap 1) /\ dir_b_root dir = sample_sub) /\
  fb_opendir sample_bundle "docs/a.txt" no_resources = Done None no_resources /\
  fb_opendir sample_bundle "docs/none" no_resources = Done None no_resources /\
  (exists dir, fb_opendir sample_bundle "docs//sub/" no_resources
               = Done (Some dir) (heap 1) /\ dir_b_root dir = sample_sub).
Proof.
  split; [eexists; split; [vm_compute; reflexivity | reflexivity] |].
  split; [vm_compute; reflexivity |].
  split; [vm_compute; reflexivity |].
  eexists; split; [vm_compute; reflexivity | reflexivity].
Qed.

(** * Further properties of the module *)

(** ** Iterating over a directory *)

Lemma readdir_all_bundle (lstat : string -> option bool) (fb : filebundle_entry) :
  forall (dir : fb_dir) (fuel : nat),
    dir_type dir = FB_BUNDLE ->
    dir_b_cur dir = fb ->
    (List.length (siblings fb) < fuel)%nat ->
    readdir_all fuel lstat dir = Some (siblings fb).
Proof.
  induction fb as [| t n cnt child _ data sz orig next IH];
    intros dir fuel Ht Hc Hf; (destruct fuel as [| fuel]; [inversion Hf |]).
  - simpl. unfold fb_readdir. rewrite Ht, Hc. reflexivity.
  - simpl. unfold fb_readdir. rewrite Ht, Hc.
    rewrite (IH (set_b_cur dir next) fuel); [reflexivity | exact Ht | reflexivity |].
    simpl in Hf. lia.
Qed.

(** A Bundle directory handle enumerates the nodes from its cursor on, each
    once, in the order of the [next] links, with the name and the type of
    the node; then [fb_readdir] returns [NULL].  No call to lstat is made:
    the answer is the same for every file system. *)
Theorem fb_readdir_bundle_enumerates
        (lstat lstat' : string -> option bool) (dir : fb_dir) (fuel : nat) :
  dir_type dir = FB_BUNDLE ->
  (List.length (siblings (dir_b_cur dir)) < fuel)%nat ->
  readdir_all fuel lstat dir = Some (siblings (dir_b_cur dir)) /\
  readdir_all fuel lstat' dir = readdir_all fuel lstat dir /\
  (dir_b_cur dir = NULL -> fb_readdir lstat dir = (None, dir)).
Proof.
  intros Ht Hf. repeat split.
  - apply (readdir_all_bundle lstat (dir_b_cur dir)); auto.
  - rewrite (readdir_all_bundle lstat (dir_b_cur dir)),
      (readdir_all_bundle lstat' (dir_b_cur dir)); auto.
  - intros Hn. unfold fb_readdir. rewrite Ht, Hn. reflexivity.
Qed.

Lemma fb_readdir_bundle_enumerates_witness :
  dir_type sample_docs_dir = FB_BUNDLE /\
  (List.length (siblings (dir_b_cur sample_docs_dir)) < 4)%nat /\
  readdir_all 4 (fun _ => None) sample_docs_dir
  = Some (siblings (dir_b_cur sample_docs_dir)) /\
  readdir_all 4 (fun _ => Some true) sample_docs_dir
  = readdir_all 4 (fun _ => None) sample_docs_dir /\
  (dir_b_cur sample_docs_dir = NULL ->
   fb_readdir (fun _ => None) sample_docs_dir = (None, sample_docs_dir)).
Proof.
  split; [reflexivity | split; [simpl; lia |]].
  apply (fb_readdir_bundle_enumerates (fun _ => None) (fun _ => Some true)
           sample_docs_dir 4 eq_refl).
  simpl. lia.
Defined.

Example readdir_all_sample :
  readdir_all 4 (fun _ => None) sample_docs_dir
  = Some [mk_fb_dirent "a.txt" FB_FILE; mk_fb_dirent "sub" FB_DIR;
          mk_fb_dirent "lines.txt" FB_FILE].
Proof. reflexivity. Qed.

Lemma readdir_all_direct (lstat : string -> option bool) (names : list string) :
  forall (dir : fb_dir) (fuel : nat),
    dir_type dir = FB_DIRECT ->
    dir_d_cur dir = names ->
    (List.length names < fuel)%nat ->
    readdir_all fuel lstat dir
    = Some (map (fun n => mk_fb_dirent n (lstat_type lstat (dir_d_root dir) n))
                names).
Proof.
  induction names as [| n names IH]; intros dir fuel Ht Hc Hf;
    (destruct fuel as [| fuel]; [inversion Hf |]).
  - simpl. unfold fb_readdir. rewrite Ht, Hc. reflexivity.
  - simpl. unfold fb_readdir. rewrite Ht, Hc.
    rewrite (IH (set_dir_d_cur dir names) fuel);
      [reflexivity | exact Ht | reflexivity | simpl in Hf; lia].
Qed.

(** A Direct directory handle enumerates the names its [DIR] stream still
    holds, each once and in the order of the stream; the type of an entry
    is Directory or File by the answer of lstat on root/name (cut to 511
    characters), and Unknown when lstat fails. *)
Theorem fb_readdir_direct_enumerates
        (lstat : string -> option bool) (dir : fb_dir) (fuel : nat) :
  dir_type dir = FB_DIRECT ->
  (List.length (dir_d_cur dir) < fuel)%nat ->
  readdir_all fuel lstat dir
  = Some (map (fun n => mk_fb_dirent n (lstat_type lstat (dir_d_root dir) n))
              (dir_d_cur dir)) /\
  (forall n, lstat (snprintf_512 (dir_d_root dir) n) = None ->
             lstat_type lstat (dir_d_root dir) n = FB_UNKNOWN) /\
  (forall n is_dir, lstat (snprintf_512 (dir_d_root dir) n) = Some is_dir ->
                    lstat_type lstat (dir_d_root dir) n
                    = if is_dir then FB_DIR else FB_FILE).
Proof.
  intros Ht Hf. split; [| split].
  - apply readdir_all_direct; auto.
  - intros n Hn. unfold lstat_type. rewrite Hn. reflexivity.
  - intros n is_dir Hn. unfold lstat_type. rewrite Hn. destruct is_dir; reflexivity.
Qed.

Lemma fb_readdir_direct_enumerates_witness :
  dir_type sample_srv_docs_dir = FB_DIRECT /\
  (List.length (dir_d_cur sample_srv_docs_dir) < 4)%nat /\
  readdir_all 4 sample_lstat sample_srv_docs_dir
  = Some (map (fun n => mk_fb_dirent n
                          (lstat_type sample_lstat (dir_d_root sample_srv_docs_dir) n))
              (dir_d_cur sample_srv_docs_dir)) /\
  (forall n, sample_lstat (snprintf_512 (dir_d_root sample_srv_docs_dir) n) = None ->
             lstat_type sample_lstat (dir_d_root sample_srv_docs_dir) n = FB_UNKNOWN) /\
  (forall n is_dir,
      sample_lstat (snprintf_512 (dir_d_root sample_srv_docs_dir) n) = Some is_dir ->
      lstat_type sample_lstat (dir_d_root sample_srv_docs_dir) n
      = if is_dir then FB_DIR else FB_FILE).
Proof.
  split; [reflexivity | split; [simpl; lia |]].
  apply (fb_readdir_direct_enumerates sample_lstat sample_srv_docs_dir 4 eq_refl).
  simpl. lia.
Defined.

Example readdir_all_direct_sample :
  readdir_all 4 sample_lstat sample_srv_docs_dir
  = Some [mk_fb_dirent "a.txt" FB_FILE; mk_fb_dirent "sub" FB_DIR;
          mk_fb_dirent "gone" FB_UNKNOWN].
Proof. vm_compute. reflexivity. Qed.

(** ** Opening and closing a directory *)

(** [fb_opendir] in bundle mode, in one equation. *)
Lemma fb_opendir_bundle_mode (env : environment) (path : string) (l : ledger) :
  not_absolute path = true ->
  tvheadend_dataroot env = None ->
  fb_opendir env path l
  = let fb := fb_opendir_walk (filebundle_root env) (strtok_all path) in
    if is_null fb then Done None l
    else Done (Some (mk_fb_dir FB_BUNDLE EmptyString [] fb (d_child fb)))
              (ledger_add l (heap 1)).
Proof.
  intros Hrel Hroot. unfold fb_opendir. rewrite Hrel, Hroot. cbv zeta.
  destruct (is_null (fb_opendir_walk (filebundle_root env) (strtok_all path)));
    run; f_equal; ledger.
Qed.

(** Opening a bundle directory and iterating over it: when the segments of
    the path resolve to node [e], the handle that [fb_opendir] returns
    enumerates the children of [e], in their order, and nothing else. *)
Theorem fb_opendir_then_readdir_lists_children
        (env : environment) (path : string) (e : filebundle_entry)
        (lstat : string -> option bool) (l : ledger) :
  prefix "/" path = false ->
  tvheadend_dataroot env = None ->
  resolves (filebundle_root env) (strtok_all path) e ->
  exists dir l',
    fb_opendir env path l = Done (Some dir) l' /\
    readdir_all (S (List.length (siblings (d_child e)))) lstat dir
    = Some (siblings (d_child e)).
Proof.
  intros Hpre Hroot Hres.
  apply not_absolute_prefix in Hpre.
  destruct (resolves_walk _ _ _ Hres) as [Hw Hnn].
  rewrite (fb_opendir_bundle_mode env path l Hpre Hroot). cbv zeta. rewrite Hw.
  destruct e as [| t n cnt child data sz orig next]; [contradiction Hnn; reflexivity |].
  simpl is_null. cbv iota.
  eexists. eexists. split; [reflexivity |].
  apply (readdir_all_bundle lstat child); [reflexivity | reflexivity | simpl; lia].
Qed.

Lemma sample_docs_resolves : resolves sample_docs (strtok_all "docs") sample_docs.
Proof. apply resolves_last. apply dir_here. Qed.

Lemma fb_opendir_then_readdir_lists_children_witness :
  prefix "/" "docs" = false /\
  tvheadend_dataroot sample_bundle = None /\
  resolves (filebundle_root sample_bundle) (strtok_all "docs") sample_docs /\
  exists dir l',
    fb_opendir sample_bundle "docs" no_resources = Done (Some dir) l' /\
    readdir_all (S (List.length (siblings (d_child sample_docs))))
                (fun _ => None) dir
    = Some (siblings (d_child sample_docs)).
Proof.
  split; [reflexivity | split; [reflexivity | split; [exact sample_docs_resolves |]]].
  apply (fb_opendir_then_readdir_lists_children
           sample_bundle "docs" sample_docs (fun _ => None) no_resources
           eq_refl eq_refl sample_docs_resolves).
Defined.

(** Every directory that is opened can be closed without a trace: after
    [fb_opendir] and [fb_closedir] the process holds what it held before,
    on either backend; and when [fb_opendir] returns [NULL] it has kept
    nothing (the copy of the path made for strtok is freed). *)
Theorem fb_opendir_then_closedir_restores
        (env : environment) (path : string) (l : ledger) :
  match fb_opendir env path l with
  | Done (Some dir) l' => fb_closedir dir l' = Done tt l
  | Done None l' => l' = l
  | Abort => False
  end.
Proof.
  destruct (fb_opendir_ledger env path) as ([dir |] & Hr); rewrite Hr.
  - apply fb_closedir_gives_back.
  - apply ledger_add_none.
Qed.

(** The backend is chosen by the path and the data root alone.  An absolute
    path, or any path when a data root is configured, goes to the file
    system: the bundle tree is not looked at and a handle is a Direct one.
    A relative path without a data root goes to the bundle: opendir is not
    called and a handle is a Bundle one. *)
Theorem fb_opendir_chooses_backend
        (env env' : environment) (path : string) (l : ledger) :
  let direct := prefix "/" path
                || match tvheadend_dataroot env with
                   | Some _ => true
                   | None => false
                   end in
  tvheadend_dataroot env' = tvheadend_dataroot env ->
  (if direct then os_opendir env' = os_opendir env
   else filebundle_root env' = filebundle_root env) ->
  fb_opendir env' path l = fb_opendir env path l /\
  forall dir l',
    fb_opendir env path l = Done (Some dir) l' ->
    dir_type dir = if direct then FB_DIRECT else FB_BUNDLE.
Proof.
  intros direct Hroot Hsame. unfold fb_opendir. rewrite Hroot.
  destruct (prefix "/" path) eqn:Hpre.
  - assert (Hrel : not_absolute path = false).
    { destruct (not_absolute path) eqn:E; [| reflexivity].
      apply not_absolute_prefix in E. congruence. }
    rewrite Hrel. simpl in Hsame. rewrite Hsame. split; [reflexivity |].
    intros dir l'. destruct (os_opendir env (snprintf_512 EmptyString path)); run;
      intros H; [injection H as <- _; reflexivity | discriminate H].
  - assert (Hrel : not_absolute path = true)
      by (apply not_absolute_prefix; exact Hpre).
    rewrite Hrel. unfold direct in *. simpl in *.
    destruct (tvheadend_dataroot env) as [root |].
    + rewrite Hsame. split; [reflexivity |].
      intros dir l'. destruct (os_opendir env (snprintf_512 root path)); run;
        intros H; [injection H as <- _; reflexivity | discriminate H].
    + rewrite Hsame. split; [reflexivity |].
      intros dir l'.
      destruct (is_null (fb_opendir_walk (filebundle_root env) (strtok_all path)));
        run; intros H; [discriminate H | injection H as <- _; reflexivity].
Qed.

Lemma fb_opendir_chooses_backend_witness :
  let env' := mk_environment (tvheadend_dataroot sample_direct) sample_docs
                (os_opendir sample_direct) (os_fopen sample_direct)
                (os_st_size sample_direct) in
  tvheadend_dataroot env' = tvheadend_dataroot sample_direct /\
  os_opendir env' = os_opendir sample_direct /\
  fb_opendir env' "docs" no_resources
  = fb_opendir sample_direct "docs" no_resources /\
  forall dir l',
    fb_opendir sample_direct "docs" no_resources = Done (Some dir) l' ->
    dir_type dir = FB_DIRECT.
Proof.
  cbv zeta. split; [reflexivity | split; [reflexivity |]].
  exact (fb_opendir_chooses_backend sample_direct
           (mk_environment (tvheadend_dataroot sample_direct) sample_docs
              (os_opendir sample_direct) (os_fopen sample_direct)
              (os_st_size sample_direct))
           "docs" no_resources eq_refl eq_refl).
Defined.

(** ** Opening and closing a file *)

Section FilesMore.
Context {zlib : Zlib}.

(** Whatever is opened can be closed without a trace, and a failed open
    keeps nothing: with at most one flag set, after [fb_open2] and
    [fb_close] the process holds what it held before, and when [fb_open2]
    returns [NULL] (name not found, inflate or deflate failed, short read)
    every block and stream it took has been given back. *)
Theorem fb_open2_then_close_restores
        (env : environment) (dir : fb_dir) (name : string)
        (decompress compress : Z) (l : ledger) :
  decompress = 0 \/ compress = 0 ->
  match fb_open2 env dir name decompress compress l with
  | Done (Some fp) l' => fb_close fp l' = Done tt l
  | Done None l' => l' = l
  | Abort => False
  end.
Proof.
  intros Hflags.
  destruct (fb_open2_ledger env dir name decompress compress Hflags)
    as ([fp |] & Hr); rewrite Hr.
  - apply fb_close_gives_back.
  - apply ledger_add_none.
Qed.

(** The lookup loop finds nothing exactly when no child has the name. *)
Lemma fb_open2_find_null (name : string) (fb : filebundle_entry) :
  fb_open2_find name fb = NULL <-> ~ In name (map dirent_name (siblings fb)).
Proof.
  induction fb as [| t n cnt child _ data sz orig next IH]; simpl.
  - split; [intros _ [] | reflexivity].
  - destruct (String.eqb_spec name n) as [-> | Hne].
    + split; [discriminate | intros H; exfalso; apply H; left; reflexivity].
    + rewrite IH. split.
      * intros H [Heq | Hin]; [apply Hne; symmetry; exact Heq | exact (H Hin)].
      * intros H Hin. apply H. right. exact Hin.
Qed.

(** What the lookup loop finds bears the name. *)
Lemma fb_open2_find_name (name : string) (fb : filebundle_entry) :
  fb_open2_find name fb <> NULL -> e_name (fb_open2_find name fb) = name.
Proof.
  induction fb as [| t n cnt child _ data sz orig next IH]; simpl.
  - intros H. contradiction H. reflexivity.
  - destruct (String.eqb_spec name n) as [-> | Hne]; [reflexivity | exact IH].
Qed.

(** [fb_open2] on a Bundle handle when no transform applies: no inflate
    (the entry is stored as it is, or [decompress] is 0) and no deflate (the
    entry is stored compressed, or [compress] is 0). *)
Lemma fb_open2_bundle_raw
      (env : environment) (dir : fb_dir) (name : string)
      (decompress compress : Z) (l : ledger) :
  dir_type dir = FB_BUNDLE ->
  let e := fb_open2_find name (d_child (dir_b_root dir)) in
  decompress = 0 \/ compress = 0 ->
  f_orig e = -1 \/ decompress = 0 ->
  f_orig e <> -1 \/ compress = 0 ->
  fb_open2 env dir name decompress compress l
  = if is_null e then Done None l
    else Done (Some (mk_fb_file FB_BUNDLE (f_size e)
                                (if f_orig e =? -1 then 0 else 1)
                                None 0 None e))
              (ledger_add l (heap 1)).
Proof.
  intros Ht e Hflags Hinf Hdef.
  assert (Ha : (decompress =? 0) || (compress =? 0) = true).
  { destruct Hflags as [-> | ->]; [reflexivity | apply orb_true_r]. }
  unfold fb_open2. rewrite Ht, Ha. fold e.
  destruct (is_null e) eqn:En.
  { run. reflexivity. }
  assert (Hi : negb (f_orig e =? -1) && negb (decompress =? 0) = false).
  { destruct Hinf as [-> | ->]; [reflexivity | apply andb_false_r]. }
  run. rewrite Hi. simpl.
  destruct (Z.eqb_spec (f_orig e) (-1)) as [Ho | Ho]; simpl.
  - destruct Hdef as [Hd | ->]; [contradiction |]. simpl. f_equal. ledger.
  - f_equal. ledger.
Qed.

(** [fb_open2] on a Direct handle without [compress]. *)
Lemma fb_open2_direct_raw
      (env : environment) (dir : fb_dir) (name : string)
      (decompress : Z) (l : ledger) :
  dir_type dir = FB_DIRECT ->
  let path := snprintf_512 (dir_d_root dir) name in
  fb_open2 env dir name decompress 0 l
  = match os_fopen env path with
    | Some stream =>
        Done (Some (mk_fb_file FB_DIRECT (to_size_t (os_st_size env path))
                               0 None 0 (Some stream) NULL))
             (ledger_add l (mk_ledger 1 0 1))
    | None => Done None l
    end.
Proof.
  intros Ht path. unfold fb_open2. rewrite Ht, orb_true_r. fold path.
  destruct (os_fopen env path); run; f_equal; ledger.
Qed.

(** A name that no child of a bundle directory bears is not found: the
    open returns [NULL] and holds nothing, whatever the flags (at most one
    set); and without flags the open fails on a Bundle handle only then. *)
Theorem fb_open2_bundle_not_found_iff
        (env : environment) (dir : fb_dir) (name : string) (l : ledger) :
  dir_type dir = FB_BUNDLE ->
  let names := map dirent_name (siblings (d_child (dir_b_root dir))) in
  (fb_open2 env dir name 0 0 l = Done None l <-> ~ In name names) /\
  (~ In name names ->
   forall decompress compress,
     decompress = 0 \/ compress = 0 ->
     fb_open2 env dir name decompress compress l = Done None l) /\
  (In name names ->
   exists fp, fb_open2 env dir name 0 0 l = Done (Some fp) (ledger_add l (heap 1))
              /\ e_name (fp_b_root fp) = name).
Proof.
  intros Ht names.
  pose proof (fb_open2_find_null name (d_child (dir_b_root dir))) as Hnull.
  fold names in Hnull.
  assert (Hraw := fb_open2_bundle_raw env dir name 0 0 l Ht
                    (or_introl eq_refl) (or_intror eq_refl) (or_intror eq_refl)).
  cbv zeta in Hraw.
  destruct (is_null_spec (fb_open2_find name (d_child (dir_b_root dir))))
    as [[Hn He] | [Hn He]]; rewrite Hn in Hraw.
  - assert (Hout : ~ In name names) by (apply Hnull; exact He).
    split; [| split].
    + split; [intros _; exact Hout | intros _; exact Hraw].
    + intros _ decompress compress Hflags.
      unfold fb_open2.
      assert (Ha : (decompress =? 0) || (compress =? 0) = true).
      { destruct Hflags as [-> | ->]; [reflexivity | apply orb_true_r]. }
      rewrite Ht, Ha, Hn. run. reflexivity.
    + intros Hin. contradiction.
  - assert (Hin : In name names).
    { destruct (in_dec string_dec name names) as [H | H]; [exact H |].
      exfalso. apply He. apply Hnull. exact H. }
    split; [| split].
    + rewrite Hraw. split; [discriminate | intros H; contradiction].
    + intros Hout. contradiction.
    + intros _. eexists. split; [exact Hraw |].
      simpl. apply fb_open2_find_name. exact He.
Qed.

End FilesMore.

Lemma fb_open2_then_close_restores_witness :
  (0 = 0 \/ 1 = 0) /\
  match fb_open2 sample_direct sample_srv_docs_dir "a.txt" 0 1 no_resources with
  | Done (Some fp) l' => fb_close fp l' = Done tt no_resources
  | Done None l' => l' = no_resources
  | Abort => False
  end.
Proof.
  split; [left; reflexivity |].
  apply (fb_open2_then_close_restores
           sample_direct sample_srv_docs_dir "a.txt" 0 1 no_resources
           (or_introl eq_refl)).
Defined.

Lemma fb_open2_bundle_not_found_iff_witness :
  dir_type sample_docs_dir = FB_BUNDLE /\
  (fb_open2 sample_bundle sample_docs_dir "none" 0 0 no_resources
   = Done None no_resources <->
   ~ In "none"%string
        (map dirent_name (siblings (d_child (dir_b_root sample_docs_dir))))) /\
  (~ In "none"%string
        (map dirent_name (siblings (d_child (dir_b_root sample_docs_dir)))) ->
   forall decompress compress,
     decompress = 0 \/ compress = 0 ->
     fb_open2 sample_bundle sample_docs_dir "none" decompress compress no_resources
     = Done None no_resources) /\
  (In "none"%string
      (map dirent_name (siblings (d_child (dir_b_root sample_docs_dir)))) ->
   exists fp,
     fb_open2 sample_bundle sample_docs_dir "none" 0 0 no_resources
     = Done (Some fp) (ledger_add no_resources (heap 1))
     /\ e_name (fp_b_root fp) = "none"%string).
Proof.
  split; [reflexivity |].
  apply (fb_open2_bundle_not_found_iff
           sample_bundle sample_docs_dir "none" no_resources eq_refl).
Defined.

(** ** Transforms at open time *)

(** A read of [count] bytes from the payload of a bundle entry. *)
Lemma fb_read_bundle_payload (fp : fb_file) (m : memory) (a count : Z) :
  fp_type fp = FB_BUNDLE ->
  fp_buf fp = None ->
  let b := f_data (fp_b_root fp) in
  f_size (fp_b_root fp) = len b ->
  fp_size fp = len b ->
  len b < size_modulus ->
  0 <= fp_pos fp < len b ->
  0 < count < ssize_limit ->
  let n := Z.min count (len b - fp_pos fp) in
  fb_read fp m a count
  = (n, set_pos fp (fp_pos fp + n), memcpy m a (bytes_at b (fp_pos fp) n))
  /\ len (bytes_at b (fp_pos fp) n) = n.
Proof.
  intros Ht Hb b Hfs Hs Hlt Hp Hc n.
  assert (Hmin : MIN count (to_size_t (len b - fp_pos fp)) = n).
  { rewrite to_size_t_small by lia. unfold MIN, n.
    destruct (Z.ltb_spec count (len b - fp_pos fp)); lia. }
  split.
  - unfold fb_read, fb_eof. rewrite Hs.
    destruct (Z.leb_spec (len b) (fp_pos fp)) as [Hle | _]; [lia |].
    simpl. rewrite Hb, Ht, Hfs. fold b. rewrite Hmin.
    rewrite to_size_t_small by lia.
    rewrite to_ssize_t_small by lia.
    reflexivity.
  - unfold bytes_at. rewrite len_firstn by lia.
    unfold len. rewrite length_skipn. unfold len in *. lia.
Qed.

(** Draining a handle that reads from the payload of a bundle entry gives
    the part of the payload from the cursor on. *)
Lemma drain_bundle_payload (chunk : Z) (fuel : nat) :
  forall fp : fb_file,
    fp_type fp = FB_BUNDLE ->
    fp_buf fp = None ->
    f_size (fp_b_root fp) = len (f_data (fp_b_root fp)) ->
    fp_size fp = len (f_data (fp_b_root fp)) ->
    len (f_data (fp_b_root fp)) < size_modulus ->
    0 <= fp_pos fp <= len (f_data (fp_b_root fp)) ->
    0 < chunk < ssize_limit ->
    len (f_data (fp_b_root fp)) - fp_pos fp < Z.of_nat fuel ->
    drain fuel fp chunk
    = Some (skipn (Z.to_nat (fp_pos fp)) (f_data (fp_b_root fp))).
Proof.
  induction fuel as [| fuel IH]; intros fp Ht Hb Hfs Hs Hlt Hp Hc Hfuel.
  - simpl in Hfuel. lia.
  - rewrite drain_S.
    set (b := f_data (fp_b_root fp)) in *.
    destruct (Z.eq_dec (fp_pos fp) (len b)) as [Hend | Hmore].
    + rewrite fb_read_at_eof by lia. simpl.
      rewrite Hend. unfold len. rewrite Nat2Z.id, skipn_all. reflexivity.
    + destruct (fb_read_bundle_payload fp zero_memory 0 chunk Ht Hb Hfs Hs Hlt
                  ltac:(fold b; lia) Hc) as [Hread Hn].
      fold b in Hread, Hn.
      set (n := Z.min chunk (len b - fp_pos fp)) in *.
      rewrite Hread.
      destruct (Z.ltb_spec n 0) as [Hneg | _]; [lia |].
      rewrite (IH (set_pos fp (fp_pos fp + n))); simpl; fold b;
        try assumption; try lia.
      pose proof (load_memcpy zero_memory 0 (bytes_at b (fp_pos fp) n)) as Hl.
      rewrite Hn in Hl. rewrite Hl.
      f_equal. unfold bytes_at.
      replace (Z.to_nat (fp_pos fp + n))
        with (Z.to_nat n + Z.to_nat (fp_pos fp))%nat by lia.
      rewrite <- skipn_skipn. apply firstn_skipn.
Qed.

Section TransformsMore.
Context {zlib : Zlib}.

(** Without a transform the stored bytes are served as they are.  A bundle
    entry opened without [decompress], and either without [compress] or
    stored compressed already (then [compress] is ignored): the handle owns
    no buffer, its size is the stored size, its gzip flag tells whether the
    entry is stored compressed, and draining it gives the stored bytes. *)
Theorem fb_open2_serves_stored_bytes
        (env : environment) (dir : fb_dir) (name : string)
        (compress chunk : Z) (l : ledger) :
  dir_type dir = FB_BUNDLE ->
  let e := fb_open2_find name (d_child (dir_b_root dir)) in
  e <> NULL ->
  f_size e = len (f_data e) ->
  len (f_data e) < size_modulus ->
  f_orig e <> -1 \/ compress = 0 ->
  0 < chunk < ssize_limit ->
  exists fp,
    fb_open2 env dir name 0 compress l = Done (Some fp) (ledger_add l (heap 1)) /\
    fp_buf fp = None /\
    fb_size fp = len (f_data e) /\
    fb_gzipped fp = (if f_orig e =? -1 then 0 else 1) /\
    drain (S (List.length (f_data e))) fp chunk = Some (f_data e).
Proof.
  intros Ht e Hn Hfs Hlt Hc Hchunk.
  pose proof (fb_open2_bundle_raw env dir name 0 compress l Ht
                (or_introl eq_refl) (or_intror eq_refl) Hc) as Hraw.
  cbv zeta in Hraw. fold e in Hraw.
  destruct (is_null_spec e) as [[_ He] | [Hnn _]]; [contradiction |].
  rewrite Hnn in Hraw.
  eexists. split; [exact Hraw |].
  repeat split; try (simpl; assumption).
  rewrite drain_bundle_payload; simpl; try assumption; try reflexivity;
    unfold len in *; lia.
Qed.

(** The [decompress] flag is ignored where it does not apply, as the note
    above [fb_open2] says: on a Direct handle and on a bundle entry stored
    as it is, the open gives the same result with the flag as without. *)
Theorem fb_open2_decompress_ignored
        (env : environment) (dir : fb_dir) (name : string)
        (decompress : Z) (l : ledger) :
  dir_type dir = FB_DIRECT \/
  (dir_type dir = FB_BUNDLE /\
   f_orig (fb_open2_find name (d_child (dir_b_root dir))) = -1) ->
  fb_open2 env dir name decompress 0 l = fb_open2 env dir name 0 0 l.
Proof.
  intros [Ht | [Ht Ho]].
  - rewrite (fb_open2_direct_raw env dir name decompress l Ht),
      (fb_open2_direct_raw env dir name 0 l Ht). reflexivity.
  - rewrite (fb_open2_bundle_raw env dir name decompress 0 l Ht
               (or_intror eq_refl) (or_introl Ho) (or_intror eq_refl)),
      (fb_open2_bundle_raw env dir name 0 0 l Ht
         (or_intror eq_refl) (or_introl Ho) (or_intror eq_refl)).
    reflexivity.
Qed.

End TransformsMore.

Lemma fb_open2_serves_stored_bytes_witness :
  dir_type sample_docs_dir = FB_BUNDLE /\
  fb_open2_find "lines.txt" (d_child (dir_b_root sample_docs_dir)) <> NULL /\
  f_size sample_lines = len (f_data sample_lines) /\
  len (f_data sample_lines) < size_modulus /\
  (f_orig sample_lines <> -1 \/ 1 = 0) /\
  0 < 4 < ssize_limit /\
  exists fp,
    fb_open2 sample_bundle sample_docs_dir "lines.txt" 0 1 no_resources
    = Done (Some fp) (ledger_add no_resources (heap 1)) /\
    fp_buf fp = None /\
    fb_size fp = len (f_data sample_lines) /\
    fb_gzipped fp = (if f_orig sample_lines =? -1 then 0 else 1) /\
    drain (S (List.length (f_data sample_lines))) fp 4
    = Some (f_data sample_lines).
Proof.
  assert (H1 : fb_open2_find "lines.txt" (d_child (dir_b_root sample_docs_dir))
               <> NULL) by discriminate.
  assert (H2 : f_orig sample_lines <> -1 \/ 1 = 0) by (left; discriminate).
  assert (H3 : 0 < 4 < ssize_limit) by (split; reflexivity).
  assert (H4 : len (f_data sample_lines) < size_modulus)
    by (vm_compute; reflexivity).
  split; [reflexivity |].
  split; [exact H1 |].
  split; [vm_compute; reflexivity |].
  split; [exact H4 |].
  split; [exact H2 |].
  split; [exact H3 |].
  apply (fb_open2_serves_stored_bytes
           sample_bundle sample_docs_dir "lines.txt" 1 4 no_resources
           eq_refl H1 eq_refl H4 H2 H3).
Defined.

Lemma fb_open2_decompress_ignored_witness :
  (dir_type sample_docs_dir = FB_DIRECT \/
   (dir_type sample_docs_dir = FB_BUNDLE /\
    f_orig (fb_open2_find "a.txt" (d_child (dir_b_root sample_docs_dir))) = -1)) /\
  fb_open2 sample_bundle sample_docs_dir "a.txt" 1 0 no_resources
  = fb_open2 sample_bundle sample_docs_dir "a.txt" 0 0 no_resources.
Proof.
  assert (H : dir_type sample_docs_dir = FB_DIRECT \/
              (dir_type sample_docs_dir = FB_BUNDLE /\
               f_orig (fb_open2_find "a.txt" (d_child (dir_b_root sample_docs_dir)))
               = -1)) by (right; split; reflexivity).
  split; [exact H |].
  apply (fb_open2_decompress_ignored
           sample_bundle sample_docs_dir "a.txt" 1 no_resources H).
Defined.

(** A length that went through [ssize_t] comes back as it was. *)
Lemma to_size_t_of_ssize_t (z : Z) :
  0 <= z < size_modulus -> to_size_t (to_ssize_t z) = z.
Proof.
  intros Hz. unfold to_ssize_t, to_size_t.
  rewrite (Z.mod_small z) by lia.
  destruct (Z.ltb_spec z ssize_limit).
  - apply Z.mod_small. lia.
  - replace (z - size_modulus) with (z + (-1) * size_modulus) by lia.
    rewrite Z.mod_add by (unfold size_modulus; lia).
    apply Z.mod_small. lia.
Qed.

Section CompressMore.
Context {zlib : Zlib}.

(** [_fb_deflate] on content of [orig] bytes.  zlib is told of
    [orig mod 2^32] bytes of input and of as much room: it compresses the
    first [orig mod 2^32] bytes of the content, and of their gzip stream
    the first [orig mod 2^32] bytes at most are kept; their number goes to
    [*size]. *)
Lemma _fb_deflate_prefix (d : list byte) (orig size : Z) (l : ledger) :
  len d = orig ->
  let n := to_uInt orig in
  let s := gzip_stream (firstn (Z.to_nat n) d) in
  0 < n ->
  0 < len s ->
  _fb_deflate d orig size l
  = Done (Some (firstn (Z.to_nat n) s), Z.min n (len s))
         (ledger_add l (heap 1)).
Proof.
  intros Hd n s Hn Hs. subst orig.
  pose proof uInt_below_size_t as Hu.
  pose proof (to_uInt_range (len d)) as Hr. fold n in Hr.
  unfold _fb_deflate, deflate. rewrite bytes_at_all, bytes_at_start.
  fold n. fold s.
  destruct (Z.eqb_spec n 0) as [H0 | _]; [lia |].
  destruct (Z.leb_spec (len s) n) as [Hfit | Hcut].
  - run.
    destruct (Z.eqb_spec (len s) 0) as [H0 | _]; [lia |].
    rewrite to_size_t_small by lia.
    rewrite firstn_all2 by (unfold len in *; lia).
    rewrite Z.min_r by lia. f_equal. ledger.
  - run.
    destruct (Z.eqb_spec n 0) as [H0 | _]; [lia |].
    rewrite to_size_t_small by lia.
    rewrite Z.min_l by lia. f_equal. ledger.
Qed.

(** With no room at all [_fb_deflate] fails and keeps nothing. *)
Lemma _fb_deflate_empty (data : list byte) (size : Z) (l : ledger) :
  _fb_deflate data 0 size l = Done (None, size) l.
Proof. unfold _fb_deflate, deflate. run. f_equal. ledger. Qed.

(** So it does when [orig] is a multiple of 2^32: zlib is told of no input
    and of no room. *)
Lemma _fb_deflate_no_room (data : list byte) (orig size : Z) (l : ledger) :
  to_uInt orig = 0 ->
  _fb_deflate data orig size l = Done (None, size) l.
Proof.
  intros H0. unfold _fb_deflate, deflate. rewrite H0.
  run. f_equal. ledger.
Qed.

(** Compressing a bundle entry at open time.  For an entry stored as it is,
    with content [d]: zlib is told of the length of [d] in 32-bit counters,
    for the input and for the room alike.  With [n] the length of [d]
    modulo 2^32 and [s] the gzip stream of the first [n] bytes of [d] (not
    empty): when [n] is 0 the open fails and keeps nothing; otherwise it
    succeeds with the gzip flag set, the buffer owned by the handle is the
    first [n] bytes of [s] at most, and the size is the length of that
    buffer.  So the buffer is the whole stream exactly when the stream is
    no longer than [n]; and it is a stream of the whole content only for a
    content shorter than 2^32 bytes, when [n] is the length of [d]. *)
Theorem fb_open2_compress_keeps_prefix
        (env : environment) (dir : fb_dir) (name : string)
        (compress : Z) (l : ledger) :
  dir_type dir = FB_BUNDLE ->
  let e := fb_open2_find name (d_child (dir_b_root dir)) in
  let d := f_data e in
  let n := to_uInt (len d) in
  let s := gzip_stream (firstn (Z.to_nat n) d) in
  e <> NULL ->
  f_orig e = -1 ->
  f_size e = len d ->
  0 < len s ->
  compress <> 0 ->
  fb_open2 env dir name 0 compress l
  = (if n =? 0 then Done None l
     else Done (Some (mk_fb_file FB_BUNDLE (Z.min n (len s)) 1
                                 (Some (firstn (Z.to_nat n) s)) 0 None e))
               (ledger_add l (heap 2))) /\
  len (firstn (Z.to_nat n) s) = Z.min n (len s) /\
  (firstn (Z.to_nat n) s = s <-> len s <= n) /\
  (len d < uInt_modulus -> n = len d /\ firstn (Z.to_nat n) d = d).
Proof.
  intros Ht e d n s Hn Ho Hfs Hs Hc.
  pose proof (to_uInt_range (len d)) as Hr. fold n in Hr.
  split; [| split; [| split]].
  - unfold fb_open2. rewrite Ht. fold e.
    destruct (is_null_spec e) as [[_ He] | [Hnn _]]; [contradiction |].
    apply Z.eqb_neq in Hc.
    unfold bind, assert. simpl. rewrite Hnn, Ho. simpl. rewrite Hc. simpl.
    rewrite Hfs. fold d.
    destruct (Z.eqb_spec n 0) as [H0 | H0].
    + rewrite (_fb_deflate_no_room d (len d) (len d) _ H0).
      run. f_equal. ledger.
    + rewrite (_fb_deflate_prefix d (len d) (len d) _ eq_refl
                 ltac:(fold n; lia) Hs).
      run. fold n. fold s. f_equal. ledger.
  - rewrite len_firstn by lia. reflexivity.
  - split.
    + intros H. apply (f_equal (@List.length byte)) in H.
      rewrite length_firstn in H. unfold len. lia.
    + intros H. apply firstn_all2. unfold len in H. lia.
  - intros Hlt.
    assert (Hnd : n = len d)
      by (apply to_uInt_small; pose proof (len_nonneg d); lia).
    split; [exact Hnd |].
    rewrite Hnd. unfold len. rewrite Nat2Z.id. apply firstn_all.
Qed.

(** Compressing a file of the file system at open time.  The open reads as
    many bytes as lstat gave for the size.  When the file delivers fewer,
    the open fails, the stream is closed and nothing is kept.  Otherwise
    zlib is told of the size in 32-bit counters: with [n] the size modulo
    2^32 and [s] the gzip stream of the first [n] bytes of the file, the
    open fails and keeps nothing when [n] is 0, and otherwise ([s] not
    empty) the handle owns the first [n] bytes of [s] at most and the
    [FILE] stream is closed.  For a size below 2^32, [n] is the size. *)
Theorem fb_open2_direct_compress
        (env : environment) (dir : fb_dir) (name : string)
        (content : list byte) (compress : Z) (l : ledger) :
  dir_type dir = FB_DIRECT ->
  let path := snprintf_512 (dir_d_root dir) name in
  let size := to_size_t (os_st_size env path) in
  let n := to_uInt size in
  let s := gzip_stream (firstn (Z.to_nat n) content) in
  os_fopen env path = Some content ->
  compress <> 0 ->
  (len content < size ->
   fb_open2 env dir name 0 compress l = Done None l) /\
  (size <= len content -> n = 0 ->
   fb_open2 env dir name 0 compress l = Done None l) /\
  (size <= len content -> 0 < n -> 0 < len s ->
   fb_open2 env dir name 0 compress l
   = Done (Some (mk_fb_file FB_DIRECT (Z.min n (len s)) 1
                            (Some (firstn (Z.to_nat n) s)) 0 None NULL))
          (ledger_add l (heap 2))) /\
  (size < uInt_modulus -> n = size).
Proof.
  intros Ht path size n s Hopen Hc.
  pose proof (to_size_t_range (os_st_size env path)) as Hr. fold size in Hr.
  pose proof (to_uInt_range size) as Hrn. fold n in Hrn.
  pose proof (to_uInt_le size ltac:(lia)) as Hle. fold n in Hle.
  apply Z.eqb_neq in Hc.
  set (d := firstn (Z.to_nat size) content).
  assert (Hfull : size <= len content -> len d = size).
  { intros H. unfold d. rewrite len_firstn by lia. lia. }
  split; [| split; [| split]].
  - intros Hshort.
    unfold fb_open2. rewrite Ht. fold path. rewrite Hopen.
    unfold bind, assert. simpl. rewrite Hc. simpl. fold size. fold d.
    assert (Hd : len d = len content).
    { unfold d. rewrite len_firstn by lia. lia. }
    rewrite to_size_t_of_ssize_t by (pose proof (len_nonneg d); lia).
    destruct (Z.eqb_spec (len d) size) as [Heq | _]; [lia |].
    run. f_equal. ledger.
  - intros Hsize H0. specialize (Hfull Hsize).
    unfold fb_open2. rewrite Ht. fold path. rewrite Hopen.
    unfold bind, assert. simpl. rewrite Hc. simpl. fold size. fold d.
    rewrite to_size_t_of_ssize_t by lia.
    rewrite Hfull, Z.eqb_refl.
    rewrite (_fb_deflate_no_room d size size _ H0).
    run. f_equal. ledger.
  - intros Hsize Hn Hs. specialize (Hfull Hsize).
    assert (Hseen : firstn (Z.to_nat n) d = firstn (Z.to_nat n) content).
    { unfold d. rewrite firstn_firstn. f_equal. lia. }
    unfold fb_open2. rewrite Ht. fold path. rewrite Hopen.
    unfold bind, assert. simpl. rewrite Hc. simpl. fold size. fold d.
    rewrite to_size_t_of_ssize_t by lia.
    rewrite Hfull, Z.eqb_refl.
    rewrite (_fb_deflate_prefix d size size _ Hfull
               ltac:(fold n; exact Hn)
               ltac:(fold n; rewrite Hseen; exact Hs)).
    run. fold n. rewrite Hseen. fold s. f_equal. ledger.
  - intros Hlt. apply to_uInt_small. lia.
Qed.

(** A file without content cannot be opened compressed.  When the open
    without flags gives a handle of size 0 that is not gzip content, the
    open with [compress] returns [NULL], on either backend, and keeps
    nothing. *)
Theorem fb_open2_compress_empty_fails
        (env : environment) (dir : fb_dir) (name : string)
        (fp : fb_file) (compress : Z) (l l' : ledger) :
  fb_open2 env dir name 0 0 l = Done (Some fp) l' ->
  fb_size fp = 0 ->
  fb_gzipped fp = 0 ->
  compress <> 0 ->
  fb_open2 env dir name 0 compress l = Done None l.
Proof.
  intros Hopen Hsize Hgz Hc.
  apply Z.eqb_neq in Hc.
  destruct (dir_type dir) eqn:Ht.
  - (* bundle *)
    rewrite (fb_open2_bundle_raw env dir name 0 0 l Ht
               (or_introl eq_refl) (or_intror eq_refl) (or_intror eq_refl))
      in Hopen.
    cbv zeta in Hopen.
    set (e := fb_open2_find name (d_child (dir_b_root dir))) in *.
    destruct (is_null e) eqn:En; [discriminate Hopen |].
    injection Hopen as Hfp _. subst fp. simpl in Hsize, Hgz.
    destruct (Z.eqb_spec (f_orig e) (-1)) as [Ho | _]; [| discriminate Hgz].
    unfold fb_open2. rewrite Ht. fold e.
    unfold bind, assert. simpl. rewrite En, Ho. simpl. rewrite Hc. simpl.
    rewrite Hsize, _fb_deflate_empty. run. f_equal. ledger.
  - (* direct *)
    rewrite (fb_open2_direct_raw env dir name 0 l Ht) in Hopen.
    cbv zeta in Hopen.
    set (path := snprintf_512 (dir_d_root dir) name) in *.
    destruct (os_fopen env path) as [content |] eqn:Hf; [| discriminate Hopen].
    injection Hopen as Hfp _. subst fp. simpl in Hsize.
    unfold fb_open2. rewrite Ht. fold path. rewrite Hf.
    unfold bind, assert. simpl. rewrite Hc. simpl. rewrite Hsize. simpl.
    run. f_equal. ledger.
Qed.

End CompressMore.

Lemma fb_open2_compress_keeps_prefix_witness :
  let d := f_data sample_a in
  let n := to_uInt (len d) in
  let s := gzip_stream (firstn (Z.to_nat n) d) in
  dir_type sample_docs_dir = FB_BUNDLE /\
  fb_open2_find "a.txt" (d_child (dir_b_root sample_docs_dir)) <> NULL /\
  f_orig sample_a = -1 /\
  f_size sample_a = len d /\
  0 < len s /\
  1 <> 0 /\
  fb_open2 sample_bundle sample_docs_dir "a.txt" 0 1 no_resources
  = (if n =? 0 then Done None no_resources
     else Done (Some (mk_fb_file FB_BUNDLE (Z.min n (len s)) 1
                                 (Some (firstn (Z.to_nat n) s)) 0 None sample_a))
               (ledger_add no_resources (heap 2))) /\
  len (firstn (Z.to_nat n) s) = Z.min n (len s) /\
  (firstn (Z.to_nat n) s = s <-> len s <= n) /\
  (len d < uInt_modulus -> n = len d /\ firstn (Z.to_nat n) d = d).
Proof.
  cbv zeta.
  assert (H1 : fb_open2_find "a.txt" (d_child (dir_b_root sample_docs_dir))
               <> NULL) by discriminate.
  assert (H3 : 0 < len (gzip_stream
                          (firstn (Z.to_nat (to_uInt (len (f_data sample_a))))
                                  (f_data sample_a))))
    by (vm_compute; reflexivity).
  assert (H4 : 1 <> 0) by discriminate.
  split; [reflexivity |].
  split; [exact H1 |].
  split; [reflexivity |].
  split; [reflexivity |].
  split; [exact H3 |].
  split; [exact H4 |].
  exact (fb_open2_compress_keeps_prefix
           sample_bundle sample_docs_dir "a.txt" 1 no_resources
           eq_refl H1 eq_refl eq_refl H3 H4).
Defined.

Lemma fb_open2_direct_compress_witness :
  let path := snprintf_512 (dir_d_root sample_srv_docs_dir) "a.txt" in
  let size := to_size_t (os_st_size sample_direct path) in
  let n := to_uInt size in
  let s := gzip_stream (firstn (Z.to_nat n) abc_def) in
  dir_type sample_srv_docs_dir = FB_DIRECT /\
  os_fopen sample_direct path = Some abc_def /\
  size = 7 /\
  1 <> 0 /\
  (len abc_def < size ->
   fb_open2 sample_direct sample_srv_docs_dir "a.txt" 0 1 no_resources
   = Done None no_resources) /\
  (size <= len abc_def -> n = 0 ->
   fb_open2 sample_direct sample_srv_docs_dir "a.txt" 0 1 no_resources
   = Done None no_resources) /\
  (size <= len abc_def -> 0 < n -> 0 < len s ->
   fb_open2 sample_direct sample_srv_docs_dir "a.txt" 0 1 no_resources
   = Done (Some (mk_fb_file FB_DIRECT (Z.min n (len s)) 1
                            (Some (firstn (Z.to_nat n) s)) 0 None NULL))
          (ledger_add no_resources (heap 2))) /\
  (size < uInt_modulus -> n = size).
Proof.
  cbv zeta.
  assert (H : 1 <> 0) by discriminate.
  split; [reflexivity | split; [reflexivity | split; [reflexivity |]]].
  split; [exact H |].
  exact (fb_open2_direct_compress
           sample_direct sample_srv_docs_dir "a.txt" abc_def 1 no_resources
           eq_refl eq_refl H).
Defined.

Lemma fb_open2_compress_empty_fails_witness :
  fb_open2 sample_bundle sample_empty_dir "empty" 0 0 no_resources
  = Done (Some (mk_fb_file FB_BUNDLE 0 0 None 0 None sample_empty)) (heap 1) /\
  fb_size (mk_fb_file FB_BUNDLE 0 0 None 0 None sample_empty) = 0 /\
  fb_gzipped (mk_fb_file FB_BUNDLE 0 0 None 0 None sample_empty) = 0 /\
  1 <> 0 /\
  fb_open2 sample_bundle sample_empty_dir "empty" 0 1 no_resources
  = Done None no_resources.
Proof.
  assert (H : 1 <> 0) by discriminate.
  split; [reflexivity | split; [reflexivity | split; [reflexivity |]]].
  split; [exact H |].
  apply (fb_open2_compress_empty_fails
           sample_bundle sample_empty_dir "empty"
           (mk_fb_file FB_BUNDLE 0 0 None 0 None sample_empty) 1
           no_resources (heap 1) eq_refl eq_refl eq_refl H).
Defined.

(** ** What every file handle satisfies when it is opened *)

Section HandleInvariants.
Context {zlib : Zlib}.

Lemma _fb_inflate_cases (data : list byte) (size orig : Z) :
  (exists d, len d = to_uInt orig /\
             forall l, _fb_inflate data size orig l
                       = Done (Some d) (ledger_add l (heap 1))) \/
  (forall l, _fb_inflate data size orig l = Done None l).
Proof.
  destruct (gunzip_stream (bytes_at (bytes_at data 0 size) 0 (to_uInt size)))
    as [d |] eqn:Hd.
  - destruct (Z.eqb_spec (len d) (to_uInt orig)) as [Heq | Hne].
    + left. exists d. split; [exact Heq |]. intros l.
      rewrite (_fb_inflate_result data size orig d l Hd).
      rewrite <- Heq, Z.eqb_refl. reflexivity.
    + right. intros l.
      rewrite (_fb_inflate_result data size orig d l Hd).
      destruct (Z.eqb_spec (len d) (to_uInt orig)); [contradiction | reflexivity].
  - right. intros l. unfold _fb_inflate, inflate. rewrite Hd.
    run. f_equal. ledger.
Qed.

Lemma _fb_deflate_cases (data : list byte) (orig size : Z) :
  (exists out, 0 < len out <= to_uInt orig /\
               forall l, _fb_deflate data orig size l
                         = Done (Some out, len out) (ledger_add l (heap 1))) \/
  (forall l, _fb_deflate data orig size l = Done (None, size) l).
Proof.
  pose proof uInt_below_size_t as Hu.
  pose proof (to_uInt_range orig) as Ho.
  unfold _fb_deflate, deflate.
  remember (gzip_stream (bytes_at (bytes_at data 0 orig) 0 (to_uInt orig)))
    as s eqn:Es.
  remember (to_uInt orig) as n eqn:En.
  pose proof (len_nonneg s) as Hs0.
  destruct (Z.eqb_spec n 0) as [H0 | H0].
  { right. intros l. run. f_equal. ledger. }
  destruct (Z.leb_spec (len s) n) as [Hfit | Hcut].
  - destruct (Z.eq_dec (len s) 0) as [Hs | Hs].
    + right. intros l. run.
      destruct (Z.eqb_spec (len s) 0) as [_ | Hs']; [| contradiction].
      run. f_equal. ledger.
    + left. exists s. split; [lia |].
      intros l. run.
      destruct (Z.eqb_spec (len s) 0) as [Hs' | _]; [contradiction |].
      rewrite to_size_t_small by lia. f_equal. ledger.
  - left. exists (firstn (Z.to_nat n) s).
    assert (Hl : len (firstn (Z.to_nat n) s) = n)
      by (rewrite len_firstn by lia; lia).
    split; [lia |]. intros l. run.
    destruct (Z.eqb_spec n 0) as [H0' | _]; [contradiction |].
    rewrite to_size_t_small by lia. rewrite Hl. f_equal. ledger.
Qed.

Ltac handle_facts :=
  match goal with
  | |- Done (Some _) _ = Done (Some ?fp) _ -> _ =>
      let H := fresh in
      intros H; injection H as <- _; simpl;
      repeat split; intros;
      try discriminate; try congruence; try contradiction; try lia;
      try (left; reflexivity); try (right; reflexivity)
  | |- Done None _ = Done (Some _) _ -> _ =>
      let H := fresh in intros H; discriminate H
  end.

(** The buffer of a handle that owns one, as the cases above give it. *)
Ltac buffer_facts :=
  match goal with
  | Hb : Some _ = Some _ |- _ => injection Hb as <-
  end;
  repeat split; intros;
  try contradiction; try reflexivity; try lia.

(** A handle that [fb_open2] returns (at most one flag set) starts at cursor
    0 and is of the kind of its directory.  Its gzip flag is 0 or 1: 1
    whenever [compress] was asked, 0 whenever [decompress] was asked.  When
    it owns a buffer no [FILE] stream is open, and the bytes that zlib
    stored in the buffer are as many as the size modulo 2^32, the counters
    of zlib being 32 bits wide: they are as many as the size when the
    buffer was made by compressing, and when the size is below 2^32.  When
    it owns no buffer, a Direct handle has its stream open and a Bundle
    handle has the stored size of its entry. *)
Theorem fb_open2_handle_invariants
        (env : environment) (dir : fb_dir) (name : string)
        (decompress compress : Z) (fp : fb_file) (l l' : ledger) :
  decompress = 0 \/ compress = 0 ->
  fb_open2 env dir name decompress compress l = Done (Some fp) l' ->
  fp_pos fp = 0 /\
  fp_type fp = dir_type dir /\
  (fb_gzipped fp = 0 \/ fb_gzipped fp = 1) /\
  (compress <> 0 -> fb_gzipped fp = 1) /\
  (decompress <> 0 -> fb_gzipped fp = 0) /\
  (forall b, fp_buf fp = Some b ->
             len b = to_uInt (fb_size fp) /\
             len b <= fb_size fp /\
             (decompress = 0 -> fb_size fp = len b) /\
             (fb_size fp < uInt_modulus -> fb_size fp = len b) /\
             fp_d_cur fp = None) /\
  (fp_buf fp = None ->
   match fp_type fp with
   | FB_DIRECT => fp_d_cur fp <> None
   | FB_BUNDLE => fb_size fp = f_size (fp_b_root fp)
   end) /\
  (fp_type fp = FB_BUNDLE ->
   fp_b_root fp = fb_open2_find name (d_child (dir_b_root dir))
   /\ fp_d_cur fp = None).
Proof.
  intros Hflags. unfold fb_open2, fb_gzipped, fb_size.
  pose proof uInt_below_size_t as Hu.
  destruct (Z.eqb_spec decompress 0) as [Hd | Hd];
    destruct (Z.eqb_spec compress 0) as [Hc | Hc];
    try (exfalso; destruct Hflags; contradiction).
  - (* no flag *)
    destruct (dir_type dir) eqn:Ht.
    + destruct (is_null (fb_open2_find name (d_child (dir_b_root dir)))) eqn:En;
        [run; handle_facts |].
      run. rewrite !andb_false_r. simpl.
      destruct (f_orig (fb_open2_find name (d_child (dir_b_root dir))) =? -1);
        simpl; handle_facts.
    + destruct (os_fopen env (snprintf_512 (dir_d_root dir) name));
        run; handle_facts.
  - (* compress *)
    destruct (dir_type dir) eqn:Ht.
    + set (e := fb_open2_find name (d_child (dir_b_root dir))) in *.
      destruct (is_null e) eqn:En; [run; handle_facts |].
      run. rewrite andb_false_r. simpl.
      destruct (Z.eqb_spec (f_orig e) (-1)) as [Ho | Ho]; simpl.
      * pose proof (to_uInt_range (f_size e)) as Hr.
        destruct (_fb_deflate_cases (f_data e) (f_size e) (f_size e))
          as [(out & Hlen & Hdef) | Hdef];
          rewrite Hdef; run; handle_facts;
          try (rewrite to_uInt_small by lia); buffer_facts.
      * handle_facts.
    + destruct (os_fopen env (snprintf_512 (dir_d_root dir) name)) as [stream |];
        [| run; handle_facts].
      set (size := to_size_t (os_st_size env (snprintf_512 (dir_d_root dir) name))).
      pose proof (to_uInt_range size) as Hr.
      run. fold size.
      destruct (to_size_t (to_ssize_t (len (firstn (Z.to_nat size) stream)))
                =? size).
      * destruct (_fb_deflate_cases (firstn (Z.to_nat size) stream) size size)
          as [(out & Hlen & Hdef) | Hdef];
          rewrite Hdef; run; handle_facts;
          try (rewrite to_uInt_small by lia); buffer_facts.
      * run. handle_facts.
  - (* decompress *)
    destruct (dir_type dir) eqn:Ht.
    + set (e := fb_open2_find name (d_child (dir_b_root dir))) in *.
      destruct (is_null e) eqn:En; [run; handle_facts |].
      run.
      destruct (Z.eqb_spec (f_orig e) (-1)) as [Ho | Ho]; simpl.
      * handle_facts.
      * pose proof (to_size_t_range (f_orig e)) as Hr.
        pose proof (to_uInt_le (to_size_t (f_orig e)) ltac:(lia)) as Hle.
        destruct (_fb_inflate_cases (f_data e) (f_size e) (to_size_t (f_orig e)))
          as [(d & Hlen & Hinf) | Hinf];
          rewrite Hinf; run; handle_facts; buffer_facts.
        rewrite to_uInt_small in Hlen by lia. lia.
    + destruct (os_fopen env (snprintf_512 (dir_d_root dir) name));
        run; handle_facts.
Qed.

End HandleInvariants.

Lemma fb_open2_handle_invariants_witness :
  let fp := mk_fb_file FB_BUNDLE 7 0 (Some abc_def) 0 None sample_lines in
  (1 = 0 \/ 0 = 0) /\
  fb_open2 sample_bundle sample_docs_dir "lines.txt" 1 0 no_resources
  = Done (Some fp) (heap 2) /\
  fp_pos fp = 0 /\
  fp_type fp = dir_type sample_docs_dir /\
  (fb_gzipped fp = 0 \/ fb_gzipped fp = 1) /\
  (0 <> 0 -> fb_gzipped fp = 1) /\
  (1 <> 0 -> fb_gzipped fp = 0) /\
  (forall b, fp_buf fp = Some b ->
             len b = to_uInt (fb_size fp) /\
             len b <= fb_size fp /\
             (1 = 0 -> fb_size fp = len b) /\
             (fb_size fp < uInt_modulus -> fb_size fp = len b) /\
             fp_d_cur fp = None) /\
  (fp_buf fp = None ->
   match fp_type fp with
   | FB_DIRECT => fp_d_cur fp <> None
   | FB_BUNDLE => fb_size fp = f_size (fp_b_root fp)
   end) /\
  (fp_type fp = FB_BUNDLE ->
   fp_b_root fp = fb_open2_find "lines.txt" (d_child (dir_b_root sample_docs_dir))
   /\ fp_d_cur fp = None).
Proof.
  cbv zeta.
  assert (H1 : 1 = 0 \/ 0 = 0) by (right; reflexivity).
  assert (H3 : fb_open2 sample_bundle sample_docs_dir "lines.txt" 1 0 no_resources
               = Done (Some (mk_fb_file FB_BUNDLE 7 0 (Some abc_def) 0 None
                                        sample_lines)) (heap 2))
    by (vm_compute; reflexivity).
  split; [exact H1 | split; [exact H3 |]].
  exact (fb_open2_handle_invariants
           sample_bundle sample_docs_dir "lines.txt" 1 0
           (mk_fb_file FB_BUNDLE 7 0 (Some abc_def) 0 None sample_lines)
           no_resources (heap 2) H1 H3).
Defined.

(** ** Reading: the cursor *)

(** [fb_read] on a handle that reads from an owned buffer or from the
    payload of its bundle entry, with the cursor within the size: the
    cursor never moves back nor past the size, and the size and the buffer
    stay.  The call returns -1 exactly at the end; otherwise it returns the
    number of bytes by which the cursor moved, the smaller of [count] and
    of what is left: a request of 0 bytes before the end returns 0, not
    -1. *)
Theorem fb_read_cursor_in_range
        (fp : fb_file) (m : memory) (buf count : Z) :
  0 <= fp_pos fp <= fp_size fp ->
  fp_size fp < size_modulus ->
  0 <= count < ssize_limit ->
  (fp_buf fp = None ->
   fp_type fp = FB_BUNDLE /\ f_size (fp_b_root fp) = fp_size fp) ->
  let '(r, fp', m') := fb_read fp m buf count in
  fp_pos fp <= fp_pos fp' <= fp_size fp' /\
  fp_size fp' = fp_size fp /\
  fp_buf fp' = fp_buf fp /\
  (r = -1 <-> fp_pos fp = fp_size fp) /\
  (r <> -1 -> r = Z.min count (fp_size fp - fp_pos fp)
              /\ fp_pos fp' = fp_pos fp + r).
Proof.
  intros Hp Hs Hc Hraw.
  destruct (Z.eq_dec (fp_pos fp) (fp_size fp)) as [Hend | Hmore].
  - rewrite fb_read_at_eof by lia.
    repeat split; intros; try lia; try reflexivity.
  - unfold fb_read, fb_eof.
    destruct (Z.leb_spec (fp_size fp) (fp_pos fp)) as [Hle | _]; [lia |].
    simpl.
    assert (Hmin : MIN count (to_size_t (fp_size fp - fp_pos fp))
                   = Z.min count (fp_size fp - fp_pos fp)).
    { rewrite to_size_t_small by lia. unfold MIN.
      destruct (Z.ltb_spec count (fp_size fp - fp_pos fp)); lia. }
    set (n := Z.min count (fp_size fp - fp_pos fp)) in *.
    assert (Hn : 0 <= n <= fp_size fp - fp_pos fp) by (unfold n; lia).
    assert (Hn' : n <= count) by (unfold n; lia).
    destruct (fp_buf fp) as [b |] eqn:Hb.
    + rewrite Hmin, to_size_t_small, to_ssize_t_small by lia.
      simpl. rewrite Hb. repeat split; intros; try lia; try reflexivity.
    + destruct (Hraw eq_refl) as [Ht Hfs]. rewrite Ht, Hfs.
      rewrite Hmin, to_size_t_small, to_ssize_t_small by lia.
      simpl. rewrite Hb. repeat split; intros; try lia; try reflexivity.
Qed.

Lemma fb_read_cursor_in_range_witness :
  let fp := buffered FB_BUNDLE 0 abc_def 5 in
  0 <= fp_pos fp <= fp_size fp /\
  fp_size fp < size_modulus /\
  0 <= 4 < ssize_limit /\
  (fp_buf fp = None ->
   fp_type fp = FB_BUNDLE /\ f_size (fp_b_root fp) = fp_size fp) /\
  let '(r, fp', m') := fb_read fp zero_memory 0 4 in
  fp_pos fp <= fp_pos fp' <= fp_size fp' /\
  fp_size fp' = fp_size fp /\
  fp_buf fp' = fp_buf fp /\
  (r = -1 <-> fp_pos fp = fp_size fp) /\
  (r <> -1 -> r = Z.min 4 (fp_size fp - fp_pos fp)
              /\ fp_pos fp' = fp_pos fp + r).
Proof.
  cbv zeta.
  assert (H1 : 0 <= fp_pos (buffered FB_BUNDLE 0 abc_def 5)
               <= fp_size (buffered FB_BUNDLE 0 abc_def 5))
    by (split; discriminate).
  assert (H2 : 0 <= 4 < ssize_limit) by (split; [discriminate | reflexivity]).
  assert (H3 : fp_buf (buffered FB_BUNDLE 0 abc_def 5) = None ->
               fp_type (buffered FB_BUNDLE 0 abc_def 5) = FB_BUNDLE /\
               f_size (fp_b_root (buffered FB_BUNDLE 0 abc_def 5))
               = fp_size (buffered FB_BUNDLE 0 abc_def 5))
    by (intros H; discriminate H).
  split; [exact H1 | split; [reflexivity | split; [exact H2 | split; [exact H3 |]]]].
  exact (fb_read_cursor_in_range (buffered FB_BUNDLE 0 abc_def 5) zero_memory 0 4
           H1 eq_refl H2 H3).
Defined.

(** ** Reading a line: the general case *)

Lemma map_seq_from {A} (j : nat) :
  forall (g : nat -> A) (n : nat),
    map g (seq n j) = map (fun i => g (n + i)%nat) (seq 0 j).
Proof.
  induction j as [| j IH]; intros g n; [reflexivity |].
  simpl. rewrite Nat.add_0_r. f_equal.
  rewrite (IH g (S n)), (IH (fun i => g (n + i)%nat) 1%nat).
  apply map_ext. intros i. f_equal. lia.
Qed.

Lemma load_app (m : memory) (a k j : Z) :
  0 <= k -> 0 <= j -> load m a (k + j) = load m a k ++ load m (a + k) j.
Proof.
  intros Hk Hj. unfold load.
  replace (Z.to_nat (k + j)) with (Z.to_nat k + Z.to_nat j)%nat by lia.
  rewrite seq_app, map_app. f_equal.
  rewrite map_seq_from. apply map_ext. intros i. f_equal. lia.
Qed.

Lemma set_pos_set_pos (fp : fb_file) (p q : Z) :
  set_pos (set_pos fp p) q = set_pos fp q.
Proof. reflexivity. Qed.

(** The loop of [fb_gets] over a run [s] of bytes none of which ends a
    line, with room for all of them: the bytes are copied one by one and
    the cursor moves past them. *)
Lemma fb_gets_loop_run (s : list byte) :
  Forall (fun x => is_line_end x = false) s ->
  forall (fuel : nat) (fp : fb_file) (m : memory) (buf count c : Z)
         (pre post : list byte),
    fp_buf fp = Some (pre ++ s ++ post) ->
    fp_size fp = len (pre ++ s ++ post) ->
    fp_size fp < size_modulus ->
    fp_pos fp = len pre ->
    0 <= c ->
    c + len s <= count - 1 ->
    count < size_modulus ->
    exists m',
      fb_gets_loop (List.length s + fuel) fp m buf count c
      = fb_gets_loop fuel (set_pos fp (len pre + len s)) m' buf count (c + len s)
      /\ load m' (buf + c) (len s) = s
      /\ (forall a, a < buf + c \/ buf + c + len s <= a -> m' a = m a).
Proof.
  induction 1 as [| x s Hx Hs IH];
    intros fuel fp m buf count c pre post Hb Hsz Hlt Hp Hc Hroom Hcount.
  - exists m. simpl. change (len (@nil byte)) with 0. rewrite !Z.add_0_r.
    split; [| split; [reflexivity | reflexivity]].
    rewrite <- Hp. destruct fp; reflexivity.
  - assert (Hlen : len (x :: s) = len s + 1) by (unfold len; simpl List.length; lia).
    pose proof (len_nonneg s) as Hs0.
    rewrite Hlen in *.
    change (List.length (x :: s) + fuel)%nat with (S (List.length s + fuel)).
    rewrite (fb_gets_loop_step_in _ fp pre ((x :: s) ++ post) m buf count
               c (c + 1) 0 1 x);
      try assumption; try reflexivity; try lia.
    rewrite Hx.
    assert (Hb' : fp_buf (set_pos fp (len pre + 1))
                  = Some ((pre ++ [x]) ++ s ++ post)).
    { simpl. rewrite Hb. rewrite <- app_assoc. reflexivity. }
    destruct (IH fuel (set_pos fp (len pre + 1)) (memcpy m (buf + c) [x])
                 buf count (c + 1) (pre ++ [x]) post Hb') as (m' & Hloop & Hload & Hframe).
    + simpl. rewrite Hsz. rewrite <- app_assoc. reflexivity.
    + exact Hlt.
    + simpl. rewrite len_app. reflexivity.
    + lia.
    + lia.
    + exact Hcount.
    + exists m'. split; [| split].
      * rewrite Hloop. rewrite set_pos_set_pos.
        replace (len (pre ++ [x]) + len s) with (len pre + (len s + 1))
          by (rewrite len_app; change (len [x]) with 1; lia).
        replace (c + 1 + len s) with (c + (len s + 1)) by lia.
        reflexivity.
      * rewrite load_cons by lia.
        rewrite Hframe by lia. rewrite memcpy_one, Z.eqb_refl.
        replace (buf + c + 1) with (buf + (c + 1)) by lia.
        rewrite Hload. reflexivity.
      * intros a Ha. rewrite Hframe by lia. rewrite memcpy_one.
        destruct (Z.eqb_spec a (buf + c)); [lia | reflexivity].
Qed.

(** The last evaluation of the loop condition when the caller's buffer is
    full: the byte is read all the same. *)
Lemma fb_gets_loop_full (fuel : nat) (fp : fb_file) (m : memory)
      (buf count c : Z) (b : list byte) (x : byte) :
  fp_buf fp = Some b ->
  fp_size fp = len b ->
  len b < size_modulus ->
  0 <= fp_pos fp ->
  nth_error b (Z.to_nat (fp_pos fp)) = Some x ->
  0 <= c ->
  c = count - 1 ->
  count < size_modulus ->
  fb_gets_loop (S fuel) fp m buf count c
  = Some (1, c, set_pos fp (fp_pos fp + 1), memcpy m (buf + c) [x]).
Proof.
  intros Hb Hs Hlt Hp Hx Hc Hfull Hcount. simpl.
  rewrite (fb_read_buffered_byte fp m (buf + c) b x Hb Hs Hlt Hp Hx).
  rewrite !to_size_t_small by lia.
  replace (c <? count - 1) with false by (symmetry; apply Z.ltb_ge; lia).
  reflexivity.
Qed.

(** A line that fits.  The buffer of the handle holds, from the cursor on,
    the bytes [s] (none a newline or a NUL), then a byte [t] that is one,
    and [count] leaves room for them: [fb_gets] returns the caller's buffer
    holding [s], then [t] itself, then a NUL; the cursor is past [t]; the
    rest of the caller's memory is untouched. *)
Theorem fb_gets_returns_line_with_terminator
        (fp : fb_file) (pre s post : list byte) (t : byte)
        (m : memory) (buf count : Z) :
  fp_buf fp = Some (pre ++ s ++ t :: post) ->
  fp_size fp = len (pre ++ s ++ t :: post) ->
  fp_size fp < size_modulus ->
  fp_pos fp = len pre ->
  Forall (fun x => is_line_end x = false) s ->
  is_line_end t = true ->
  len s + 1 <= count - 1 ->
  count < size_modulus ->
  exists m',
    fb_gets fp m buf count
    = Some (Some buf, set_pos fp (len pre + len s + 1), m') /\
    load m' buf (len s + 2) = s ++ [t; x00] /\
    (forall a, a < buf \/ buf + len s + 2 <= a -> m' a = m a).
Proof.
  intros Hb Hsz Hlt Hp Hs Ht Hroom Hcount.
  pose proof (len_nonneg s) as Hs0.
  pose proof (len_nonneg pre) as Hpre0.
  unfold fb_gets, fb_gets_fuel. rewrite to_size_t_small by lia.
  replace (S (Z.to_nat (count - 1)))
    with (List.length s + S (S (Z.to_nat (count - 1) - S (List.length s))))%nat
    by (unfold len in *; lia).
  destruct (fb_gets_loop_run s Hs
              (S (S (Z.to_nat (count - 1) - S (List.length s))))
              fp m buf count 0 pre (t :: post) Hb Hsz Hlt Hp)
    as (m1 & Hloop & Hload & Hframe); try lia.
  rewrite Hloop. rewrite Z.add_0_l in *. rewrite Z.add_0_r in *.
  rewrite (fb_gets_loop_step_in _ _ (pre ++ s) (t :: post) m1 buf count
             (len s) (len s + 1) 0 1 t);
    try reflexivity; try lia.
  - rewrite Ht. change (1 <? 0) with false. cbv iota.
    rewrite set_pos_set_pos.
    replace (len (pre ++ s) + 1) with (len pre + len s + 1)
      by (rewrite len_app; lia).
    eexists. split; [reflexivity | split].
    + rewrite load_app by lia. f_equal.
      * transitivity (load m1 buf (len s)); [| exact Hload].
        unfold load. apply map_ext_in. intros i Hi.
        apply in_seq in Hi.
        rewrite !memcpy_one.
        destruct (Z.eqb_spec (buf + Z.of_nat i) (buf + (len s + 1))); [lia |].
        destruct (Z.eqb_spec (buf + Z.of_nat i) (buf + len s)); [lia |].
        reflexivity.
      * unfold load. simpl. rewrite !memcpy_one.
        repeat match goal with
               | |- context [?a =? ?b] => destruct (Z.eqb_spec a b); try lia
               end.
        reflexivity.
    + intros a Ha. rewrite !memcpy_one.
      destruct (Z.eqb_spec a (buf + (len s + 1))); [lia |].
      destruct (Z.eqb_spec a (buf + len s)); [lia |].
      apply Hframe. lia.
  - simpl. rewrite Hb. rewrite <- app_assoc. reflexivity.
  - simpl. rewrite Hsz. rewrite <- app_assoc. reflexivity.
  - exact Hlt.
  - simpl. rewrite len_app. lia.
Qed.

(** A line longer than the room.  The buffer of the handle holds, from the
    cursor on, [count - 1] bytes [s] (none a newline or a NUL) and at least
    one more byte [x]: [fb_gets] returns the caller's buffer holding [s]
    and a NUL, but the cursor has moved by [count]: the byte [x] was read
    in the last evaluation of the loop condition, overwritten by the NUL,
    and is not read again. *)
Theorem fb_gets_full_buffer_drops_byte
        (fp : fb_file) (pre s post : list byte) (x : byte)
        (m : memory) (buf count : Z) :
  fp_buf fp = Some (pre ++ s ++ x :: post) ->
  fp_size fp = len (pre ++ s ++ x :: post) ->
  fp_size fp < size_modulus ->
  fp_pos fp = len pre ->
  Forall (fun y => is_line_end y = false) s ->
  len s = count - 1 ->
  count < size_modulus ->
  exists m',
    fb_gets fp m buf count
    = Some (Some buf, set_pos fp (len pre + count), m') /\
    load m' buf count = s ++ [x00] /\
    (forall a, a < buf \/ buf + count <= a -> m' a = m a).
Proof.
  intros Hb Hsz Hlt Hp Hs Hfull Hcount.
  pose proof (len_nonneg s) as Hs0.
  pose proof (len_nonneg pre) as Hpre0.
  unfold fb_gets, fb_gets_fuel. rewrite to_size_t_small by lia.
  replace (S (Z.to_nat (count - 1))) with (List.length s + 1)%nat
    by (unfold len in *; lia).
  destruct (fb_gets_loop_run s Hs 1%nat fp m buf count 0 pre (x :: post)
              Hb Hsz Hlt Hp)
    as (m1 & Hloop & Hload & Hframe); try lia.
  rewrite Hloop. rewrite Z.add_0_l in *. rewrite Z.add_0_r in *.
  rewrite (fb_gets_loop_full 0 _ m1 buf count (len s) (pre ++ s ++ x :: post) x);
    try assumption; try lia.
  - change (1 <? 0) with false. cbv iota.
    rewrite set_pos_set_pos. simpl fp_pos.
    replace (len pre + len s + 1) with (len pre + count) by lia.
    eexists. split; [reflexivity | split].
    + replace count with (len s + 1) at 1 by lia.
      rewrite load_app by lia. f_equal.
      * transitivity (load m1 buf (len s)); [| exact Hload].
        unfold load. apply map_ext_in. intros i Hi. apply in_seq in Hi.
        rewrite !memcpy_one.
        destruct (Z.eqb_spec (buf + Z.of_nat i) (buf + len s)); [lia |].
        reflexivity.
      * unfold load. simpl. rewrite !memcpy_one.
        rewrite Z.add_0_r, Z.eqb_refl. reflexivity.
    + intros a Ha. rewrite !memcpy_one.
      destruct (Z.eqb_spec a (buf + len s)); [lia |].
      apply Hframe. lia.
  - simpl. lia.
  - simpl. rewrite app_assoc.
    replace (Z.to_nat (len pre + len s)) with (List.length (pre ++ s))
      by (rewrite length_app; unfold len; lia).
    rewrite nth_error_app2 by lia. rewrite Nat.sub_diag. reflexivity.
Qed.

(** The end of the file before the end of a line.  The buffer of the
    handle holds, from the cursor on, only the bytes [s] (none a newline or
    a NUL, possibly none at all), and [count] leaves room for them:
    [fb_gets] copies [s], moves the cursor to the end and returns [NULL];
    the bytes are not returned as a line and no later call brings them
    back. *)
Theorem fb_gets_unterminated_tail_is_null
        (fp : fb_file) (pre s : list byte) (m : memory) (buf count : Z) :
  fp_buf fp = Some (pre ++ s) ->
  fp_size fp = len (pre ++ s) ->
  fp_size fp < size_modulus ->
  fp_pos fp = len pre ->
  Forall (fun y => is_line_end y = false) s ->
  len s <= count - 1 ->
  count < size_modulus ->
  exists m',
    fb_gets fp m buf count = Some (None, set_pos fp (fp_size fp), m') /\
    load m' buf (len s) = s /\
    (forall a, a < buf \/ buf + len s <= a -> m' a = m a) /\
    forall m2 buf2 count2,
      fb_gets (set_pos fp (fp_size fp)) m2 buf2 count2
      = Some (None, set_pos fp (fp_size fp), m2).
Proof.
  intros Hb Hsz Hlt Hp Hs Hroom Hcount.
  pose proof (len_nonneg s) as Hs0.
  pose proof (len_nonneg pre) as Hpre0.
  assert (Hend : fp_size fp = len pre + len s) by (rewrite Hsz, len_app; lia).
  assert (Hnull : forall m2 buf2 count2,
             fb_gets (set_pos fp (fp_size fp)) m2 buf2 count2
             = Some (None, set_pos fp (fp_size fp), m2)).
  { intros m2 buf2 count2. unfold fb_gets, fb_gets_fuel.
    pose proof (to_size_t_range (count2 - 1)) as Hr.
    destruct (fb_gets_loop_at_eof (S (Z.to_nat (to_size_t (count2 - 1))))
                (set_pos fp (fp_size fp)) m2 buf2 count2 0) as (c' & Hl);
      [simpl; lia | lia | lia |].
    rewrite Hl. reflexivity. }
  unfold fb_gets, fb_gets_fuel. rewrite to_size_t_small by lia.
  replace (S (Z.to_nat (count - 1)))
    with (List.length s + S (Z.to_nat (count - 1) - List.length s))%nat
    by (unfold len in *; lia).
  assert (Hb' : fp_buf fp = Some (pre ++ s ++ [])) by (rewrite app_nil_r; exact Hb).
  assert (Hsz' : fp_size fp = len (pre ++ s ++ [])) by (rewrite app_nil_r; exact Hsz).
  destruct (fb_gets_loop_run s Hs (S (Z.to_nat (count - 1) - List.length s))
              fp m buf count 0 pre [] Hb' Hsz' Hlt Hp)
    as (m1 & Hloop & Hload & Hframe); try lia.
  rewrite Hloop. rewrite Z.add_0_l in *. rewrite Z.add_0_r in *.
  rewrite <- Hend.
  destruct (fb_gets_loop_at_eof (S (Z.to_nat (count - 1) - List.length s))
              (set_pos fp (fp_size fp)) m1 buf count (len s)) as (c' & Hl).
  - simpl. lia.
  - rewrite to_size_t_small by lia. lia.
  - rewrite to_size_t_small by lia. unfold len in *. lia.
  - rewrite Hl. change (-1 <? 0) with true. cbv iota.
    exists m1. repeat split; assumption.
Qed.

(** Every read of a Direct handle without a buffer returns -1, so the loop
    of [fb_gets] always leaves with -1. *)
Lemma fb_gets_loop_direct (fuel : nat) :
  forall (fp : fb_file) (m : memory) (buf count c : Z)
         (err c' : Z) (fp' : fb_file) (m' : memory),
    fp_type fp = FB_DIRECT ->
    fp_buf fp = None ->
    fb_gets_loop fuel fp m buf count c = Some (err, c', fp', m') ->
    err = -1 /\ fp_type fp' = FB_DIRECT /\ fp_buf fp' = None.
Proof.
  induction fuel as [| fuel IH];
    intros fp m buf count c err c' fp' m' Ht Hb Hloop; [discriminate Hloop |].
  simpl in Hloop.
  assert (Hread : exists fp1 m1,
             fb_read fp m (buf + c) 1 = (-1, fp1, m1)
             /\ fp_type fp1 = FB_DIRECT /\ fp_buf fp1 = None).
  { unfold fb_read. destruct (negb (fb_eof fp =? 0)).
    - exists fp, m. repeat split; assumption.
    - rewrite Hb, Ht. destruct (fread (fp_d_cur fp) 1) as [got rest].
      eexists. eexists. split; [reflexivity |]. simpl. split; assumption. }
  destruct Hread as (fp1 & m1 & Hread & Ht1 & Hb1).
  rewrite Hread in Hloop. simpl in Hloop.
  destruct (to_size_t c <? to_size_t (count - 1)).
  - destruct (is_line_end (m1 (buf + c))).
    + injection Hloop as <- _ <- _. repeat split; assumption.
    + apply (IH _ _ _ _ _ _ _ _ _ Ht1 Hb1 Hloop).
  - injection Hloop as <- _ <- _. repeat split; assumption.
Qed.

(** [fb_gets] never returns a line from a Direct handle that has no buffer:
    whatever the file holds, whatever [count] is, it returns [NULL]
    ([fb_read] answers -1 on that path even when it delivered the byte). *)
Theorem fb_gets_direct_stream_is_null
        (fp : fb_file) (m : memory) (buf count : Z) :
  fp_type fp = FB_DIRECT ->
  fp_buf fp = None ->
  exists fp' m',
    fb_gets fp m buf count = Some (None, fp', m') /\
    fp_type fp' = FB_DIRECT /\ fp_buf fp' = None.
Proof.
  intros Ht Hb.
  pose proof (fb_gets_total fp m buf count) as Htotal.
  unfold fb_gets in *.
  destruct (fb_gets_loop (fb_gets_fuel count) fp m buf count 0)
    as [[[[err c'] fp'] m'] |] eqn:Hloop; [| contradiction Htotal; reflexivity].
  destruct (fb_gets_loop_direct _ _ _ _ _ _ _ _ _ _ Ht Hb Hloop) as (-> & Ht' & Hb').
  exists fp', m'. repeat split; assumption.
Qed.

Lemma fb_gets_returns_line_with_terminator_witness :
  let fp := buffered FB_BUNDLE 0 abc_def 0 in
  fp_buf fp = Some ([] ++ [x61; x62; x63] ++ x0a :: [x64; x65; x66]) /\
  fp_size fp = len ([] ++ [x61; x62; x63] ++ x0a :: [x64; x65; x66]) /\
  fp_size fp < size_modulus /\
  fp_pos fp = len (@nil byte) /\
  Forall (fun x => is_line_end x = false) [x61; x62; x63] /\
  is_line_end x0a = true /\
  len [x61; x62; x63] + 1 <= 16 - 1 /\
  16 < size_modulus /\
  exists m',
    fb_gets fp zero_memory 0 16
    = Some (Some 0, set_pos fp (len (@nil byte) + len [x61; x62; x63] + 1), m') /\
    load m' 0 (len [x61; x62; x63] + 2) = [x61; x62; x63] ++ [x0a; x00] /\
    (forall a, a < 0 \/ 0 + len [x61; x62; x63] + 2 <= a -> m' a = zero_memory a).
Proof.
  cbv zeta.
  assert (Hs : Forall (fun x => is_line_end x = false) [x61; x62; x63])
    by (repeat constructor).
  assert (Hroom : len [x61; x62; x63] + 1 <= 16 - 1) by discriminate.
  repeat (split; [first [reflexivity | exact Hs | exact Hroom] |]).
  exact (fb_gets_returns_line_with_terminator
           (buffered FB_BUNDLE 0 abc_def 0) [] [x61; x62; x63] [x64; x65; x66]
           x0a zero_memory 0 16
           eq_refl eq_refl eq_refl eq_refl Hs eq_refl Hroom eq_refl).
Defined.

Lemma fb_gets_full_buffer_drops_byte_witness :
  let fp := buffered FB_BUNDLE 0 abc_def 0 in
  fp_buf fp = Some ([] ++ [x61; x62] ++ x63 :: [x0a; x64; x65; x66]) /\
  fp_size fp = len ([] ++ [x61; x62] ++ x63 :: [x0a; x64; x65; x66]) /\
  fp_size fp < size_modulus /\
  fp_pos fp = len (@nil byte) /\
  Forall (fun y => is_line_end y = false) [x61; x62] /\
  len [x61; x62] = 3 - 1 /\
  3 < size_modulus /\
  exists m',
    fb_gets fp zero_memory 0 3
    = Some (Some 0, set_pos fp (len (@nil byte) + 3), m') /\
    load m' 0 3 = [x61; x62] ++ [x00] /\
    (forall a, a < 0 \/ 0 + 3 <= a -> m' a = zero_memory a).
Proof.
  cbv zeta.
  assert (Hs : Forall (fun y => is_line_end y = false) [x61; x62])
    by (repeat constructor).
  repeat (split; [first [reflexivity | exact Hs] |]).
  exact (fb_gets_full_buffer_drops_byte
           (buffered FB_BUNDLE 0 abc_def 0) [] [x61; x62] [x0a; x64; x65; x66]
           x63 zero_memory 0 3
           eq_refl eq_refl eq_refl eq_refl Hs eq_refl eq_refl).
Defined.

Lemma fb_gets_unterminated_tail_is_null_witness :
  let fp := buffered FB_BUNDLE 0 abc_def 4 in
  fp_buf fp = Some ([x61; x62; x63; x0a] ++ [x64; x65; x66]) /\
  fp_size fp = len ([x61; x62; x63; x0a] ++ [x64; x65; x66]) /\
  fp_size fp < size_modulus /\
  fp_pos fp = len [x61; x62; x63; x0a] /\
  Forall (fun y => is_line_end y = false) [x64; x65; x66] /\
  len [x64; x65; x66] <= 16 - 1 /\
  16 < size_modulus /\
  exists m',
    fb_gets fp zero_memory 0 16 = Some (None, set_pos fp (fp_size fp), m') /\
    load m' 0 (len [x64; x65; x66]) = [x64; x65; x66] /\
    (forall a, a < 0 \/ 0 + len [x64; x65; x66] <= a -> m' a = zero_memory a) /\
    forall m2 buf2 count2,
      fb_gets (set_pos fp (fp_size fp)) m2 buf2 count2
      = Some (None, set_pos fp (fp_size fp), m2).
Proof.
  cbv zeta.
  assert (Hs : Forall (fun y => is_line_end y = false) [x64; x65; x66])
    by (repeat constructor).
  assert (Hroom : len [x64; x65; x66] <= 16 - 1) by discriminate.
  repeat (split; [first [reflexivity | exact Hs | exact Hroom] |]).
  exact (fb_gets_unterminated_tail_is_null
           (buffered FB_BUNDLE 0 abc_def 4) [x61; x62; x63; x0a] [x64; x65; x66]
           zero_memory 0 16
           eq_refl eq_refl eq_refl eq_refl Hs Hroom eq_refl).
Defined.

Lemma fb_gets_direct_stream_is_null_witness :
  let fp := mk_fb_file FB_DIRECT 7 0 None 0 (Some abc_def) NULL in
  fp_type fp = FB_DIRECT /\
  fp_buf fp = None /\
  exists fp' m',
    fb_gets fp zero_memory 0 16 = Some (None, fp', m') /\
    fp_type fp' = FB_DIRECT /\ fp_buf fp' = None.
Proof.
  cbv zeta. split; [reflexivity | split; [reflexivity |]].
  exact (fb_gets_direct_stream_is_null
           (mk_fb_file FB_DIRECT 7 0 None 0 (Some abc_def) NULL)
           zero_memory 0 16 eq_refl eq_refl).
Defined.

(** ** Opening by path: where the path is cut *)

Lemma strrchr_last_slash (d name : string) :
  ~ In "/"%char (list_ascii_of_string name) ->
  strrchr (d ++ String "/" name) "/" = Some (String.length d).
Proof.
  intros Hn. induction d as [| a d IH]; simpl.
  - rewrite (strrchr_absent name "/" Hn). reflexivity.
  - rewrite IH. reflexivity.
Qed.

Lemma substring_whole (s : string) : substring 0 (String.length s) s = s.
Proof. induction s as [| a s IH]; simpl; [reflexivity | rewrite IH; reflexivity]. Qed.

Lemma substring_before (d rest : string) :
  substring 0 (String.length d) (d ++ rest) = d.
Proof.
  induction d as [| a d IH]; simpl.
  - destruct rest; reflexivity.
  - rewrite IH. reflexivity.
Qed.

Lemma substring_after (d name : string) :
  substring (S (String.length d))
            (String.length (d ++ String "/" name) - S (String.length d))
            (d ++ String "/" name)
  = name.
Proof.
  induction d as [| a d IH]; simpl.
  - rewrite Nat.sub_0_r. apply substring_whole.
  - exact IH.
Qed.

Section OpenByPath.
Context {zlib : Zlib}.

(** [fb_open] cuts the path at its last ['/'].  For a final component
    without ['/'], it does what [fb_opendir] on the part before and then
    [fb_open2] on the component do, with the same result and the same
    things held at the end (its copy of the path is freed on every way
    out).  When the directory does not open, it returns [NULL] and holds
    what it held before. *)
Theorem fb_open_splits_at_last_slash
        (env : environment) (d name : string) (decompress compress : Z)
        (l : ledger) :
  ~ In "/"%char (list_ascii_of_string name) ->
  fb_open env (d ++ String "/" name) decompress compress l
  = match fb_opendir env d l with
    | Done (Some dir) l1 => fb_open2 env dir name decompress compress l1
    | Done None _ => Done None l
    | Abort => Abort
    end.
Proof.
  intros Hn. unfold fb_open.
  rewrite (strrchr_last_slash d name Hn), substring_before, substring_after.
  destruct (fb_opendir_ledger env d) as (rd & Hrd).
  unfold bind, malloc. cbv beta iota. rewrite !Hrd.
  destruct rd as [dir |].
  - destruct (Z.eq_dec decompress 0) as [Hd | Hd];
      [| destruct (Z.eq_dec compress 0) as [Hc | Hc]].
    + destruct (fb_open2_ledger env dir name decompress compress (or_introl Hd))
        as (r & Hr).
      rewrite !Hr. run. f_equal. simpl.
      unfold dir_holds. destruct (dir_type dir); ledger.
    + destruct (fb_open2_ledger env dir name decompress compress (or_intror Hc))
        as (r & Hr).
      rewrite !Hr. run. f_equal. simpl.
      unfold dir_holds. destruct (dir_type dir); ledger.
    + apply Z.eqb_neq in Hd, Hc.
      unfold fb_open2, bind, assert. rewrite Hd, Hc. reflexivity.
  - run. f_equal. ledger.
Qed.

End OpenByPath.

Lemma fb_open_splits_at_last_slash_witness :
  ~ In "/"%char (list_ascii_of_string "lines.txt") /\
  fb_open sample_bundle ("docs" ++ String "/" "lines.txt") 1 0 no_resources
  = match fb_opendir sample_bundle "docs" no_resources with
    | Done (Some dir) l1 => fb_open2 sample_bundle dir "lines.txt" 1 0 l1
    | Done None _ => Done None no_resources
    | Abort => Abort
    end.
Proof.
  assert (H : ~ In "/"%char (list_ascii_of_string "lines.txt")).
  { simpl. intuition discriminate. }
  split; [exact H |].
  exact (fb_open_splits_at_last_slash sample_bundle "docs" "lines.txt" 1 0
           no_resources H).
Defined.

(** ** Segments and slashes *)

(** In bundle mode slashes in excess change nothing: a path with a trailing
    ['/'] or with a doubled ['/'] opens the directory that the path
    without them opens, since strtok skips empty segments. *)
Theorem fb_opendir_ignores_extra_slashes
        (env : environment) (a b : string) (l : ledger) :
  tvheadend_dataroot env = None ->
  prefix "/" a = false ->
  a <> EmptyString ->
  fb_opendir env (a ++ "/") l = fb_opendir env a l /\
  fb_opendir env (a ++ String "/" (String "/" b)) l
  = fb_opendir env (a ++ String "/" b) l.
Proof.
  intros Hroot Hpre Ha.
  apply not_absolute_prefix in Hpre.
  assert (Hrel : forall x, not_absolute (a ++ x) = true).
  { intros x. destruct a as [| c a']; [contradiction Ha; reflexivity | exact Hpre]. }
  split.
  - rewrite (fb_opendir_bundle_mode env (a ++ "/") l (Hrel _) Hroot),
      (fb_opendir_bundle_mode env a l Hpre Hroot).
    rewrite strtok_all_slash. change (strtok_all "") with (@nil string).
    rewrite app_nil_r. reflexivity.
  - rewrite (fb_opendir_bundle_mode env _ l (Hrel (String "/" (String "/" b))) Hroot),
      (fb_opendir_bundle_mode env _ l (Hrel (String "/" b)) Hroot).
    rewrite !strtok_all_slash.
    change (String "/" b) with (EmptyString ++ String "/" b)%string.
    rewrite strtok_all_slash. reflexivity.
Qed.

Lemma fb_opendir_ignores_extra_slashes_witness :
  tvheadend_dataroot sample_bundle = None /\
  prefix "/" "docs" = false /\
  "docs"%string <> EmptyString /\
  fb_opendir sample_bundle ("docs" ++ "/") no_resources
  = fb_opendir sample_bundle "docs" no_resources /\
  fb_opendir sample_bundle ("docs" ++ String "/" (String "/" "sub")) no_resources
  = fb_opendir sample_bundle ("docs" ++ String "/" "sub") no_resources.
Proof.
  assert (H : "docs"%string <> EmptyString) by discriminate.
  split; [reflexivity | split; [reflexivity | split; [exact H |]]].
  exact (fb_opendir_ignores_extra_slashes sample_bundle "docs" "sub" no_resources
           eq_refl eq_refl H).
Defined.

(** ** Long names on the file system *)

Lemma substring_app_short (s t : string) :
  forall n, (n <= String.length s)%nat ->
            substring 0 n (s ++ t) = substring 0 n s.
Proof.
  induction s as [| x s IH]; intros n Hn; simpl in *.
  - assert (n = 0)%nat by lia. subst n. destruct t; reflexivity.
  - destruct n as [| n]; [reflexivity |]. rewrite IH by lia. reflexivity.
Qed.

Section LongNames.
Context {zlib : Zlib}.

(** The path of a file below a Direct directory is built in 512 bytes.
    Once root, ['/'] and name fill them (511 characters or more), whatever
    follows in the name is cut off: the longer name opens the same file,
    with the same result. *)
Theorem fb_open2_direct_cuts_long_names
        (env : environment) (dir : fb_dir) (name more : string)
        (decompress compress : Z) (l : ledger) :
  dir_type dir = FB_DIRECT ->
  (511 <= String.length (dir_d_root dir ++ "/" ++ name))%nat ->
  fb_open2 env dir (name ++ more) decompress compress l
  = fb_open2 env dir name decompress compress l.
Proof.
  intros Ht Hlong.
  assert (Hpath : snprintf_512 (dir_d_root dir) (name ++ more)
                  = snprintf_512 (dir_d_root dir) name).
  { unfold snprintf_512.
    replace (dir_d_root dir ++ "/" ++ name ++ more)%string
      with ((dir_d_root dir ++ "/" ++ name) ++ more)%string
      by (rewrite !string_app_assoc; reflexivity).
    apply substring_app_short. exact Hlong. }
  unfold fb_open2. rewrite Ht, Hpath. reflexivity.
Qed.

End LongNames.

Lemma fb_open2_direct_cuts_long_names_witness :
  dir_type sample_long_dir = FB_DIRECT /\
  (511 <= String.length (dir_d_root sample_long_dir ++ "/" ++ "a"))%nat /\
  fb_open2 sample_direct sample_long_dir ("a" ++ "b") 0 0 no_resources
  = fb_open2 sample_direct sample_long_dir "a" 0 0 no_resources.
Proof.
  assert (H : (511 <= String.length (dir_d_root sample_long_dir ++ "/" ++ "a"))%nat)
    by (vm_compute; lia).
  split; [reflexivity | split; [exact H |]].
  exact (fb_open2_direct_cuts_long_names
           sample_direct sample_long_dir "a" "b" 0 0 no_resources eq_refl H).
Defined.
